(** * Prosper Finance: tenant-scoped records, registration, dashboard

    A shallow embedding of the server side of the repository:
    - [server/storage.ts]  (class [DatabaseStorage]) as module [Storage];
    - [shared/schema.ts] and [shared/routes.ts] (the zod input schemas of
      the API contract) as module [Contract];
    - [server/routes.ts]   (the session-backed Express handlers) as
      module [Routes];
    - [api/index.ts]       (the self-contained serverless entry point) as
      module [Api].

    Tables are lists of rows, a [where] clause is a [filter], an
    [update ... set] is a [map] over the matching rows, and the database
    state is threaded explicitly through every operation. *)

From Stdlib Require Import ZArith QArith Qcanon Ascii String List Lia.
From stdpp Require Import base decidable option list strings sorting.

Local Open Scope Z_scope.
Local Open Scope string_scope.

(** ** JavaScript values used by the handlers *)

Module Js.

(** A JS number.  The source computes with IEEE doubles; the embedding
    uses exact rationals plus [NaN].  The two agree whenever the double
    operations are exact (for instance 1200 / 12).  Infinities are not
    represented: the handlers only ever divide by 12 or by 1. *)
Inductive number : Type :=
| NaN
| Num (q : Qc).

Definition of_Z (z : Z) : number := Num (Q2Qc (inject_Z z)).

Definition nadd (x y : number) : number :=
  match x, y with
  | Num a, Num b => Num (a + b)%Qc
  | _, _ => NaN
  end.

Definition nmul (x y : number) : number :=
  match x, y with
  | Num a, Num b => Num (a * b)%Qc
  | _, _ => NaN
  end.

Definition ndiv (x y : number) : number :=
  match x, y with
  | Num a, Num b => if Qc_eq_dec b 0%Qc then NaN else Num (a / b)%Qc
  | _, _ => NaN
  end.

(** Characters *)
Definition is_space (c : ascii) : bool :=
  let n := nat_of_ascii c in
  ((n =? 32) || (n =? 9) || (n =? 10) || (n =? 11) || (n =? 12) || (n =? 13))%nat.

Definition digit_of (c : ascii) : option Z :=
  let n := Z.of_nat (nat_of_ascii c) in
  if ((48 <=? n) && (n <=? 57))%Z then Some (n - 48) else None.

Fixpoint skip_spaces (s : string) : string :=
  match s with
  | String c r => if is_space c then skip_spaces r else s
  | EmptyString => EmptyString
  end.

(** [String.prototype.trim] (ASCII white space). *)
Definition trim (s : string) : string :=
  String.rev (skip_spaces (String.rev (skip_spaces s))).

(** [s.length]: the number of UTF-16 code units of the text.  A
    [string] holds the UTF-8 bytes of the text: the byte that starts a
    character counts one unit, two when the character takes four bytes
    (it lies outside the basic plane and is a surrogate pair in JS), and
    the continuation bytes of a sequence count none. *)
Definition is_continuation (c : ascii) : bool :=
  let n := nat_of_ascii c in ((128 <=? n) && (n <? 192))%nat.

Definition code_units (c : ascii) : nat :=
  if (240 <=? nat_of_ascii c)%nat then 2%nat else 1%nat.

Definition continuation_bytes (c : ascii) : nat :=
  let n := nat_of_ascii c in
  if (n <? 192)%nat then 0%nat
  else if (n <? 224)%nat then 1%nat
  else if (n <? 240)%nat then 2%nat
  else 3%nat.

Fixpoint length_from (pending : nat) (s : string) : nat :=
  match s with
  | EmptyString => 0%nat
  | String c r =>
      match pending with
      | S k =>
          if is_continuation c then length_from k r
          else (code_units c + length_from (continuation_bytes c) r)%nat
      | O => (code_units c + length_from (continuation_bytes c) r)%nat
      end
  end.

Definition length (s : string) : nat := length_from 0 s.

(** Truthiness of a string: [""] is falsy. *)
Definition truthy (s : string) : bool :=
  match s with EmptyString => false | _ => true end.

(** Truthiness of [string | null | undefined]. *)
Definition truthy_opt (o : option string) : bool :=
  match o with Some s => truthy s | None => false end.

(** [x || d] on [string | null]. *)
Definition or_default (o : option string) (d : string) : string :=
  match o with
  | Some s => if truthy s then s else d
  | None => d
  end.

Definition startsWith (s p : string) : bool := String.prefix p s.

Definition includes (s p : string) : bool :=
  match String.index 0 p s with Some _ => true | None => false end.

(** Scanning a run of decimal digits: accumulated value, number of
    digits read, remaining input. *)
Fixpoint scan_digits (acc : Z) (cnt : nat) (s : string) : Z * nat * string :=
  match s with
  | String c r =>
      match digit_of c with
      | Some d => scan_digits (10 * acc + d) (S cnt) r
      | None => (acc, cnt, s)
      end
  | EmptyString => (acc, cnt, s)
  end.

(** The decimal literal at the head of [s] (after an optional sign):
    value and remaining input, or [None] when no digit is present.
    Exponents and the literal [Infinity] are not scanned; a Postgres
    [numeric] column prints neither. *)
Definition scan_decimal (s : string) : option (Qc * string) :=
  let '(neg, s1) :=
    match s with
    | String "-" r => (true, r)
    | String "+" r => (false, r)
    | _ => (false, s)
    end in
  let '(ip, n1, s2) := scan_digits 0 0 s1 in
  let '(all, n2, s3) :=
    match s2 with
    | String "." r => scan_digits ip 0 r
    | _ => (ip, 0%nat, s2)
    end in
  if ((n1 + n2)%nat =? 0)%nat then None
  else
    let v := Q2Qc (Qmake (if neg then - all else all) (Z.to_pos (10 ^ Z.of_nat n2))) in
    Some (v, s3).

(** [parseFloat]: the longest numeric prefix after leading white space. *)
Definition parseFloat (s : string) : number :=
  match scan_decimal (skip_spaces s) with
  | Some (v, _) => Num v
  | None => NaN
  end.

(** [Number(s)] on a string: the whole trimmed string must be a
    numeral; the empty string converts to 0. *)
Definition Number (s : string) : number :=
  let t := trim s in
  match t with
  | EmptyString => of_Z 0
  | _ =>
      match scan_decimal t with
      | Some (v, EmptyString) => Num v
      | _ => NaN
      end
  end.

(** *** Dates

    A [Date] is its time value: milliseconds since the epoch, or [None]
    for an invalid date.  [Date_parse] covers the format a Postgres
    [date] column is read back in, [YYYY-MM-DD], which JS parses as
    midnight UTC. *)
Definition msPerDay : Z := 1000 * 60 * 60 * 24.

Definition days_from_civil (y m d : Z) : Z :=
  let y' := if (m <=? 2)%Z then y - 1 else y in
  let era := y' / 400 in
  let yoe := y' - era * 400 in
  let mp := if (2 <? m)%Z then m - 3 else m + 9 in
  let doy := (153 * mp + 2) / 5 + d - 1 in
  let doe := yoe * 365 + yoe / 4 - yoe / 100 + doy in
  era * 146097 + doe - 719468.

Definition is_leap (y : Z) : bool :=
  (((y mod 4 =? 0) && negb (y mod 100 =? 0)) || (y mod 400 =? 0))%Z.

Definition days_in_month (y m : Z) : Z :=
  if (m =? 2)%Z then (if is_leap y then 29 else 28)
  else if ((m =? 4) || (m =? 6) || (m =? 9) || (m =? 11))%Z then 30
  else 31.

Definition Date_parse (s : string) : option Z :=
  match scan_digits 0 0 s with
  | (y, 4%nat, String "-" r1) =>
      match scan_digits 0 0 r1 with
      | (m, 2%nat, String "-" r2) =>
          match scan_digits 0 0 r2 with
          | (d, 2%nat, EmptyString) =>
              if ((1 <=? m) && (m <=? 12) && (1 <=? d) && (d <=? days_in_month y m))%Z
              then Some (days_from_civil y m d * msPerDay)
              else None
          | _ => None
          end
      | _ => None
      end
  | _ => None
  end.

(** The time zone of the server is taken as given: [LocalTZA t isUTC]
    is the offset of its local time from UTC in milliseconds, at the UTC
    time [t] when [isUTC] and at the local time [t] otherwise. *)
Class TimeZone : Type := {
  LocalTZA : Z -> bool -> Z;
}.

(** [d.setDate(d.getDate() + days)] on the time value [t]: the calendar
    day of the local time moves by [days] and the local time of day is
    kept, so the result is [days] days of milliseconds later unless the
    offset of the zone differs at the two ends. *)
Definition setDate_plus {tz : TimeZone} (t days : Z) : Z :=
  let local := t + LocalTZA t true in
  let newDate := local + days * msPerDay in
  newDate - LocalTZA newDate false.

(** Relational comparison of two time values; any comparison with an
    invalid date is false. *)
Definition date_le (a b : option Z) : bool :=
  match a, b with Some x, Some y => (x <=? y)%Z | _, _ => false end.

Definition date_lt (a b : option Z) : bool :=
  match a, b with Some x, Some y => (x <? y)%Z | _, _ => false end.

(** The replacement text of [String.prototype.replace] for a string
    pattern, which has no captures: [$$] is a dollar sign, [$&] the
    matched text, [$`] the text before the match and [$'] the text after
    it; any other [$] stands for itself. *)
Fixpoint substitution (matched before after replacement : string) : string :=
  match replacement with
  | EmptyString => EmptyString
  | String c r =>
      if negb (Ascii.eqb c "$") then String c (substitution matched before after r)
      else
        match r with
        | EmptyString => String c EmptyString
        | String d r' =>
            if Ascii.eqb d "$"
            then String "$" (substitution matched before after r')
            else if Ascii.eqb d "&"
            then String.append matched (substitution matched before after r')
            else if Ascii.eqb d "`"
            then String.append before (substitution matched before after r')
            else if Ascii.eqb d "'"
            then String.append after (substitution matched before after r')
            else String c (substitution matched before after r)
        end
  end.

(** [s.replace(pattern, replacement)] for a string [pattern]: only the
    first occurrence is replaced. *)
Definition replace (s pattern replacement : string) : string :=
  match String.index 0 pattern s with
  | None => s
  | Some i =>
      let before := String.substring 0 i s in
      let after :=
        String.substring (i + String.length pattern)
          (String.length s - (i + String.length pattern)) s in
      String.append before
        (String.append (substitution pattern before after replacement) after)
  end.

End Js.

(** ** Rows of the four tables ([shared/schema.ts], [shared/models/auth.ts])

    A nullable column is an [option]; a [timestamp] column holds a time
    value; [date], [numeric] and [text] columns are read back as strings. *)

Module Tenant.
Record t : Type := mk {
  id : string;
  name : string;
  domain : option string;
  subdomain : option string;
  createdAt : option Z;
}.
End Tenant.

Module User.
Record t : Type := mk {
  id : string;
  email : string;
  passwordHash : option string;
  firstName : option string;
  lastName : option string;
  profileImageUrl : option string;
  tenantId : option string;
  role : option string;
  createdAt : option Z;
  updatedAt : option Z;
}.
End User.

Module Policy.
Record t : Type := mk {
  id : Z;
  tenantId : string;
  provider : string;
  policyName : string;
  policyNumber : option string;
  policyType : string;
  country : string;
  startDate : string;
  maturityDate : option string;
  nextRenewalDate : option string;
  lastPremiumDate : option string;
  premium : option string;
  premiumCurrency : option string;
  premiumFrequency : option string;
  nominee : option string;
  beneficiaryType : option string;
  paidTo : option string;
  renewalStatus : option string;
  notes : option string;
  documentUrl : option string;
  createdAt : option Z;
}.
End Policy.

Module Investment.
Record t : Type := mk {
  id : Z;
  tenantId : string;
  type : string;
  platform : string;
  country : string;
  currency : string;
  initialAmount : string;
  currentValue : string;
  shares : option string;
  purchaseDate : option string;
  lastUpdated : option Z;
  createdAt : option Z;
}.
End Investment.

(** A property of a JS object handed to drizzle or produced by zod: the
    key is missing (or [undefined]), holds [null], or holds a value. *)
Inductive prop (A : Type) : Type :=
| Undefined
| Null
| Value (a : A).
Arguments Undefined {A}.
Arguments Null {A}.
Arguments Value {A} & a.

#[global] Instance prop_eq_dec {A} `{EqDecision A} : EqDecision (prop A).
Proof. solve_decision. Defined.

(** The value written for a nullable column by an [insert]: [undefined]
    takes the column default, [null] stores NULL. *)
Definition insert_nullable {A} (dflt : option A) (p : prop A) : option A :=
  match p with
  | Undefined => dflt
  | Null => None
  | Value a => Some a
  end.

(** The value a nullable column has after [update ... set]: a missing
    key leaves the column alone. *)
Definition set_nullable {A} (old : option A) (p : prop A) : option A :=
  match p with
  | Undefined => old
  | Null => None
  | Value a => Some a
  end.

(** The same for a NOT NULL column, whose key is either missing or set. *)
Definition set_required {A} (old : A) (p : option A) : A :=
  match p with
  | None => old
  | Some a => a
  end.

(** ** The database *)

Record Db : Type := mkDb {
  tenants : list Tenant.t;
  users : list User.t;
  policies : list Policy.t;
  investments : list Investment.t;
  policies_id_seq : Z;
  investments_id_seq : Z;
}.

(** The range of an [integer] ([serial]) column, and of a parameter
    compared with one. *)
Definition int4 (z : Z) : bool :=
  (-2147483648 <=? z)%Z && (z <=? 2147483647)%Z.

(** PostgreSQL's input functions for the [date] and [numeric] types are
    taken as given: whether the text bound to a parameter of the type is
    accepted as a value of it.  A text that is refused makes the
    statement fail before it runs.  An accepted text is kept as it was
    written; PostgreSQL reads it back in the output format of the type,
    which is the same text when it was written in that format.  A
    [text] column takes every string. *)
Class Postgres : Type := {
  date_in : string -> bool;
  numeric_in : string -> bool;
}.

(** What a statement bound to such a text does with it. *)
Definition accepted (input : string -> bool) (text : option string) : bool :=
  match text with
  | Some s => input s
  | None => true
  end.

(** SQL equality between a column and a bound parameter.  A parameter
    that is [undefined] at run time (a session without tenant) is bound
    as NULL, and a comparison with NULL selects no row. *)
Definition sql_eq (col : string) (param : option string) : bool :=
  match param with
  | Some v => bool_decide (col = v)
  | None => false
  end.

Definition sql_eq_null (col : option string) (param : option string) : bool :=
  match col with
  | Some c => sql_eq c param
  | None => false
  end.

(** [orderBy(desc(createdAt))]: newest first, NULL before every value. *)
Definition desc_le (a b : option Z) : bool :=
  match a, b with
  | None, _ => true
  | Some _, None => false
  | Some x, Some y => (y <=? x)%Z
  end.

(** ** The values handed to [insert] and [update]

    [InsertPolicy] and [InsertInvestment] are the zod output types of
    [insertPolicySchema] and [insertInvestmentSchema]; the [Update...]
    records are their [Partial]s.  [tenantId] is an [option] in the insert
    records because the handler writes [req.session.tenantId!] into it,
    which is [undefined] for a session without tenant. *)

Record InsertTenant : Type := {
  it_name : string;
  it_domain : option string;
  it_subdomain : option string;
}.

Record InsertUser : Type := {
  iu_email : string;
  iu_passwordHash : string;
  iu_firstName : option string;
  iu_lastName : option string;
  iu_tenantId : option string;
  iu_role : option string;
}.

Record InsertPolicy : Type := {
  ip_tenantId : option string;
  ip_provider : string;
  ip_policyName : string;
  ip_policyNumber : prop string;
  ip_policyType : string;
  ip_country : string;
  ip_startDate : option string;
  ip_maturityDate : option string;
  ip_nextRenewalDate : option string;
  ip_lastPremiumDate : option string;
  ip_premium : prop string;
  ip_premiumCurrency : prop string;
  ip_premiumFrequency : prop string;
  ip_nominee : prop string;
  ip_beneficiaryType : prop string;
  ip_paidTo : prop string;
  ip_notes : prop string;
  ip_documentUrl : prop string;
}.

Record UpdatePolicyRequest : Type := {
  up_tenantId : option string;
  up_provider : option string;
  up_policyName : option string;
  up_policyNumber : prop string;
  up_policyType : option string;
  up_country : option string;
  up_startDate : option string;
  up_maturityDate : option string;
  up_nextRenewalDate : option string;
  up_lastPremiumDate : option string;
  up_premium : prop string;
  up_premiumCurrency : prop string;
  up_premiumFrequency : prop string;
  up_nominee : prop string;
  up_beneficiaryType : prop string;
  up_paidTo : prop string;
  up_notes : prop string;
  up_documentUrl : prop string;
}.

Record InsertInvestment : Type := {
  ii_tenantId : option string;
  ii_type : string;
  ii_platform : string;
  ii_country : option string;
  ii_currency : option string;
  ii_initialAmount : string;
  ii_currentValue : string;
  ii_shares : option string;
  ii_purchaseDate : option string;
  ii_lastUpdated : option string;
}.

Record UpdateInvestmentRequest : Type := {
  ui_tenantId : option string;
  ui_type : option string;
  ui_platform : option string;
  ui_country : option string;
  ui_currency : option string;
  ui_initialAmount : option string;
  ui_currentValue : option string;
  ui_shares : option string;
  ui_purchaseDate : option string;
  ui_lastUpdated : option string;
}.

(** The result of a statement that writes: the row it returns, if it did
    not throw, and the database afterwards. *)
Definition written (A : Type) : Type := (option A * Db)%type.

(** The result of a call that may throw. *)
Inductive result (A : Type) : Type :=
| Throws
| Returns (a : A).
Arguments Throws {A}.
Arguments Returns {A} a.

(** ** [server/storage.ts]: class [DatabaseStorage]

    Every method takes the database and, when it writes, returns the new
    one.  [now] is the reading of the clock ([new Date()], [defaultNow()])
    and [newId] the value [gen_random_uuid()] produces for the row. *)

Module Storage.

Definition set_tenants (db : Db) (l : list Tenant.t) : Db :=
  mkDb l (users db) (policies db) (investments db)
       (policies_id_seq db) (investments_id_seq db).

Definition set_users (db : Db) (l : list User.t) : Db :=
  mkDb (tenants db) l (policies db) (investments db)
       (policies_id_seq db) (investments_id_seq db).

Definition set_policies (db : Db) (l : list Policy.t) (seq : Z) : Db :=
  mkDb (tenants db) (users db) l (investments db)
       seq (investments_id_seq db).

Definition set_investments (db : Db) (l : list Investment.t) (seq : Z) : Db :=
  mkDb (tenants db) (users db) (policies db) l
       (policies_id_seq db) seq.

(** *** Tenants *)

Definition getTenant (db : Db) (id : string) : option Tenant.t :=
  head (filter (fun t => Tenant.id t = id) (tenants db)).

Definition getTenantByDomain (db : Db) (domain : string) : option Tenant.t :=
  head (filter (fun t => Tenant.domain t = Some domain) (tenants db)).

(** The insert throws on a violated constraint: the primary key, or
    the UNIQUE [domain] and [subdomain] columns (NULLs never clash). *)
Definition tenant_conflict (db : Db) (t : Tenant.t) : bool :=
  existsb (fun u =>
    bool_decide (Tenant.id u = Tenant.id t)
    || match Tenant.domain t with
       | Some d => bool_decide (Tenant.domain u = Some d)
       | None => false
       end
    || match Tenant.subdomain t with
       | Some d => bool_decide (Tenant.subdomain u = Some d)
       | None => false
       end) (tenants db).

Definition createTenant (db : Db) (newId : string) (now : Z)
    (tenant : InsertTenant) : written Tenant.t :=
  let newTenant :=
    Tenant.mk newId (it_name tenant) (it_domain tenant)
              (it_subdomain tenant) (Some now) in
  if tenant_conflict db newTenant then (None, db)
  else (Some newTenant, set_tenants db (tenants db ++ [newTenant])).

(** *** Users *)

Definition getUser (db : Db) (id : string) : option User.t :=
  head (filter (fun u => User.id u = id) (users db)).

Definition getUserByEmail (db : Db) (email : string) : option User.t :=
  head (filter (fun u => User.email u = email) (users db)).

Definition user_conflict (db : Db) (u : User.t) : bool :=
  existsb (fun v =>
    bool_decide (User.id v = User.id u)
    || bool_decide (User.email v = User.email u)) (users db).

Definition createUser (db : Db) (newId : string) (now : Z)
    (user : InsertUser) : written User.t :=
  let newUser :=
    User.mk newId (iu_email user) (Some (iu_passwordHash user))
            (iu_firstName user) (iu_lastName user) None
            (iu_tenantId user)
            (Some (Js.or_default (iu_role user) "user"))
            (Some now) (Some now) in
  if user_conflict db newUser then (None, db)
  else (Some newUser, set_users db (users db ++ [newUser])).

Definition with_tenantId (u : User.t) (t : option string) : User.t :=
  User.mk (User.id u) (User.email u) (User.passwordHash u)
          (User.firstName u) (User.lastName u) (User.profileImageUrl u)
          t (User.role u) (User.createdAt u) (User.updatedAt u).

Definition with_role (u : User.t) (r : option string) : User.t :=
  User.mk (User.id u) (User.email u) (User.passwordHash u)
          (User.firstName u) (User.lastName u) (User.profileImageUrl u)
          (User.tenantId u) r (User.createdAt u) (User.updatedAt u).

Definition with_password (u : User.t) (h : string) (now : Z) : User.t :=
  User.mk (User.id u) (User.email u) (Some h)
          (User.firstName u) (User.lastName u) (User.profileImageUrl u)
          (User.tenantId u) (User.role u) (User.createdAt u) (Some now).

(** [update(t).set(f).where(c).returning()]: the rows after the write
    and the list of rows written. *)
Definition update_where {A} (c : A -> bool) (f : A -> A) (rows : list A)
    : list A * list A :=
  (map (fun r => if c r then f r else r) rows, map f (filter (fun r => c r = true) rows)).

(** [delete(t).where(c)] *)
Definition delete_where {A} (c : A -> bool) (rows : list A) : list A :=
  filter (fun r => c r = false) rows.

(** [select().from(t).where(c)] *)
Definition select_where {A} (c : A -> bool) (rows : list A) : list A :=
  filter (fun r => c r = true) rows.

Definition updateUserTenant (db : Db) (userId tenantId : string)
    : option User.t * Db :=
  let '(rows, updated) :=
    update_where (fun u => bool_decide (User.id u = userId))
                 (fun u => with_tenantId u (Some tenantId)) (users db) in
  (head updated, set_users db rows).

(** The query has no [ORDER BY]: the rows come in the order of the
    table, which is not an order the callers may rely on. *)
Definition getUsersByTenant (db : Db) (tenantId : option string) : list User.t :=
  select_where (fun u => sql_eq_null (User.tenantId u) tenantId) (users db).

Definition user_in (userId : string) (tenantId : option string) (u : User.t) : bool :=
  bool_decide (User.id u = userId) && sql_eq_null (User.tenantId u) tenantId.

Definition updateUserRole (db : Db) (userId : string)
    (tenantId : option string) (role : string) : option User.t * Db :=
  let '(rows, updated) :=
    update_where (user_in userId tenantId)
                 (fun u => with_role u (Some role)) (users db) in
  (head updated, set_users db rows).

Definition updateUserPassword (db : Db) (now : Z) (userId passwordHash : string)
    : option User.t * Db :=
  let '(rows, updated) :=
    update_where (fun u => bool_decide (User.id u = userId))
                 (fun u => with_password u passwordHash now) (users db) in
  (head updated, set_users db rows).

Definition removeUserFromTenant (db : Db) (userId : string)
    (tenantId : option string) : Db :=
  let '(rows, _) :=
    update_where (user_in userId tenantId)
                 (fun u => with_role (with_tenantId u None) (Some "user"))
                 (users db) in
  set_users db rows.

(** *** Policies *)

Definition by_createdAt_desc {A} (createdAt : A -> option Z) (a b : A) : Prop :=
  Is_true (desc_le (createdAt a) (createdAt b)).

Definition policy_in (id : Z) (tenantId : option string) (p : Policy.t) : bool :=
  bool_decide (Policy.id p = id) && sql_eq (Policy.tenantId p) tenantId.

Definition getPolicies (db : Db) (tenantId : option string) : list Policy.t :=
  merge_sort (by_createdAt_desc Policy.createdAt)
    (select_where (fun p => sql_eq (Policy.tenantId p) tenantId) (policies db)).

(** [id] is within the range of the column. *)
Definition getPolicy (db : Db) (id : Z) (tenantId : option string)
    : option Policy.t :=
  head (select_where (policy_in id tenantId) (policies db)).

Section Policies.

Context {pg : Postgres}.

(** The texts an insert binds to the [date] and [numeric] columns. *)
Definition insert_policy_accepted (policy : InsertPolicy) : bool :=
  accepted date_in (ip_startDate policy)
  && accepted date_in (ip_maturityDate policy)
  && accepted date_in (ip_nextRenewalDate policy)
  && accepted date_in (ip_lastPremiumDate policy)
  && accepted numeric_in (insert_nullable None (ip_premium policy)).

(** The insert is refused, and nothing happens, when a text is not
    accepted or the sequence has left the range of the column.
    Otherwise it draws [id] from the sequence, which stays advanced when
    the statement then fails on a NOT NULL column left [undefined] or on
    a primary-key clash. *)
Definition createPolicy (db : Db) (now : Z) (policy : InsertPolicy)
    : written Policy.t :=
  let id := policies_id_seq db in
  let failed := (None, set_policies db (policies db) (id + 1)) in
  if negb (insert_policy_accepted policy) || negb (int4 id) then (None, db)
  else
  match ip_tenantId policy, ip_startDate policy with
  | Some tenantId, Some startDate =>
      if existsb (fun p => bool_decide (Policy.id p = id)) (policies db)
      then failed
      else
        let newPolicy :=
          Policy.mk id tenantId (ip_provider policy) (ip_policyName policy)
            (insert_nullable None (ip_policyNumber policy))
            (ip_policyType policy) (ip_country policy) startDate
            (ip_maturityDate policy) (ip_nextRenewalDate policy)
            (ip_lastPremiumDate policy)
            (insert_nullable None (ip_premium policy))
            (insert_nullable (Some "SEK") (ip_premiumCurrency policy))
            (insert_nullable None (ip_premiumFrequency policy))
            (insert_nullable None (ip_nominee policy))
            (insert_nullable None (ip_beneficiaryType policy))
            (insert_nullable None (ip_paidTo policy))
            (Some "active")
            (insert_nullable None (ip_notes policy))
            (insert_nullable None (ip_documentUrl policy))
            (Some now) in
        (Some newPolicy, set_policies db (policies db ++ [newPolicy]) (id + 1))
  | _, _ => failed
  end.

(** [set(updates)] on one row: every key present in [updates] is
    written, [tenantId] included. *)
Definition set_policy (updates : UpdatePolicyRequest) (p : Policy.t) : Policy.t :=
  Policy.mk (Policy.id p)
    (set_required (Policy.tenantId p) (up_tenantId updates))
    (set_required (Policy.provider p) (up_provider updates))
    (set_required (Policy.policyName p) (up_policyName updates))
    (set_nullable (Policy.policyNumber p) (up_policyNumber updates))
    (set_required (Policy.policyType p) (up_policyType updates))
    (set_required (Policy.country p) (up_country updates))
    (set_required (Policy.startDate p) (up_startDate updates))
    (from_option Some (Policy.maturityDate p) (up_maturityDate updates))
    (from_option Some (Policy.nextRenewalDate p) (up_nextRenewalDate updates))
    (from_option Some (Policy.lastPremiumDate p) (up_lastPremiumDate updates))
    (set_nullable (Policy.premium p) (up_premium updates))
    (set_nullable (Policy.premiumCurrency p) (up_premiumCurrency updates))
    (set_nullable (Policy.premiumFrequency p) (up_premiumFrequency updates))
    (set_nullable (Policy.nominee p) (up_nominee updates))
    (set_nullable (Policy.beneficiaryType p) (up_beneficiaryType updates))
    (set_nullable (Policy.paidTo p) (up_paidTo updates))
    (Policy.renewalStatus p)
    (set_nullable (Policy.notes p) (up_notes updates))
    (set_nullable (Policy.documentUrl p) (up_documentUrl updates))
    (Policy.createdAt p).

(** No key of [updates] holds a value: every one is missing or
    [undefined]. *)
Definition sets_nothing (updates : UpdatePolicyRequest) : bool :=
  bool_decide
    (up_tenantId updates = None /\ up_provider updates = None
     /\ up_policyName updates = None /\ up_policyNumber updates = Undefined
     /\ up_policyType updates = None /\ up_country updates = None
     /\ up_startDate updates = None /\ up_maturityDate updates = None
     /\ up_nextRenewalDate updates = None
     /\ up_lastPremiumDate updates = None /\ up_premium updates = Undefined
     /\ up_premiumCurrency updates = Undefined
     /\ up_premiumFrequency updates = Undefined
     /\ up_nominee updates = Undefined
     /\ up_beneficiaryType updates = Undefined
     /\ up_paidTo updates = Undefined /\ up_notes updates = Undefined
     /\ up_documentUrl updates = Undefined).

(** The texts an update binds to the [date] and [numeric] columns. *)
Definition update_policy_accepted (updates : UpdatePolicyRequest) : bool :=
  accepted date_in (up_startDate updates)
  && accepted date_in (up_maturityDate updates)
  && accepted date_in (up_nextRenewalDate updates)
  && accepted date_in (up_lastPremiumDate updates)
  && accepted numeric_in (set_nullable None (up_premium updates)).

(** [set(updates)] throws "No values to set" when [updates] sets
    nothing, and the statement is refused when a text is not accepted;
    nothing is written then.  Otherwise the call returns the first row
    written, [None] ([undefined]) when the [where] clause selected
    nothing.  [id] is within the range of the column. *)
Definition updatePolicy (db : Db) (id : Z) (tenantId : option string)
    (updates : UpdatePolicyRequest) : result (option Policy.t) * Db :=
  if sets_nothing updates || negb (update_policy_accepted updates)
  then (Throws, db)
  else
    let '(rows, updated) :=
      update_where (policy_in id tenantId) (set_policy updates) (policies db) in
    (Returns (head updated), set_policies db rows (policies_id_seq db)).

End Policies.

(** [id] is within the range of the column. *)
Definition deletePolicy (db : Db) (id : Z) (tenantId : option string) : Db :=
  set_policies db (delete_where (policy_in id tenantId) (policies db))
               (policies_id_seq db).

(** *** Investments *)

Definition investment_in (id : Z) (tenantId : option string)
    (i : Investment.t) : bool :=
  bool_decide (Investment.id i = id) && sql_eq (Investment.tenantId i) tenantId.

Definition getInvestments (db : Db) (tenantId : option string)
    : list Investment.t :=
  merge_sort (by_createdAt_desc Investment.createdAt)
    (select_where (fun i => sql_eq (Investment.tenantId i) tenantId)
                  (investments db)).

(** [id] is within the range of the column. *)
Definition getInvestment (db : Db) (id : Z) (tenantId : option string)
    : option Investment.t :=
  head (select_where (investment_in id tenantId) (investments db)).

Section Investments.

Context {pg : Postgres}.

(** The texts an insert binds to the [numeric] and [date] columns. *)
Definition insert_investment_accepted (investment : InsertInvestment) : bool :=
  numeric_in (ii_initialAmount investment)
  && numeric_in (ii_currentValue investment)
  && accepted numeric_in (ii_shares investment)
  && accepted date_in (ii_purchaseDate investment).

(** As [createPolicy].  [lastUpdated] is a [timestamp] column while the
    schema makes its input a string: the column mapper expects a [Date]
    and throws on a string while the statement is built, so only the
    default can be stored. *)
Definition createInvestment (db : Db) (now : Z) (investment : InsertInvestment)
    : written Investment.t :=
  let id := investments_id_seq db in
  let failed := (None, set_investments db (investments db) (id + 1)) in
  if bool_decide (ii_lastUpdated investment <> None)
     || negb (insert_investment_accepted investment) || negb (int4 id)
  then (None, db)
  else
  match ii_tenantId investment, ii_lastUpdated investment with
  | Some tenantId, None =>
      if existsb (fun i => bool_decide (Investment.id i = id)) (investments db)
      then failed
      else
        let newInvestment :=
          Investment.mk id tenantId (ii_type investment) (ii_platform investment)
            (default "SWEDEN" (ii_country investment))
            (default "SEK" (ii_currency investment))
            (ii_initialAmount investment) (ii_currentValue investment)
            (ii_shares investment) (ii_purchaseDate investment)
            (Some now) (Some now) in
        (Some newInvestment,
         set_investments db (investments db ++ [newInvestment]) (id + 1))
  | _, _ => failed
  end.

(** [set(updatesWithTimestamp)] on one row, where
    [updatesWithTimestamp = { ...updates, lastUpdated: new Date() }]:
    the spread copies every key of [updates] and the literal key then
    overrides [lastUpdated], whatever [updates] held for it. *)
Definition set_investment (updates : UpdateInvestmentRequest) (now : Z)
    (i : Investment.t) : Investment.t :=
  Investment.mk (Investment.id i)
    (set_required (Investment.tenantId i) (ui_tenantId updates))
    (set_required (Investment.type i) (ui_type updates))
    (set_required (Investment.platform i) (ui_platform updates))
    (set_required (Investment.country i) (ui_country updates))
    (set_required (Investment.currency i) (ui_currency updates))
    (set_required (Investment.initialAmount i) (ui_initialAmount updates))
    (set_required (Investment.currentValue i) (ui_currentValue updates))
    (from_option Some (Investment.shares i) (ui_shares updates))
    (from_option Some (Investment.purchaseDate i) (ui_purchaseDate updates))
    (Some now)
    (Investment.createdAt i).

(** The texts an update binds to the [numeric] and [date] columns. *)
Definition update_investment_accepted (updates : UpdateInvestmentRequest) : bool :=
  accepted numeric_in (ui_initialAmount updates)
  && accepted numeric_in (ui_currentValue updates)
  && accepted numeric_in (ui_shares updates)
  && accepted date_in (ui_purchaseDate updates).

(** The statement always sets [lastUpdated]; it is refused, and nothing
    is written, when a text is not accepted.  [id] is within the range
    of the column. *)
Definition updateInvestment (db : Db) (now : Z) (id : Z)
    (tenantId : option string) (updates : UpdateInvestmentRequest)
    : result (option Investment.t) * Db :=
  if negb (update_investment_accepted updates) then (Throws, db)
  else
    let '(rows, updated) :=
      update_where (investment_in id tenantId) (set_investment updates now)
                   (investments db) in
    (Returns (head updated), set_investments db rows (investments_id_seq db)).

End Investments.

(** [id] is within the range of the column. *)
Definition deleteInvestment (db : Db) (id : Z) (tenantId : option string) : Db :=
  set_investments db (delete_where (investment_in id tenantId) (investments db))
                  (investments_id_seq db).

(** *** Dashboard *)

Record DashboardStats : Type := {
  totalPolicies : Z;
  expiringSoon : Z;
  needsRenewal : Z;
  totalInvestments : Z;
  investmentsByCurrency_SEK : Js.number;
  investmentsByCurrency_INR : Js.number;
}.

(** One turn of the [for (const p of policiesList)] loop on the pair of
    counters [(expiringSoon, needsRenewal)]. *)
Definition stats_step (now sixtyDaysFromNow : Z) (acc : Z * Z) (p : Policy.t)
    : Z * Z :=
  let '(expiringSoon, needsRenewal) := acc in
  let needsRenewal :=
    if Js.truthy_opt (Policy.nextRenewalDate p) then
      let renewal := Policy.nextRenewalDate p ≫= Js.Date_parse in
      if Js.date_le renewal (Some sixtyDaysFromNow)
      then needsRenewal + 1 else needsRenewal
    else needsRenewal in
  let expiringSoon :=
    if Js.truthy_opt (Policy.maturityDate p) then
      let maturity := Policy.maturityDate p ≫= Js.Date_parse in
      if Js.date_le maturity (Some sixtyDaysFromNow)
         && Js.date_lt (Some now) maturity
      then expiringSoon + 1 else expiringSoon
    else expiringSoon in
  (expiringSoon, needsRenewal).

Definition sum_currentValue (currency : string) (l : list Investment.t)
    : Js.number :=
  fold_left (fun sum inv => Js.nadd sum (Js.Number (Investment.currentValue inv)))
    (filter (fun inv => Investment.currency inv = currency) l) (Js.of_Z 0).

(** [now] is the instant both [new Date()] calls read;
    [setDate(now.getDate() + 60)] moves the calendar day of the server's
    local time forward by 60. *)
Definition getDashboardStats {tz : Js.TimeZone} (db : Db) (now : Z)
    (tenantId : option string) : DashboardStats :=
  let sixtyDaysFromNow := Js.setDate_plus now 60 in
  let policiesList := getPolicies db tenantId in
  let '(expiringSoon, needsRenewal) :=
    fold_left (stats_step now sixtyDaysFromNow) policiesList (0, 0) in
  let investmentsList := getInvestments db tenantId in
  {| totalPolicies := Z.of_nat (length policiesList);
     expiringSoon := expiringSoon;
     needsRenewal := needsRenewal;
     totalInvestments := Z.of_nat (length investmentsList);
     investmentsByCurrency_SEK := sum_currentValue "SEK" investmentsList;
     investmentsByCurrency_INR := sum_currentValue "INR" investmentsList |}.

End Storage.

(** ** The API contract: [shared/routes.ts] over [shared/schema.ts]

    A request body is a JSON object.  Its keys known to some schema are
    kept and zod strips every other key.  A key is missing, holds [null]
    or holds a value.  Under a key of the policy schemas, several of
    which accept [null], the value is a string or a value of another
    type, of which zod reports the name.  No key of the other schemas
    accepts [null], and a value that is not a string fails under them
    as [null] does, with the name of its type for "null" in the message;
    their keys hold strings only. *)

Inductive other_type : Type :=
| JNumber
| JBoolean
| JObject
| JArray.

(** The name zod reports for the type. *)
Definition received (t : other_type) : string :=
  match t with
  | JNumber => "number"
  | JBoolean => "boolean"
  | JObject => "object"
  | JArray => "array"
  end.

Inductive jvalue : Type :=
| Str (s : string)
| Other (t : other_type).

Coercion Str : string >-> jvalue.

#[global] Instance other_type_eq_dec : EqDecision other_type.
Proof. solve_decision. Defined.

#[global] Instance jvalue_eq_dec : EqDecision jvalue.
Proof. solve_decision. Defined.

Module Contract.

Inductive zod (A : Type) : Type :=
| ZodError (message : string)
| Parsed (a : A).
Arguments ZodError {A} message.
Arguments Parsed {A} a.

Definition bind {A B} (m : zod A) (k : A -> zod B) : zod B :=
  match m with
  | ZodError e => ZodError e
  | Parsed a => k a
  end.

Notation "'check' x <- m ; k" := (bind m (fun x => k))
  (at level 10, x name, m at level 100, k at level 200).

(** [z.string()] *)
Definition string_ (p : prop string) : zod string :=
  match p with
  | Undefined => ZodError "Required"
  | Null => ZodError "Expected string, received null"
  | Value s => Parsed s
  end.

(** [z.string().optional()] *)
Definition string_optional (p : prop string) : zod (option string) :=
  match p with
  | Undefined => Parsed None
  | Null => ZodError "Expected string, received null"
  | Value s => Parsed (Some s)
  end.

(** [z.string().min(n, message)] *)
Definition string_min (n : nat) (message : string) (p : prop string) : zod string :=
  check s <- string_ p ;
  if (n <=? Js.length s)%nat then Parsed s else ZodError message.

(** The transform shared by the date and optional fields:
    [val && val.trim() !== "" ? val : undefined]. *)
Definition non_blank (val : option string) : option string :=
  match val with
  | Some s => if Js.truthy s && negb (bool_decide (Js.trim s = "")) then Some s else None
  | None => None
  end.

(** The string under a key that may hold one: a value of another type
    is an issue. *)
Definition typed (p : prop jvalue) : zod (prop string) :=
  match p with
  | Undefined => Parsed Undefined
  | Null => Parsed Null
  | Value (Str s) => Parsed (Value s)
  | Value (Other t) => ZodError ("Expected string, received " ++ received t)
  end.

(** [z.string()] on a key of a policy body. *)
Definition required (p : prop jvalue) : zod string :=
  check q <- typed p ; string_ q.

(** [z.string().optional()] on a key of a policy body. *)
Definition optional (p : prop jvalue) : zod (option string) :=
  check q <- typed p ; string_optional q.

(** [z.string().min(1, "Start date is required")] on the [startDate]
    key of a policy body. *)
Definition startDate_required (p : prop jvalue) : zod string :=
  check q <- typed p ; string_min 1 "Start date is required" q.

(** [z.union([z.string(), z.null()]).optional().transform(...)]: a value
    that matches no member of the union is one issue of the union. *)
Definition date_field (p : prop jvalue) : zod (option string) :=
  match p with
  | Value (Str s) => Parsed (non_blank (Some s))
  | Value (Other _) => ZodError "Invalid input"
  | _ => Parsed None
  end.

(** [z.string().optional().transform(...)] *)
Definition optional_field (p : prop string) : zod (option string) :=
  check v <- string_optional p ; Parsed (non_blank v).

Record PolicyBody : Type := {
  pb_tenantId : prop jvalue;
  pb_provider : prop jvalue;
  pb_policyName : prop jvalue;
  pb_policyNumber : prop jvalue;
  pb_policyType : prop jvalue;
  pb_country : prop jvalue;
  pb_startDate : prop jvalue;
  pb_maturityDate : prop jvalue;
  pb_nextRenewalDate : prop jvalue;
  pb_lastPremiumDate : prop jvalue;
  pb_premium : prop jvalue;
  pb_premiumCurrency : prop jvalue;
  pb_premiumFrequency : prop jvalue;
  pb_nominee : prop jvalue;
  pb_beneficiaryType : prop jvalue;
  pb_paidTo : prop jvalue;
  pb_notes : prop jvalue;
  pb_documentUrl : prop jvalue;
}.

Record InvestmentBody : Type := {
  ib_tenantId : prop string;
  ib_type : prop string;
  ib_platform : prop string;
  ib_country : prop string;
  ib_currency : prop string;
  ib_initialAmount : prop string;
  ib_currentValue : prop string;
  ib_shares : prop string;
  ib_purchaseDate : prop string;
  ib_lastUpdated : prop string;
}.

(** [api.policies.create.input = insertPolicySchema.omit({ tenantId: true })]:
    the schema has no [tenantId] key, so the parsed object has none
    whatever the body held.  The keys are checked in the order of the
    columns, and the first issue is the one reported. *)
Definition policies_create_input (b : PolicyBody) : zod InsertPolicy :=
  check provider <- required (pb_provider b) ;
  check policyName <- required (pb_policyName b) ;
  check policyNumber <- typed (pb_policyNumber b) ;
  check policyType <- required (pb_policyType b) ;
  check country <- required (pb_country b) ;
  check startDate <- startDate_required (pb_startDate b) ;
  check maturityDate <- date_field (pb_maturityDate b) ;
  check nextRenewalDate <- date_field (pb_nextRenewalDate b) ;
  check lastPremiumDate <- date_field (pb_lastPremiumDate b) ;
  check premium <- typed (pb_premium b) ;
  check premiumCurrency <- typed (pb_premiumCurrency b) ;
  check premiumFrequency <- typed (pb_premiumFrequency b) ;
  check nominee <- typed (pb_nominee b) ;
  check beneficiaryType <- typed (pb_beneficiaryType b) ;
  check paidTo <- typed (pb_paidTo b) ;
  check notes <- typed (pb_notes b) ;
  check documentUrl <- typed (pb_documentUrl b) ;
  Parsed {|
    ip_tenantId := None;
    ip_provider := provider;
    ip_policyName := policyName;
    ip_policyNumber := policyNumber;
    ip_policyType := policyType;
    ip_country := country;
    ip_startDate := non_blank (Some startDate);
    ip_maturityDate := maturityDate;
    ip_nextRenewalDate := nextRenewalDate;
    ip_lastPremiumDate := lastPremiumDate;
    ip_premium := premium;
    ip_premiumCurrency := premiumCurrency;
    ip_premiumFrequency := premiumFrequency;
    ip_nominee := nominee;
    ip_beneficiaryType := beneficiaryType;
    ip_paidTo := paidTo;
    ip_notes := notes;
    ip_documentUrl := documentUrl |}.

(** [z.string().min(1, ...).transform(...)] made optional by [partial()]. *)
Definition startDate_partial (p : prop jvalue) : zod (option string) :=
  match p with
  | Undefined => Parsed None
  | _ => check s <- startDate_required p ; Parsed (non_blank (Some s))
  end.

(** [api.policies.update.input =
      insertPolicySchema.omit({ tenantId: true }).partial()] *)
Definition policies_update_input (b : PolicyBody) : zod UpdatePolicyRequest :=
  check provider <- optional (pb_provider b) ;
  check policyName <- optional (pb_policyName b) ;
  check policyNumber <- typed (pb_policyNumber b) ;
  check policyType <- optional (pb_policyType b) ;
  check country <- optional (pb_country b) ;
  check startDate <- startDate_partial (pb_startDate b) ;
  check maturityDate <- date_field (pb_maturityDate b) ;
  check nextRenewalDate <- date_field (pb_nextRenewalDate b) ;
  check lastPremiumDate <- date_field (pb_lastPremiumDate b) ;
  check premium <- typed (pb_premium b) ;
  check premiumCurrency <- typed (pb_premiumCurrency b) ;
  check premiumFrequency <- typed (pb_premiumFrequency b) ;
  check nominee <- typed (pb_nominee b) ;
  check beneficiaryType <- typed (pb_beneficiaryType b) ;
  check paidTo <- typed (pb_paidTo b) ;
  check notes <- typed (pb_notes b) ;
  check documentUrl <- typed (pb_documentUrl b) ;
  Parsed {|
    up_tenantId := None;
    up_provider := provider;
    up_policyName := policyName;
    up_policyNumber := policyNumber;
    up_policyType := policyType;
    up_country := country;
    up_startDate := startDate;
    up_maturityDate := maturityDate;
    up_nextRenewalDate := nextRenewalDate;
    up_lastPremiumDate := lastPremiumDate;
    up_premium := premium;
    up_premiumCurrency := premiumCurrency;
    up_premiumFrequency := premiumFrequency;
    up_nominee := nominee;
    up_beneficiaryType := beneficiaryType;
    up_paidTo := paidTo;
    up_notes := notes;
    up_documentUrl := documentUrl |}.

(** [api.investments.create.input = insertInvestmentSchema]: [tenantId]
    is a NOT NULL column without default and is not omitted, so it is a
    required key of the body. *)
Definition investments_create_input (b : InvestmentBody) : zod InsertInvestment :=
  check tenantId <- string_ (ib_tenantId b) ;
  check type <- string_ (ib_type b) ;
  check platform <- string_ (ib_platform b) ;
  check country <- string_optional (ib_country b) ;
  check currency <- string_optional (ib_currency b) ;
  check initialAmount <- string_ (ib_initialAmount b) ;
  check currentValue <- string_ (ib_currentValue b) ;
  check shares <- optional_field (ib_shares b) ;
  check purchaseDate <- optional_field (ib_purchaseDate b) ;
  check lastUpdated <- optional_field (ib_lastUpdated b) ;
  Parsed {|
    ii_tenantId := Some tenantId;
    ii_type := type;
    ii_platform := platform;
    ii_country := country;
    ii_currency := currency;
    ii_initialAmount := initialAmount;
    ii_currentValue := currentValue;
    ii_shares := shares;
    ii_purchaseDate := purchaseDate;
    ii_lastUpdated := lastUpdated |}.

(** [api.investments.update.input = insertInvestmentSchema.partial()]:
    [tenantId] is still a key of the schema, now optional. *)
Definition investments_update_input (b : InvestmentBody)
    : zod UpdateInvestmentRequest :=
  check tenantId <- string_optional (ib_tenantId b) ;
  check type <- string_optional (ib_type b) ;
  check platform <- string_optional (ib_platform b) ;
  check country <- string_optional (ib_country b) ;
  check currency <- string_optional (ib_currency b) ;
  check initialAmount <- string_optional (ib_initialAmount b) ;
  check currentValue <- string_optional (ib_currentValue b) ;
  check shares <- optional_field (ib_shares b) ;
  check purchaseDate <- optional_field (ib_purchaseDate b) ;
  check lastUpdated <- optional_field (ib_lastUpdated b) ;
  Parsed {|
    ui_tenantId := tenantId;
    ui_type := type;
    ui_platform := platform;
    ui_country := country;
    ui_currency := currency;
    ui_initialAmount := initialAmount;
    ui_currentValue := currentValue;
    ui_shares := shares;
    ui_purchaseDate := purchaseDate;
    ui_lastUpdated := lastUpdated |}.

(** [buildUrl(path, params)].  [params] is the list of entries
    [Object.entries(params)] yields, in that order, each value already
    rendered by [String(value)]; [None] is a call without [params]. *)
Definition buildUrl (path : string) (params : option (list (string * string)))
    : string :=
  match params with
  | None => path
  | Some entries =>
      fold_left
        (fun url entry =>
           let '(key, value) := entry in
           if Js.includes url (String.append ":" key)
           then Js.replace url (String.append ":" key) value
           else url)
        entries path
  end.

End Contract.

(** ** HTTP responses *)

Record AuthUser : Type := {
  au_id : string;
  au_email : string;
  au_firstName : option string;
  au_lastName : option string;
  au_role : option string;
  au_tenantId : option string;
}.

Record TypeRow : Type := {
  tr_type : string;
  tr_value : Js.number;
  tr_count : Z;
}.

Record PlatformRow : Type := {
  pr_platform : string;
  pr_value : Js.number;
  pr_count : Z;
}.

Record PremiumRow : Type := {
  provider : string;
  monthlyPremium : Js.number;
  yearlyPremium : Js.number;
  policyCount : Z;
  currency : string;
}.

Record Analytics : Type := {
  investmentsByType : list TypeRow;
  investmentsByPlatform : list PlatformRow;
  premiumsByProvider : list PremiumRow;
  upcomingRenewals : list unit;
}.

Inductive json : Type :=
| Message (message : string)
| OfAuthUser (u : AuthUser)
| OfUser (u : User.t)
| OfUsers (l : list User.t)
| OfPolicy (p : Policy.t)
| OfPolicies (l : list Policy.t)
| OfInvestment (i : Investment.t)
| OfInvestments (l : list Investment.t)
| OfStats (s : Storage.DashboardStats)
| OfAnalytics (a : Analytics)
| NoBody.

(** What a handler does with the request: it sends a response, or an
    error escapes it. *)
Inductive outcome : Type :=
| Sent (status : Z) (body : json)
| Thrown.

(** [req.session]: both keys are optional in [SessionData]. *)
Record Session : Type := {
  userId : option string;
  tenantId : option string;
}.

(** ** [server/routes.ts]: the session-backed handlers

    A handler takes the database, the session and the request, and
    returns what it sent with the database it leaves.  [id] is
    [Number(req.params.id)] for a path segment that is an integer
    numeral; a statement that compares the [id] column with a number
    outside the range of the column is refused, and the handlers that
    run it without a [catch] send nothing then. *)

Module Routes.

Definition isAuthenticated (s : Session) (next : outcome * Db) (db : Db)
    : outcome * Db :=
  if negb (Js.truthy_opt (userId s))
  then (Sent 401 (Message "Unauthorized"), db)
  else next.

(** *** Registration *)

Record RegisterBody : Type := {
  rb_email : prop string;
  rb_password : prop string;
  rb_firstName : prop string;
  rb_lastName : prop string;
  rb_domain : prop string;
}.

Record RegisterInput : Type := {
  ri_email : string;
  ri_password : string;
  ri_firstName : option string;
  ri_lastName : option string;
  ri_domain : string;
}.

Section Register.

(** zod's e-mail pattern and [bcrypt.hash(_, 10)] are taken as given. *)
Variable is_email : string -> bool.
Variable bcrypt_hash : string -> string.

Import Contract.

Definition registerSchema (b : RegisterBody) : zod RegisterInput :=
  check email <- string_ (rb_email b) ;
  check email <- (if is_email email then Parsed email
                  else ZodError "Invalid email") ;
  check password <-
    string_min 6 "Password must be at least 6 characters" (rb_password b) ;
  check firstName <- string_optional (rb_firstName b) ;
  check lastName <- string_optional (rb_lastName b) ;
  check domain <-
    string_min 2 "Domain must be at least 2 characters" (rb_domain b) ;
  Parsed {| ri_email := email; ri_password := password;
            ri_firstName := firstName; ri_lastName := lastName;
            ri_domain := domain |}.

Definition auth_user (user : User.t) : AuthUser :=
  {| au_id := User.id user; au_email := User.email user;
     au_firstName := User.firstName user; au_lastName := User.lastName user;
     au_role := User.role user; au_tenantId := User.tenantId user |}.

(** [POST /api/auth/register].  [newTenantId] and [newUserId] are the
    identifiers the database would generate, [now] its clock. *)
Definition post_auth_register (db : Db) (s : Session) (body : RegisterBody)
    (newTenantId newUserId : string) (now : Z)
    : outcome * Db * Session :=
  match registerSchema body with
  | ZodError message => (Sent 400 (Message message), db, s)
  | Parsed input =>
      match Storage.getUserByEmail db (ri_email input) with
      | Some _ => (Sent 400 (Message "Email already registered"), db, s)
      | None =>
          let '(tenant, db) :=
            match Storage.getTenantByDomain db (ri_domain input) with
            | Some tenant => (Some tenant, db)
            | None =>
                Storage.createTenant db newTenantId now
                  {| it_name := ri_domain input;
                     it_domain := Some (ri_domain input);
                     it_subdomain := Some (ri_domain input) |}
            end in
          match tenant with
          | None => (Sent 500 (Message "Registration failed"), db, s)
          | Some tenant =>
              let existingUsers :=
                Storage.getUsersByTenant db (Some (Tenant.id tenant)) in
              let isFirstUser := (length existingUsers =? 0)%nat in
              let passwordHash := bcrypt_hash (ri_password input) in
              match
                Storage.createUser db newUserId now
                  {| iu_email := ri_email input;
                     iu_passwordHash := passwordHash;
                     iu_firstName := ri_firstName input;
                     iu_lastName := ri_lastName input;
                     iu_tenantId := Some (Tenant.id tenant);
                     iu_role := Some (if isFirstUser then "admin" else "user") |}
              with
              | (None, db) => (Sent 500 (Message "Registration failed"), db, s)
              | (Some user, db) =>
                  (Sent 201 (OfAuthUser (auth_user user)), db,
                   {| userId := Some (User.id user);
                      tenantId := User.tenantId user |})
              end
          end
      end
  end.

End Register.

(** *** Policies *)

Definition get_policies (db : Db) (s : Session) : outcome * Db :=
  isAuthenticated s
    (Sent 200 (OfPolicies (Storage.getPolicies db (tenantId s))), db) db.

Definition get_policy (db : Db) (s : Session) (id : Z) : outcome * Db :=
  isAuthenticated s
    (if negb (int4 id) then (Thrown, db)
     else
       match Storage.getPolicy db id (tenantId s) with
       | None => (Sent 404 (Message "Policy not found"), db)
       | Some policy => (Sent 200 (OfPolicy policy), db)
       end) db.

(** [{ ...input, tenantId: req.session.tenantId! }] *)
Definition policy_for (input : InsertPolicy) (tenantId : option string)
    : InsertPolicy :=
  {| ip_tenantId := tenantId;
     ip_provider := ip_provider input;
     ip_policyName := ip_policyName input;
     ip_policyNumber := ip_policyNumber input;
     ip_policyType := ip_policyType input;
     ip_country := ip_country input;
     ip_startDate := ip_startDate input;
     ip_maturityDate := ip_maturityDate input;
     ip_nextRenewalDate := ip_nextRenewalDate input;
     ip_lastPremiumDate := ip_lastPremiumDate input;
     ip_premium := ip_premium input;
     ip_premiumCurrency := ip_premiumCurrency input;
     ip_premiumFrequency := ip_premiumFrequency input;
     ip_nominee := ip_nominee input;
     ip_beneficiaryType := ip_beneficiaryType input;
     ip_paidTo := ip_paidTo input;
     ip_notes := ip_notes input;
     ip_documentUrl := ip_documentUrl input |}.

Section Writes.

Context {pg : Postgres}.

Definition post_policies (db : Db) (s : Session) (now : Z)
    (body : Contract.PolicyBody) : outcome * Db :=
  isAuthenticated s
    (match Contract.policies_create_input body with
     | Contract.ZodError message => (Sent 400 (Message message), db)
     | Contract.Parsed input =>
         match Storage.createPolicy db now (policy_for input (tenantId s)) with
         | (Some policy, db) => (Sent 201 (OfPolicy policy), db)
         | (None, db) => (Thrown, db)
         end
     end) db.

Definition put_policy (db : Db) (s : Session) (id : Z)
    (body : Contract.PolicyBody) : outcome * Db :=
  isAuthenticated s
    (match Contract.policies_update_input body with
     | Contract.ZodError message => (Sent 400 (Message message), db)
     | Contract.Parsed input =>
         if negb (int4 id) then (Thrown, db)
         else
           match Storage.updatePolicy db id (tenantId s) input with
           | (Throws, db) => (Thrown, db)
           | (Returns None, db) => (Sent 404 (Message "Policy not found"), db)
           | (Returns (Some policy), db) => (Sent 200 (OfPolicy policy), db)
           end
     end) db.

Definition delete_policy (db : Db) (s : Session) (id : Z) : outcome * Db :=
  isAuthenticated s
    (if negb (int4 id) then (Thrown, db)
     else (Sent 204 NoBody, Storage.deletePolicy db id (tenantId s))) db.

(** *** Investments *)

Definition get_investments (db : Db) (s : Session) : outcome * Db :=
  isAuthenticated s
    (Sent 200 (OfInvestments (Storage.getInvestments db (tenantId s))), db) db.

(** [{ ...input, tenantId: req.session.tenantId! }] *)
Definition investment_for (input : InsertInvestment) (tenantId : option string)
    : InsertInvestment :=
  {| ii_tenantId := tenantId;
     ii_type := ii_type input;
     ii_platform := ii_platform input;
     ii_country := ii_country input;
     ii_currency := ii_currency input;
     ii_initialAmount := ii_initialAmount input;
     ii_currentValue := ii_currentValue input;
     ii_shares := ii_shares input;
     ii_purchaseDate := ii_purchaseDate input;
     ii_lastUpdated := ii_lastUpdated input |}.

Definition post_investments (db : Db) (s : Session) (now : Z)
    (body : Contract.InvestmentBody) : outcome * Db :=
  isAuthenticated s
    (match Contract.investments_create_input body with
     | Contract.ZodError message => (Sent 400 (Message message), db)
     | Contract.Parsed input =>
         match
           Storage.createInvestment db now (investment_for input (tenantId s))
         with
         | (Some investment, db) => (Sent 201 (OfInvestment investment), db)
         | (None, db) => (Thrown, db)
         end
     end) db.

Definition put_investment (db : Db) (s : Session) (now : Z) (id : Z)
    (body : Contract.InvestmentBody) : outcome * Db :=
  isAuthenticated s
    (match Contract.investments_update_input body with
     | Contract.ZodError message => (Sent 400 (Message message), db)
     | Contract.Parsed input =>
         if negb (int4 id) then (Thrown, db)
         else
           match Storage.updateInvestment db now id (tenantId s) input with
           | (Throws, db) => (Thrown, db)
           | (Returns None, db) =>
               (Sent 404 (Message "Investment not found"), db)
           | (Returns (Some investment), db) =>
               (Sent 200 (OfInvestment investment), db)
           end
     end) db.

Definition delete_investment (db : Db) (s : Session) (id : Z) : outcome * Db :=
  isAuthenticated s
    (if negb (int4 id) then (Thrown, db)
     else (Sent 204 NoBody, Storage.deleteInvestment db id (tenantId s))) db.

End Writes.

(** *** Dashboard *)

Definition get_dashboard_stats {tz : Js.TimeZone} (db : Db) (s : Session)
    (now : Z) : outcome * Db :=
  isAuthenticated s
    (Sent 200 (OfStats (Storage.getDashboardStats db now (tenantId s))), db) db.

Definition is_yearly (pol : Policy.t) : bool :=
  bool_decide (Policy.premiumFrequency pol = Some "yearly").

(** The body of [policies.map(pol => ...)]. *)
Definition premium_row (pol : Policy.t) : PremiumRow :=
  {| provider := Js.or_default (Some (Policy.provider pol)) "Unknown";
     monthlyPremium :=
       Js.ndiv (Js.parseFloat (Js.or_default (Policy.premium pol) "0"))
               (Js.of_Z (if is_yearly pol then 12 else 1));
     yearlyPremium :=
       Js.nmul (Js.parseFloat (Js.or_default (Policy.premium pol) "0"))
               (Js.of_Z (if is_yearly pol then 1 else 12));
     policyCount := 1;
     currency := Js.or_default (Policy.premiumCurrency pol) "SEK" |}.

Definition type_row (inv : Investment.t) : TypeRow :=
  {| tr_type := Js.or_default (Some (Investment.type inv)) "Unknown";
     tr_value := Js.parseFloat (Js.or_default (Some (Investment.currentValue inv)) "0");
     tr_count := 1 |}.

Definition platform_row (inv : Investment.t) : PlatformRow :=
  {| pr_platform := Js.or_default (Some (Investment.platform inv)) "Unknown";
     pr_value := Js.parseFloat (Js.or_default (Some (Investment.currentValue inv)) "0");
     pr_count := 1 |}.

Definition get_dashboard_analytics (db : Db) (s : Session) : outcome * Db :=
  isAuthenticated s
    (if negb (Js.truthy_opt (userId s))
     then (Sent 401 (Message "Unauthorized"), db)
     else
       let policies := Storage.getPolicies db (tenantId s) in
       let investments := Storage.getInvestments db (tenantId s) in
       let analyticsData :=
         {| investmentsByType := map type_row investments;
            investmentsByPlatform := map platform_row investments;
            premiumsByProvider := map premium_row policies;
            upcomingRenewals := [] |} in
       (Sent 200 (OfAnalytics analyticsData), db)) db.

(** *** Admin: user management *)

Definition isAdmin (db : Db) (s : Session) (next : outcome * Db) : outcome * Db :=
  match userId s ≫= Storage.getUser db with
  | Some user =>
      if negb (bool_decide (User.role user = Some "admin"))
      then (Sent 403 (Message "Admin access required"), db)
      else next
  | None => (Sent 403 (Message "Admin access required"), db)
  end.

Definition get_admin_users (db : Db) (s : Session) : outcome * Db :=
  isAuthenticated s
    (isAdmin db s
       (Sent 200 (OfUsers (Storage.getUsersByTenant db (tenantId s))), db)) db.

(** [['admin', 'user'].includes(role)] on [req.body.role]. *)
Definition role_included (role : prop string) : option string :=
  match role with
  | Value r =>
      if bool_decide (r = "admin") || bool_decide (r = "user")
      then Some r else None
  | _ => None
  end.

Definition put_admin_user_role (db : Db) (s : Session) (userId_ : string)
    (role : prop string) : outcome * Db :=
  isAuthenticated s
    (isAdmin db s
       (match role_included role with
        | None => (Sent 400 (Message "Invalid role"), db)
        | Some role =>
            if bool_decide (Some userId_ = userId s) && bool_decide (role = "user")
            then (Sent 400 (Message
                    "Cannot demote yourself. Ask another admin to change your role."), db)
            else
              match Storage.updateUserRole db userId_ (tenantId s) role with
              | (None, db) => (Sent 404 (Message "User not found"), db)
              | (Some updated, db) => (Sent 200 (OfUser updated), db)
              end
        end)) db.

Definition delete_admin_user (db : Db) (s : Session) (userId_ : string)
    : outcome * Db :=
  isAuthenticated s
    (isAdmin db s
       (if bool_decide (Some userId_ = userId s)
        then (Sent 400 (Message "Cannot remove yourself"), db)
        else (Sent 204 NoBody,
              Storage.removeUserFromTenant db userId_ (tenantId s)))) db.

(** *** Login and passwords *)

Record LoginBody : Type := {
  lb_email : prop string;
  lb_password : prop string;
}.

Record LoginInput : Type := {
  li_email : string;
  li_password : string;
}.

Record ChangePasswordBody : Type := {
  cb_currentPassword : prop string;
  cb_newPassword : prop string;
}.

Record ChangePasswordInput : Type := {
  ci_currentPassword : string;
  ci_newPassword : string;
}.

Record ResetPasswordBody : Type := {
  rp_newPassword : prop string;
}.

Section Passwords.

(** zod's e-mail pattern, [bcrypt.hash(_, 10)] and
    [bcrypt.compare(password, hash)] are taken as given. *)
Variable is_email : string -> bool.
Variable bcrypt_hash : string -> string.
Variable bcrypt_compare : string -> string -> bool.

Import Contract.

Definition loginSchema (b : LoginBody) : zod LoginInput :=
  check email <- string_ (lb_email b) ;
  check email <- (if is_email email then Parsed email
                  else ZodError "Invalid email") ;
  check password <- string_ (lb_password b) ;
  Parsed {| li_email := email; li_password := password |}.

(** [POST /api/auth/login] *)
Definition post_auth_login (db : Db) (s : Session) (body : LoginBody)
    : outcome * Db * Session :=
  match loginSchema body with
  | ZodError message => (Sent 400 (Message message), db, s)
  | Parsed input =>
      let invalid := (Sent 401 (Message "Invalid email or password"), db, s) in
      match Storage.getUserByEmail db (li_email input) with
      | None => invalid
      | Some user =>
          if negb (Js.truthy_opt (User.passwordHash user)) then invalid
          else
            let validPassword :=
              bcrypt_compare (li_password input)
                             (default "" (User.passwordHash user)) in
            if negb validPassword then invalid
            else
              (Sent 200 (OfAuthUser (auth_user user)), db,
               {| userId := Some (User.id user);
                  tenantId := if Js.truthy_opt (User.tenantId user)
                              then User.tenantId user else None |})
      end
  end.

Definition changePasswordSchema (b : ChangePasswordBody) : zod ChangePasswordInput :=
  check currentPassword <- string_ (cb_currentPassword b) ;
  check newPassword <-
    string_min 6 "Password must be at least 6 characters" (cb_newPassword b) ;
  Parsed {| ci_currentPassword := currentPassword;
            ci_newPassword := newPassword |}.

(** [POST /api/auth/change-password].  The route is registered before
    the [/api] middleware and checks the session itself. *)
Definition post_auth_change_password (db : Db) (s : Session)
    (body : ChangePasswordBody) (now : Z) : outcome * Db :=
  if negb (Js.truthy_opt (userId s))
  then (Sent 401 (Message "Unauthorized"), db)
  else
    match changePasswordSchema body with
    | ZodError message => (Sent 400 (Message message), db)
    | Parsed input =>
        match userId s ≫= Storage.getUser db with
        | None => (Sent 404 (Message "User not found"), db)
        | Some user =>
            if negb (Js.truthy_opt (User.passwordHash user))
            then (Sent 404 (Message "User not found"), db)
            else
              let validPassword :=
                bcrypt_compare (ci_currentPassword input)
                               (default "" (User.passwordHash user)) in
              if negb validPassword
              then (Sent 400 (Message "Current password is incorrect"), db)
              else
                let newPasswordHash := bcrypt_hash (ci_newPassword input) in
                let '(_, db) :=
                  Storage.updateUserPassword db now (User.id user)
                                             newPasswordHash in
                (Sent 200 (Message "Password changed successfully"), db)
        end
    end.

Definition adminResetPasswordSchema (b : ResetPasswordBody) : zod string :=
  string_min 6 "Password must be at least 6 characters" (rp_newPassword b).

(** [targetUser.tenantId !== req.session.tenantId] is false only when
    both are the same string: a NULL column and a missing session key
    ([null] and [undefined]) differ. *)
Definition same_tenant (column : option string) (session : option string) : bool :=
  match column, session with
  | Some a, Some b => bool_decide (a = b)
  | _, _ => false
  end.

(** [PUT /api/admin/users/:userId/reset-password] *)
Definition put_admin_user_reset_password (db : Db) (s : Session)
    (userId_ : string) (body : ResetPasswordBody) (now : Z) : outcome * Db :=
  isAuthenticated s
    (isAdmin db s
       (match adminResetPasswordSchema body with
        | ZodError message => (Sent 400 (Message message), db)
        | Parsed newPassword =>
            match Storage.getUser db userId_ with
            | None => (Sent 404 (Message "User not found"), db)
            | Some targetUser =>
                if negb (same_tenant (User.tenantId targetUser) (tenantId s))
                then (Sent 404 (Message "User not found"), db)
                else
                  let newPasswordHash := bcrypt_hash newPassword in
                  let '(_, db) :=
                    Storage.updateUserPassword db now userId_ newPasswordHash in
                  (Sent 200 (Message "Password reset successfully"), db)
            end
        end)) db.

End Passwords.

(** *** The current user *)

(** The body of the 200 answer of [GET /api/auth/user]. *)
Record CurrentUser : Type := {
  cu_id : string;
  cu_email : string;
  cu_firstName : option string;
  cu_lastName : option string;
  cu_role : option string;
  cu_tenantId : option string;
  cu_domain : option string;
}.

(** [GET /api/auth/user]: the answer of an error path, or the body of
    the 200 answer.  The route is behind the [/api] middleware and
    repeats its check.  [domain] is [tenant?.domain || null]. *)
Definition get_auth_user (db : Db) (s : Session) : outcome + CurrentUser :=
  if negb (Js.truthy_opt (userId s))
  then inl (Sent 401 (Message "Unauthorized"))
  else
    match userId s ≫= Storage.getUser db with
    | None => inl (Sent 404 (Message "User not found"))
    | Some user =>
        let domain :=
          if Js.truthy_opt (User.tenantId user) then
            match User.tenantId user ≫= Storage.getTenant db with
            | Some tenant =>
                if Js.truthy_opt (Tenant.domain tenant)
                then Tenant.domain tenant else None
            | None => None
            end
          else None in
        inr {| cu_id := User.id user; cu_email := User.email user;
               cu_firstName := User.firstName user;
               cu_lastName := User.lastName user;
               cu_role := User.role user; cu_tenantId := User.tenantId user;
               cu_domain := domain |}
    end.

End Routes.

(** ** [api/index.ts]: the self-contained serverless entry point

    This file carries its own storage class, whose record methods select
    by [id] alone, and handlers that compare the tenant themselves. *)

Module Api.

(** [req.session.user] *)
Record SessionUser : Type := {
  su_id : string;
  su_email : string;
  su_firstName : option string;
  su_lastName : option string;
  su_role : option string;
  su_tenantId : option string;
  su_domain : option string;
}.

Definition getPoliciesByTenant (db : Db) (tenantId : option string)
    : list Policy.t :=
  Storage.select_where (fun p => sql_eq (Policy.tenantId p) tenantId)
                       (policies db).

Definition getPolicy (db : Db) (id : Z) : option Policy.t :=
  head (Storage.select_where (fun p => bool_decide (Policy.id p = id))
                             (policies db)).

Definition deletePolicy (db : Db) (id : Z) : Db :=
  Storage.set_policies db
    (Storage.delete_where (fun p => bool_decide (Policy.id p = id)) (policies db))
    (policies_id_seq db).

Definition getInvestmentsByTenant (db : Db) (tenantId : option string)
    : list Investment.t :=
  Storage.select_where (fun i => sql_eq (Investment.tenantId i) tenantId)
                       (investments db).

(** *** Documents

    What lies outside the database: the blob store, the local disk and
    the error console.  [console.log] lines are not kept. *)
Record World : Type := {
  blobs : list string;
  files : list string;
  cwd : string;
  console_error : list string;
}.

(** Which calls to a collaborator throw. *)
Record Faults : Type := {
  del_throws : string -> bool;
  unlinkSync_throws : string -> bool;
}.

Definition remove (x : string) (l : list string) : list string :=
  filter (fun y => y <> x) l.

Definition log_error (w : World) (line : string) : World :=
  {| blobs := blobs w; files := files w; cwd := cwd w;
     console_error := console_error w ++ [line] |}.

(** [path.join(process.cwd(), documentUrl)], without the normalisation
    of [.] and [..] segments. *)
Definition path_join (a b : string) : string := a ++ "/" ++ b.

Definition deleteBlobFile (f : Faults) (w : World) (documentUrl : option string)
    : World :=
  if negb (Js.truthy_opt documentUrl) then w
  else
    let documentUrl := default "" documentUrl in
    let caught := log_error w ("Failed to delete file: " ++ documentUrl) in
    if Js.startsWith documentUrl "https://"
       && Js.includes documentUrl "vercel-storage.com"
    then
      if del_throws f documentUrl then caught
      else {| blobs := remove documentUrl (blobs w); files := files w;
              cwd := cwd w; console_error := console_error w |}
    else if Js.startsWith documentUrl "documents/" then w
    else
      let filePath := path_join (cwd w) documentUrl in
      if bool_decide (filePath ∈ files w) then
        if unlinkSync_throws f filePath then caught
        else {| blobs := blobs w; files := remove filePath (files w);
                cwd := cwd w; console_error := console_error w |}
      else w.

(** [DELETE /api/policies/:id] *)
Definition delete_policy (f : Faults) (db : Db) (w : World)
    (s : option SessionUser) (id : Z) : outcome * Db * World :=
  match s with
  | None => (Sent 401 (Message "Unauthorized"), db, w)
  | Some user =>
      match getPolicy db id with
      | None => (Sent 404 (Message "Policy not found"), db, w)
      | Some policy =>
          if negb (bool_decide (Some (Policy.tenantId policy) = su_tenantId user))
          then (Sent 404 (Message "Policy not found"), db, w)
          else
            let w :=
              if Js.truthy_opt (Policy.documentUrl policy)
              then deleteBlobFile f w (Policy.documentUrl policy)
              else w in
            let db := deletePolicy db id in
            (Sent 204 NoBody, db, w)
      end
  end.

(** *** Dashboard *)

(** [Math.ceil(a / b)] for integers [a] and [b > 0]. *)
Definition ceil_div (a b : Z) : Z := - ((- a) / b).

(** The body of [policies.forEach(policy => ...)] on
    [(expiringSoon, needsRenewal)]. *)
Definition stats_step (now : Z) (acc : Z * Z) (policy : Policy.t) : Z * Z :=
  let '(expiringSoon, needsRenewal) := acc in
  if Js.truthy_opt (Policy.maturityDate policy) then
    match Policy.maturityDate policy ≫= Js.Date_parse with
    | None => (expiringSoon, needsRenewal)
    | Some maturityDate =>
        let daysToMaturity := ceil_div (maturityDate - now) Js.msPerDay in
        if (daysToMaturity <? 0)%Z then (expiringSoon, needsRenewal + 1)
        else if (daysToMaturity <=? 30)%Z then (expiringSoon, needsRenewal + 1)
        else if (daysToMaturity <=? 60)%Z then (expiringSoon + 1, needsRenewal)
        else (expiringSoon, needsRenewal)
    end
  else (expiringSoon, needsRenewal).

Definition sum_step (acc : Js.number * Js.number) (investment : Investment.t)
    : Js.number * Js.number :=
  let '(SEK, INR) := acc in
  let value :=
    Js.parseFloat (Js.or_default (Some (Investment.currentValue investment)) "0") in
  if bool_decide (Investment.currency investment = "SEK")
  then (Js.nadd SEK value, INR)
  else if bool_decide (Investment.currency investment = "INR")
  then (SEK, Js.nadd INR value)
  else (SEK, INR).

(** [GET /api/dashboard/stats] *)
Definition get_dashboard_stats (db : Db) (s : option SessionUser) (now : Z)
    : outcome * Db :=
  match s with
  | None => (Sent 401 (Message "Unauthorized"), db)
  | Some user =>
      let tenantId := su_tenantId user in
      let policies := getPoliciesByTenant db tenantId in
      let investments := getInvestmentsByTenant db tenantId in
      let '(expiringSoon, needsRenewal) :=
        fold_left (stats_step now) policies (0, 0) in
      let '(SEK, INR) :=
        fold_left sum_step investments (Js.of_Z 0, Js.of_Z 0) in
      (Sent 200 (OfStats
         {| Storage.totalPolicies := Z.of_nat (length policies);
            Storage.expiringSoon := expiringSoon;
            Storage.needsRenewal := needsRenewal;
            Storage.totalInvestments := Z.of_nat (length investments);
            Storage.investmentsByCurrency_SEK := SEK;
            Storage.investmentsByCurrency_INR := INR |}), db)
  end.

(** *** The other record handlers *)

Definition getInvestment (db : Db) (id : Z) : option Investment.t :=
  head (Storage.select_where (fun i => bool_decide (Investment.id i = id))
                             (investments db)).

Definition deleteInvestment (db : Db) (id : Z) : Db :=
  Storage.set_investments db
    (Storage.delete_where (fun i => bool_decide (Investment.id i = id))
                          (investments db))
    (investments_id_seq db).

(** [update(policies).set(updates).where(eq(policies.id, id))], for an
    [updates] object whose keys are columns of the insert schema. *)
Definition updatePolicy (db : Db) (id : Z) (updates : UpdatePolicyRequest)
    : option Policy.t * Db :=
  let '(rows, updated) :=
    Storage.update_where (fun p => bool_decide (Policy.id p = id))
                         (Storage.set_policy updates) (policies db) in
  (head updated, Storage.set_policies db rows (policies_id_seq db)).

(** [{ documentUrl: null }] *)
Definition documentUrl_null : UpdatePolicyRequest :=
  {| up_tenantId := None; up_provider := None; up_policyName := None;
     up_policyNumber := Undefined; up_policyType := None; up_country := None;
     up_startDate := None; up_maturityDate := None;
     up_nextRenewalDate := None; up_lastPremiumDate := None;
     up_premium := Undefined; up_premiumCurrency := Undefined;
     up_premiumFrequency := Undefined; up_nominee := Undefined;
     up_beneficiaryType := Undefined; up_paidTo := Undefined;
     up_notes := Undefined; up_documentUrl := Null |}.

Definition fixDocumentUrl (documentUrl : option string) : option string :=
  if negb (Js.truthy_opt documentUrl) then None
  else
    let documentUrl := default "" documentUrl in
    if Js.startsWith documentUrl "https://"
       && Js.includes documentUrl "vercel-storage.com"
    then Some documentUrl
    else if Js.startsWith documentUrl "/" || Js.includes documentUrl "uploads/"
    then Some documentUrl
    else if Js.startsWith documentUrl "documents/tenant/" then None
    else Some documentUrl.

(** [{ ...policy, documentUrl: fixDocumentUrl(policy.documentUrl) }] *)
Definition with_fixed_documentUrl (policy : Policy.t) : Policy.t :=
  Policy.mk (Policy.id policy) (Policy.tenantId policy) (Policy.provider policy)
    (Policy.policyName policy) (Policy.policyNumber policy)
    (Policy.policyType policy) (Policy.country policy) (Policy.startDate policy)
    (Policy.maturityDate policy) (Policy.nextRenewalDate policy)
    (Policy.lastPremiumDate policy) (Policy.premium policy)
    (Policy.premiumCurrency policy) (Policy.premiumFrequency policy)
    (Policy.nominee policy) (Policy.beneficiaryType policy) (Policy.paidTo policy)
    (Policy.renewalStatus policy) (Policy.notes policy)
    (fixDocumentUrl (Policy.documentUrl policy)) (Policy.createdAt policy).

(** [GET /api/policies] *)
Definition get_policies (db : Db) (s : option SessionUser) : outcome * Db :=
  match s with
  | None => (Sent 401 (Message "Unauthorized"), db)
  | Some user =>
      let userPolicies := getPoliciesByTenant db (su_tenantId user) in
      (Sent 200 (OfPolicies (map with_fixed_documentUrl userPolicies)), db)
  end.

(** [GET /api/policies/:id] *)
Definition get_policy (db : Db) (s : option SessionUser) (id : Z) : outcome * Db :=
  match s with
  | None => (Sent 401 (Message "Unauthorized"), db)
  | Some user =>
      match getPolicy db id with
      | None => (Sent 404 (Message "Policy not found"), db)
      | Some policy =>
          if negb (bool_decide (Some (Policy.tenantId policy) = su_tenantId user))
          then (Sent 404 (Message "Policy not found"), db)
          else (Sent 200 (OfPolicy policy), db)
      end
  end.

(** The body of the loop of the cleanup endpoint on
    [(database, updatedCount)]. *)
Definition cleanup_step (acc : Db * Z) (policy : Policy.t) : Db * Z :=
  let '(db, updatedCount) := acc in
  if Js.truthy_opt (Policy.documentUrl policy)
     && Js.startsWith (default "" (Policy.documentUrl policy)) "documents/tenant/"
  then ((updatePolicy db (Policy.id policy) documentUrl_null).2, updatedCount + 1)
  else (db, updatedCount).

(** [POST /api/policies/cleanup-document-urls]: 401, or [updatedCount]
    of the 200 answer. *)
Definition post_policies_cleanup_document_urls (db : Db) (s : option SessionUser)
    : (outcome + Z) * Db :=
  match s with
  | None => (inl (Sent 401 (Message "Unauthorized")), db)
  | Some user =>
      let userPolicies := getPoliciesByTenant db (su_tenantId user) in
      let '(db, updatedCount) := fold_left cleanup_step userPolicies (db, 0) in
      (inr updatedCount, db)
  end.

(** [DELETE /api/policies/:id/document] *)
Definition delete_policy_document (f : Faults) (db : Db) (w : World)
    (s : option SessionUser) (policyId : Z) : outcome * Db * World :=
  match s with
  | None => (Sent 401 (Message "Unauthorized"), db, w)
  | Some user =>
      match getPolicy db policyId with
      | None => (Sent 404 (Message "Policy not found"), db, w)
      | Some policy =>
          if negb (bool_decide (Some (Policy.tenantId policy) = su_tenantId user))
          then (Sent 404 (Message "Policy not found"), db, w)
          else
            let '(db, w) :=
              if Js.truthy_opt (Policy.documentUrl policy)
              then ((updatePolicy db policyId documentUrl_null).2,
                    deleteBlobFile f w (Policy.documentUrl policy))
              else (db, w) in
            (Sent 200 (Message "Document deleted successfully"), db, w)
      end
  end.

(** [GET /api/investments] *)
Definition get_investments (db : Db) (s : option SessionUser) : outcome * Db :=
  match s with
  | None => (Sent 401 (Message "Unauthorized"), db)
  | Some user =>
      (Sent 200 (OfInvestments (getInvestmentsByTenant db (su_tenantId user))), db)
  end.

(** [GET /api/investments/:id] *)
Definition get_investment (db : Db) (s : option SessionUser) (id : Z)
    : outcome * Db :=
  match s with
  | None => (Sent 401 (Message "Unauthorized"), db)
  | Some user =>
      match getInvestment db id with
      | None => (Sent 404 (Message "Investment not found"), db)
      | Some investment =>
          if negb (bool_decide
                     (Some (Investment.tenantId investment) = su_tenantId user))
          then (Sent 404 (Message "Investment not found"), db)
          else (Sent 200 (OfInvestment investment), db)
      end
  end.

(** [DELETE /api/investments/:id] *)
Definition delete_investment (db : Db) (s : option SessionUser) (id : Z)
    : outcome * Db :=
  match s with
  | None => (Sent 401 (Message "Unauthorized"), db)
  | Some user =>
      match getInvestment db id with
      | None => (Sent 404 (Message "Investment not found"), db)
      | Some investment =>
          if negb (bool_decide
                     (Some (Investment.tenantId investment) = su_tenantId user))
          then (Sent 404 (Message "Investment not found"), db)
          else (Sent 204 NoBody, deleteInvestment db id)
      end
  end.

End Api.


(** * Vocabulary of the statements *)

(** Equality of numbers is decided on the underlying fractions. *)
Definition number_eqb (x y : Js.number) : bool :=
  match x, y with
  | Js.NaN, Js.NaN => true
  | Js.Num a, Js.Num b => Qeq_bool a b
  | _, _ => false
  end.

(** The primary keys of the four tables. *)
Definition primary_keys (db : Db) : Prop :=
  NoDup (map Tenant.id (tenants db))
  /\ NoDup (map User.id (users db))
  /\ NoDup (map Policy.id (policies db))
  /\ NoDup (map Investment.id (investments db)).


(** The request passed the [/api] middleware. *)
Definition authenticated (s : Session) : Prop :=
  Js.truthy_opt (userId s) = true.

Definition not_found (o : outcome) : Prop :=
  exists message, o = Sent 404 (Message message).


(** A database with one policy and one investment of tenant [acme],
    and a session of tenant [globex]. *)
Definition acme_policy : Policy.t :=
  Policy.mk 1 "acme" "Folksam" "Home" None "Property" "SWEDEN" "2026-01-01"
            None None None (Some "1200") (Some "SEK") (Some "yearly")
            None None None (Some "active") None None (Some 1767225600000).

Definition acme_investment : Investment.t :=
  Investment.mk 1 "acme" "Stocks" "Avanza" "SWEDEN" "SEK" "1000" "1500"
                None None (Some 1767225600000) (Some 1767225600000).

Definition acme_db : Db :=
  mkDb [] [] [acme_policy] [acme_investment] 2 2.

Definition globex_session : Session :=
  {| userId := Some "u-globex"; tenantId := Some "globex" |}.

Definition acme_session : Session :=
  {| userId := Some "u-acme"; tenantId := Some "acme" |}.

(** The response carries the row. *)
Definition carries_policy (o : outcome) (p : Policy.t) : Prop :=
  match o with
  | Sent _ (OfPolicy q) => q = p
  | Sent _ (OfPolicies l) => p ∈ l
  | _ => False
  end.

Definition carries_investment (o : outcome) (i : Investment.t) : Prop :=
  match o with
  | Sent _ (OfInvestment q) => q = i
  | Sent _ (OfInvestments l) => i ∈ l
  | _ => False
  end.



(** The body [{ "tenantId": "globex" }]. *)
Definition move_to_globex : Contract.InvestmentBody :=
  {| Contract.ib_tenantId := Value "globex";
     Contract.ib_type := Undefined;
     Contract.ib_platform := Undefined;
     Contract.ib_country := Undefined;
     Contract.ib_currency := Undefined;
     Contract.ib_initialAmount := Undefined;
     Contract.ib_currentValue := Undefined;
     Contract.ib_shares := Undefined;
     Contract.ib_purchaseDate := Undefined;
     Contract.ib_lastUpdated := Undefined |}.





Definition moved_investment (now : Z) : Investment.t :=
  Investment.mk 1 "globex" "Stocks" "Avanza" "SWEDEN" "SEK" "1000" "1500"
                None None (Some now) (Some 1767225600000).

(** Every member references a tenant that exists. *)
Definition members_reference_tenants (db : Db) : Prop :=
  forall u t, u ∈ users db -> User.tenantId u = Some t ->
              exists tn, tn ∈ tenants db /\ Tenant.id tn = t.

(** A registration request, with the identifiers and the clock reading
    the database would supply while serving it. *)
Record Registration : Type := {
  reg_body : Routes.RegisterBody;
  reg_tenantId : string;
  reg_userId : string;
  reg_now : Z;
}.

Definition anonymous : Session := {| userId := None; tenantId := None |}.

Section Registrations.

Variable is_email : string -> bool.
Variable bcrypt_hash : string -> string.

Definition register (db : Db) (r : Registration) : outcome * Db :=
  (Routes.post_auth_register is_email bcrypt_hash db anonymous (reg_body r)
     (reg_tenantId r) (reg_userId r) (reg_now r)).1.

(** Registrations served one after the other, each on the database the
    previous one left: the responses in order, and the final database. *)
Fixpoint register_all (db : Db) (reqs : list Registration)
    : list (Registration * outcome) * Db :=
  match reqs with
  | [] => ([], db)
  | r :: reqs =>
      let '(o, db) := register db r in
      let '(served, db) := register_all db reqs in
      ((r, o) :: served, db)
  end.

(** The role granted by a response, when it created an account under
    [domain]. *)
Definition granted_under (domain : string) (entry : Registration * outcome)
    : option (option string) :=
  match entry.2 with
  | Sent status (OfAuthUser u) =>
      if bool_decide (status = 201)
         && bool_decide (Routes.rb_domain (reg_body entry.1) = Value domain)
      then Some (au_role u) else None
  | _ => None
  end.

Definition roles_under (domain : string) (served : list (Registration * outcome))
    : list (option string) :=
  omap (granted_under domain) served.



End Registrations.

(** The "get or create tenant by domain" step of the handler. *)
Definition resolve_tenant (db : Db) (domain newTenantId : string) (now : Z)
    : option Tenant.t * Db :=
  match Storage.getTenantByDomain db domain with
  | Some tenant => (Some tenant, db)
  | None =>
      Storage.createTenant db newTenantId now
        {| it_name := domain; it_domain := Some domain;
           it_subdomain := Some domain |}
  end.



Definition empty_db : Db := mkDb [] [] [] [] 1 1.

Definition registration (email domain tenantId userId : string) : Registration :=
  {| reg_body :=
       {| Routes.rb_email := Value email;
          Routes.rb_password := Value "secret1";
          Routes.rb_firstName := Undefined;
          Routes.rb_lastName := Undefined;
          Routes.rb_domain := Value domain |};
     reg_tenantId := tenantId;
     reg_userId := userId;
     reg_now := 1767225600000 |}.

Definition three_registrations : list Registration :=
  [ registration "alice@x.com" "acme" "t-1" "u-1";
    registration "carol@y.com" "globex" "t-2" "u-2";
    registration "bob@x.com" "acme" "t-3" "u-3" ].

(** The windows of the dashboard counters, as the specification words
    them: the dates are read only when present and non-empty. *)
Definition maturity_of (p : Policy.t) : option Z :=
  if Js.truthy_opt (Policy.maturityDate p)
  then Policy.maturityDate p ≫= Js.Date_parse else None.

Definition renewal_of (p : Policy.t) : option Z :=
  if Js.truthy_opt (Policy.nextRenewalDate p)
  then Policy.nextRenewalDate p ≫= Js.Date_parse else None.

(** [now < maturityDate <= bound] *)
Definition expiring_soon (now bound : Z) (p : Policy.t) : bool :=
  match maturity_of p with
  | Some m => (now <? m)%Z && (m <=? bound)%Z
  | None => false
  end.

(** [nextRenewalDate <= bound] *)
Definition needs_renewal (bound : Z) (p : Policy.t) : bool :=
  match renewal_of p with
  | Some r => (r <=? bound)%Z
  | None => false
  end.

(** The offset of the zone is the same at [now] and at the local time
    sixty days later. *)
Definition same_offset {tz : Js.TimeZone} (now : Z) : Prop :=
  Js.LocalTZA (now + Js.LocalTZA now true + 60 * Js.msPerDay) false
  = Js.LocalTZA now true.

(** A server that keeps UTC. *)
Definition utc : Js.TimeZone := {| Js.LocalTZA := fun _ _ => 0 |}.

(** Europe/Stockholm over the year 2026: one hour ahead of UTC, two
    hours from 29 March 01:00 UTC (03:00 local time) to 25 October 01:00
    UTC (03:00 local time). *)
Definition stockholm_2026 : Js.TimeZone :=
  {| Js.LocalTZA := fun t isUTC =>
       let '(from, to) :=
         if isUTC then (1774746000000, 1792890000000)
         else (1774753200000, 1792897200000) in
       if (from <=? t)%Z && (t <? to)%Z then 2 * 3600000 else 3600000 |}.

(** A PostgreSQL that accepts the dates [Date_parse] reads and the
    decimal numerals [Number] reads. *)
Definition iso_postgres : Postgres :=
  {| date_in := fun s => bool_decide (is_Some (Js.Date_parse s));
     numeric_in := fun s =>
       match Js.scan_decimal s with
       | Some (_, EmptyString) => true
       | _ => false
       end |}.

(** The order of a list answered newest first: no row comes before one
    created later, and a row without creation time comes before every
    row that has one. *)
Definition newest_first {A} (createdAt : A -> option Z) (l : list A) : Prop :=
  forall k k' a b, (k < k')%nat -> l !! k = Some a -> l !! k' = Some b ->
    match createdAt a, createdAt b with
    | Some x, Some y => y <= x
    | Some _, None => False
    | None, _ => True
    end.

(** Two policies of [acme], the second created a day after the first,
    and one whose creation time is NULL. *)
Definition older_policy : Policy.t :=
  Policy.mk 1 "acme" "Folksam" "Home" None "Property" "SWEDEN" "2026-01-01"
            None None None None (Some "SEK") None
            None None None (Some "active") None None (Some 1767225600000).

Definition newer_policy : Policy.t :=
  Policy.mk 2 "acme" "If" "Car" None "Vehicle" "SWEDEN" "2026-01-02"
            None None None None (Some "SEK") None
            None None None (Some "active") None None (Some 1767312000000).

Definition undated_policy : Policy.t :=
  Policy.mk 3 "acme" "Skandia" "Life" None "Life" "SWEDEN" "2026-01-03"
            None None None None (Some "SEK") None
            None None None (Some "active") None None None.

Definition three_policies_db : Db :=
  mkDb [] [] [older_policy; newer_policy; undated_policy] [] 4 1.

Definition count {A} (f : A -> bool) (l : list A) : Z :=
  Z.of_nat (length (filter (fun x => f x = true) l)).

(** A policy of tenant [acme] whose next renewal falls on 2026-03-01 and
    which has no maturity date; 60 days earlier is 2025-12-31. *)
Definition renewal_policy : Policy.t :=
  Policy.mk 1 "acme" "Folksam" "Home" None "Property" "SWEDEN" "2020-01-01"
            None (Some "2026-03-01") None None (Some "SEK") None
            None None None (Some "active") None None (Some 1577836800000).

Definition renewal_db : Db := mkDb [] [] [renewal_policy] [] 2 1.

Definition new_years_eve : Z := 1767139200000.

(** A policy of tenant [acme] whose next renewal falls on 2026-04-30;
    60 days earlier is 2026-03-01, when Stockholm is on winter time. *)
Definition april_policy : Policy.t :=
  Policy.mk 1 "acme" "Folksam" "Home" None "Property" "SWEDEN" "2020-01-01"
            None (Some "2026-04-30") None None (Some "SEK") None
            None None None (Some "active") None None (Some 1577836800000).

Definition april_db : Db := mkDb [] [] [april_policy] [] 2 1.

Definition first_of_march : Z := 1772323200000.

Definition acme_user : Api.SessionUser :=
  {| Api.su_id := "u-acme"; Api.su_email := "alice@x.com";
     Api.su_firstName := None; Api.su_lastName := None;
     Api.su_role := Some "admin"; Api.su_tenantId := Some "acme";
     Api.su_domain := Some "acme" |}.

(** [parseFloat(pol.premium || '0')] *)
Definition premium_of (pol : Policy.t) : Js.number :=
  Js.parseFloat (Js.or_default (Policy.premium pol) "0").



(** Tenant [acme] with its admin [alice] and a second admin [bob]. *)
Definition acme_tenant : Tenant.t :=
  Tenant.mk "acme" "acme" (Some "acme") (Some "acme") (Some 1767225600000).

Definition alice : User.t :=
  User.mk "u-acme" "alice@x.com" (Some "$2a$10$alice") (Some "Alice") None None
          (Some "acme") (Some "admin") (Some 1767225600000) (Some 1767225600000).

Definition bob : User.t :=
  User.mk "u-bob" "bob@x.com" (Some "$2a$10$bob") (Some "Bob") None None
          (Some "acme") (Some "admin") (Some 1767225600001) (Some 1767225600001).

Definition admin_db : Db := mkDb [acme_tenant] [alice; bob] [] [] 1 1.

(** The session's account is an admin, as [isAdmin] checks it. *)
Definition is_admin (db : Db) (s : Session) : Prop :=
  exists user, userId s ≫= Storage.getUser db = Some user
               /\ User.role user = Some "admin".


(** A document held by the blob store. *)
Definition is_blob_url (documentUrl : string) : bool :=
  Js.startsWith documentUrl "https://"
  && Js.includes documentUrl "vercel-storage.com".

Definition policy_pdf : string :=
  "https://abc.public.blob.vercel-storage.com/documents/acme/1_x/policy.pdf".

Definition documented_policy : Policy.t :=
  Policy.mk 1 "acme" "Folksam" "Home" None "Property" "SWEDEN" "2026-01-01"
            None None None (Some "1200") (Some "SEK") (Some "yearly")
            None None None (Some "active") None (Some policy_pdf)
            (Some 1767225600000).

Definition documented_db : Db := mkDb [] [] [documented_policy] [] 2 1.

Definition blob_world : Api.World :=
  {| Api.blobs := [policy_pdf]; Api.files := []; Api.cwd := "/var/task";
     Api.console_error := [] |}.

(** Every call to a collaborator throws. *)
Definition all_fail : Api.Faults :=
  {| Api.del_throws := fun _ => true; Api.unlinkSync_throws := fun _ => true |}.


(** The keys a create body must hold as strings. *)
Definition policy_required (b : Contract.PolicyBody) : Prop :=
  exists provider policyName policyType country startDate : string,
    Contract.pb_provider b = Value provider
    /\ Contract.pb_policyName b = Value policyName
    /\ Contract.pb_policyType b = Value policyType
    /\ Contract.pb_country b = Value country
    /\ Contract.pb_startDate b = Value startDate /\ startDate <> "".

(** No key that may be left out holds a value of another type than a
    string. *)
Definition holds_no_other (p : prop jvalue) : Prop :=
  forall t, p <> Value (Other t).

Definition policy_optional_typed (b : Contract.PolicyBody) : Prop :=
  holds_no_other (Contract.pb_policyNumber b)
  /\ holds_no_other (Contract.pb_maturityDate b)
  /\ holds_no_other (Contract.pb_nextRenewalDate b)
  /\ holds_no_other (Contract.pb_lastPremiumDate b)
  /\ holds_no_other (Contract.pb_premium b)
  /\ holds_no_other (Contract.pb_premiumCurrency b)
  /\ holds_no_other (Contract.pb_premiumFrequency b)
  /\ holds_no_other (Contract.pb_nominee b)
  /\ holds_no_other (Contract.pb_beneficiaryType b)
  /\ holds_no_other (Contract.pb_paidTo b)
  /\ holds_no_other (Contract.pb_notes b)
  /\ holds_no_other (Contract.pb_documentUrl b).

Definition investment_required (b : Contract.InvestmentBody) : Prop :=
  exists tenantId type platform initialAmount currentValue,
    Contract.ib_tenantId b = Value tenantId
    /\ Contract.ib_type b = Value type
    /\ Contract.ib_platform b = Value platform
    /\ Contract.ib_initialAmount b = Value initialAmount
    /\ Contract.ib_currentValue b = Value currentValue.

(** A date that is stored is not blank. *)
Definition not_blank (date : option string) : Prop :=
  forall s, date = Some s -> Js.trim s <> "".

Definition dates_not_blank (p : Policy.t) : Prop :=
  Js.trim (Policy.startDate p) <> ""
  /\ not_blank (Policy.maturityDate p)
  /\ not_blank (Policy.nextRenewalDate p)
  /\ not_blank (Policy.lastPremiumDate p).

(** A create body whose start date is three spaces. *)
Definition blank_start : Contract.PolicyBody :=
  {| Contract.pb_tenantId := Undefined;
     Contract.pb_provider := Value "If";
     Contract.pb_policyName := Value "Car";
     Contract.pb_policyNumber := Undefined;
     Contract.pb_policyType := Value "Vehicle";
     Contract.pb_country := Value "SWEDEN";
     Contract.pb_startDate := Value "   ";
     Contract.pb_maturityDate := Value "";
     Contract.pb_nextRenewalDate := Null;
     Contract.pb_lastPremiumDate := Undefined;
     Contract.pb_premium := Undefined;
     Contract.pb_premiumCurrency := Undefined;
     Contract.pb_premiumFrequency := Undefined;
     Contract.pb_nominee := Undefined;
     Contract.pb_beneficiaryType := Undefined;
     Contract.pb_paidTo := Undefined;
     Contract.pb_notes := Undefined;
     Contract.pb_documentUrl := Undefined |}.

(** A create body whose premium is the number 1200, not a string. *)
Definition premium_as_number : Contract.PolicyBody :=
  {| Contract.pb_tenantId := Undefined;
     Contract.pb_provider := Value "If";
     Contract.pb_policyName := Value "Car";
     Contract.pb_policyNumber := Undefined;
     Contract.pb_policyType := Value "Vehicle";
     Contract.pb_country := Value "SWEDEN";
     Contract.pb_startDate := Value "2026-03-01";
     Contract.pb_maturityDate := Undefined;
     Contract.pb_nextRenewalDate := Undefined;
     Contract.pb_lastPremiumDate := Undefined;
     Contract.pb_premium := Value (Other JNumber);
     Contract.pb_premiumCurrency := Undefined;
     Contract.pb_premiumFrequency := Undefined;
     Contract.pb_nominee := Undefined;
     Contract.pb_beneficiaryType := Undefined;
     Contract.pb_paidTo := Undefined;
     Contract.pb_notes := Undefined;
     Contract.pb_documentUrl := Undefined |}.

(** The buckets of the stats handler of [api/index.ts], in milliseconds
    to maturity. *)
Definition api_needs_renewal (now : Z) (p : Policy.t) : bool :=
  match maturity_of p with
  | Some m => (m - now <=? 30 * Js.msPerDay)%Z
  | None => false
  end.

Definition api_expiring_soon (now : Z) (p : Policy.t) : bool :=
  match maturity_of p with
  | Some m => (30 * Js.msPerDay <? m - now)%Z && (m - now <=? 60 * Js.msPerDay)%Z
  | None => false
  end.

(** A create body for a holding in US dollars. *)
Definition usd_holding : Contract.InvestmentBody :=
  {| Contract.ib_tenantId := Value "1";
     Contract.ib_type := Value "Stocks";
     Contract.ib_platform := Value "IBKR";
     Contract.ib_country := Undefined;
     Contract.ib_currency := Value "USD";
     Contract.ib_initialAmount := Value "100";
     Contract.ib_currentValue := Value "250.50";
     Contract.ib_shares := Value "";
     Contract.ib_purchaseDate := Undefined;
     Contract.ib_lastUpdated := Undefined |}.

(** Tenant [globex] with its admin [carol], beside [acme]. *)
Definition carol : User.t :=
  User.mk "u-carol" "carol@y.com" (Some "$2a$10$carol") (Some "Carol") None None
          (Some "globex") (Some "admin") (Some 1767225600002) (Some 1767225600002).

Definition dave : User.t :=
  User.mk "u-dave" "dave@x.com" (Some "$2a$10$dave") (Some "Dave") None None
          (Some "acme") (Some "user") (Some 1767225600003) (Some 1767225600003).

Definition globex_tenant : Tenant.t :=
  Tenant.mk "globex" "globex" (Some "globex") (Some "globex") (Some 1767225600002).

Definition two_tenants_db : Db :=
  mkDb [acme_tenant; globex_tenant] [alice; bob; carol; dave]
       [acme_policy] [acme_investment] 2 2.

Definition dave_session : Session :=
  {| userId := Some "u-dave"; tenantId := Some "acme" |}.

(** The account and the session are of one tenant. *)
Definition in_session_tenant (u : User.t) (s : Session) : Prop :=
  exists t, User.tenantId u = Some t /\ tenantId s = Some t.

(** A role change that passes both checks of the handler. *)
Definition allowed_role_change (s : Session) (target : string)
    (role : prop string) (r : string) : Prop :=
  Routes.role_included role = Some r
  /\ ~ (Some target = userId s /\ r = "user").

(** No two accounts share an e-mail address. *)
Definition unique_emails (db : Db) : Prop :=
  NoDup (map User.email (users db)).

(** What registration relies on and keeps: the primary keys, one
    account per e-mail address, and members that reference a tenant. *)
Definition accounts_consistent (db : Db) : Prop :=
  primary_keys db /\ unique_emails db /\ members_reference_tenants db.

(** The login body that repeats the e-mail address and the password of
    a registration body. *)
Definition login_with (body : Routes.RegisterBody) : Routes.LoginBody :=
  {| Routes.lb_email := Routes.rb_email body;
     Routes.lb_password := Routes.rb_password body |}.

(** The session a successful login leaves for an account. *)
Definition login_session (u : AuthUser) : Session :=
  {| userId := Some (au_id u);
     tenantId := if Js.truthy_opt (au_tenantId u) then au_tenantId u else None |}.

(** A stand-in for bcrypt in examples: the hash is the password behind
    a prefix. *)
Definition toy_hash (password : string) : string := "$2a$10$" ++ password.

Definition toy_compare (password hash : string) : bool :=
  String.eqb hash (toy_hash password).

Definition any_email (email : string) : bool := true.

(** The login answered with an account. *)
Definition logged_in (o : outcome) : Prop :=
  exists account, o = Sent 200 (OfAuthUser account).

(** A login body. *)
Definition credentials (email password : string) : Routes.LoginBody :=
  {| Routes.lb_email := Value email; Routes.lb_password := Value password |}.

(** The change-password body. *)
Definition change_to (current new : string) : Routes.ChangePasswordBody :=
  {| Routes.cb_currentPassword := Value current;
     Routes.cb_newPassword := Value new |}.

(** A session of [api/index.ts] for a member of tenant [globex]. *)
Definition globex_user : Api.SessionUser :=
  {| Api.su_id := "u-carol"; Api.su_email := "carol@y.com";
     Api.su_firstName := Some "Carol"; Api.su_lastName := None;
     Api.su_role := Some "admin"; Api.su_tenantId := Some "globex";
     Api.su_domain := Some "globex" |}.

Definition no_faults : Api.Faults :=
  {| Api.del_throws := fun _ => false; Api.unlinkSync_throws := fun _ => false |}.

Definition empty_world : Api.World :=
  {| Api.blobs := []; Api.files := []; Api.cwd := "/var/task";
     Api.console_error := [] |}.

(** The stored path is of the old format [documents/tenant/...]. *)
Definition old_format (documentUrl : option string) : bool :=
  Js.truthy_opt documentUrl
  && Js.startsWith (default "" documentUrl) "documents/tenant/".

(** The row with its [documentUrl] set to NULL. *)
Definition without_document (p : Policy.t) : Policy.t :=
  Policy.mk (Policy.id p) (Policy.tenantId p) (Policy.provider p)
    (Policy.policyName p) (Policy.policyNumber p)
    (Policy.policyType p) (Policy.country p) (Policy.startDate p)
    (Policy.maturityDate p) (Policy.nextRenewalDate p)
    (Policy.lastPremiumDate p) (Policy.premium p)
    (Policy.premiumCurrency p) (Policy.premiumFrequency p)
    (Policy.nominee p) (Policy.beneficiaryType p) (Policy.paidTo p)
    (Policy.renewalStatus p) (Policy.notes p) None (Policy.createdAt p).

(** What the cleanup endpoint does to a row, for the tenant of the
    session. *)
Definition cleaned (tenant : option string) (p : Policy.t) : Policy.t :=
  if sql_eq (Policy.tenantId p) tenant && old_format (Policy.documentUrl p)
  then without_document p else p.

(** A policy of [acme] with a document in the blob store. *)
Definition acme_policy_with (documentUrl : string) : Policy.t :=
  Policy.mk 1 "acme" "Folksam" "Home" None "Property" "SWEDEN" "2026-01-01"
            None None None (Some "1200") (Some "SEK") (Some "yearly")
            None None None (Some "active") None (Some documentUrl)
            (Some 1767225600000).

Definition old_path_db : Db :=
  mkDb [] [] [acme_policy_with "documents/tenant/a.pdf"] [] 2 1.

Definition blob_url : string :=
  "https://x.public.blob.vercel-storage.com/a.pdf".

Definition blob_db : Db := mkDb [] [] [acme_policy_with blob_url] [] 2 1.

Definition one_blob_world : Api.World :=
  {| Api.blobs := [blob_url]; Api.files := []; Api.cwd := "/var/task";
     Api.console_error := [] |}.

(** The row the delete-document endpoint leaves for a policy. *)
Definition document_removed (p : Policy.t) : Policy.t :=
  if Js.truthy_opt (Policy.documentUrl p) then without_document p else p.

(** A valid create body for a policy. *)
Definition car_policy : Contract.PolicyBody :=
  {| Contract.pb_tenantId := Undefined;
     Contract.pb_provider := Value "If";
     Contract.pb_policyName := Value "Car";
     Contract.pb_policyNumber := Undefined;
     Contract.pb_policyType := Value "Vehicle";
     Contract.pb_country := Value "SWEDEN";
     Contract.pb_startDate := Value "2026-03-01";
     Contract.pb_maturityDate := Value "";
     Contract.pb_nextRenewalDate := Null;
     Contract.pb_lastPremiumDate := Undefined;
     Contract.pb_premium := Value "4200";
     Contract.pb_premiumCurrency := Undefined;
     Contract.pb_premiumFrequency := Undefined;
     Contract.pb_nominee := Undefined;
     Contract.pb_beneficiaryType := Undefined;
     Contract.pb_paidTo := Undefined;
     Contract.pb_notes := Undefined;
     Contract.pb_documentUrl := Undefined |}.

(** The body [GET /api/auth/user] answers with for an account and the
    domain of its tenant. *)
Definition current_user (account : AuthUser) (domain : option string)
    : Routes.CurrentUser :=
  {| Routes.cu_id := au_id account; Routes.cu_email := au_email account;
     Routes.cu_firstName := au_firstName account;
     Routes.cu_lastName := au_lastName account;
     Routes.cu_role := au_role account;
     Routes.cu_tenantId := au_tenantId account;
     Routes.cu_domain := domain |}.

(** The identifiers the database generates and holds are not empty. *)
Definition ids_not_empty (db : Db) (newTenantId newUserId : string) : Prop :=
  newTenantId <> "" /\ newUserId <> ""
  /\ forall t, t ∈ tenants db -> Tenant.id t <> "".

(** The row of a member after removal from the tenant. *)
Definition removed (u : User.t) : User.t :=
  Storage.with_role (Storage.with_tenantId u None) (Some "user").
(** * Proofs *)

Lemma number_eqb_eq x y : number_eqb x y = true -> x = y.
Proof.
  destruct x as [|a], y as [|b]; simpl; try discriminate; try reflexivity.
  intros H. f_equal. apply Qc_is_canon. now apply Qeq_bool_iff.
Qed.

Ltac js_number := apply number_eqb_eq; vm_compute; reflexivity.

Example parseFloat_1200 : Js.parseFloat "1200" = Js.of_Z 1200.
Proof. js_number. Qed.

Example parseFloat_prefix : Js.parseFloat " 12.50kr" = Js.Num (Q2Qc (25 # 2)).
Proof. js_number. Qed.

Example parseFloat_NaN : Js.parseFloat "NaN" = Js.NaN.
Proof. reflexivity. Qed.

Example Number_trailing : Js.Number "12kr" = Js.NaN.
Proof. js_number. Qed.

Example Date_parse_epoch : Js.Date_parse "1970-01-02" = Some 86400000.
Proof. reflexivity. Qed.

Example Date_parse_2026 : Js.Date_parse "2026-03-01" = Some 1772323200000.
Proof. reflexivity. Qed.

Example Date_parse_bad : Js.Date_parse "2026-02-30" = None.
Proof. reflexivity. Qed.

(** ** Statements on selections and writes *)

Section Where.
Context {A : Type} (c : A -> bool) (f : A -> A).

Lemma select_where_none (rows : list A) :
  Forall (fun r => c r = false) rows -> Storage.select_where c rows = [].
Proof.
  unfold Storage.select_where.
  induction 1 as [|r rows Hr _ IH]; [reflexivity|].
  rewrite filter_cons_False; [exact IH | congruence].
Qed.

Lemma delete_where_none (rows : list A) :
  Forall (fun r => c r = false) rows -> Storage.delete_where c rows = rows.
Proof.
  unfold Storage.delete_where.
  induction 1 as [|r rows Hr _ IH]; [reflexivity|].
  rewrite filter_cons_True by exact Hr. now rewrite IH.
Qed.

Lemma update_where_none (rows : list A) :
  Forall (fun r => c r = false) rows ->
  Storage.update_where c f rows = (rows, []).
Proof.
  intros H. unfold Storage.update_where. f_equal.
  - induction H as [|r rows Hr _ IH]; [reflexivity|].
    simpl. now rewrite Hr, IH.
  - change (map f (Storage.select_where c rows) = []).
    now rewrite (select_where_none rows H).
Qed.

Lemma select_where_elem (rows : list A) (r : A) :
  r ∈ Storage.select_where c rows <-> c r = true /\ r ∈ rows.
Proof. exact (list_elem_of_filter (fun x => c x = true) rows r). Qed.

Lemma delete_where_elem (rows : list A) (r : A) :
  r ∈ Storage.delete_where c rows <-> c r = false /\ r ∈ rows.
Proof. exact (list_elem_of_filter (fun x => c x = false) rows r). Qed.
End Where.

Lemma set_policies_same db :
  Storage.set_policies db (policies db) (policies_id_seq db) = db.
Proof. now destruct db. Qed.

Lemma set_investments_same db :
  Storage.set_investments db (investments db) (investments_id_seq db) = db.
Proof. now destruct db. Qed.

Lemma set_users_same db : Storage.set_users db (users db) = db.
Proof. now destruct db. Qed.

(** Two rows of a list with distinct keys that share a key are one row. *)
Lemma NoDup_key_inj {A K} (key : A -> K) (l : list A) (x y : A) :
  NoDup (map key l) -> x ∈ l -> y ∈ l -> key x = key y -> x = y.
Proof.
  induction l as [|a l IH]; simpl; intros Hnd Hx Hy Hk.
  - now apply not_elem_of_nil in Hx.
  - apply NoDup_cons in Hnd as [Ha Hnd].
    apply elem_of_cons in Hx as [->|Hx]; apply elem_of_cons in Hy as [->|Hy].
    + reflexivity.
    + exfalso. apply Ha. rewrite Hk. apply list_elem_of_In, in_map, list_elem_of_In, Hy.
    + exfalso. apply Ha. rewrite <- Hk. apply list_elem_of_In, in_map, list_elem_of_In, Hx.
    + now apply IH.
Qed.

Lemma sql_eq_false col param : param <> Some col -> sql_eq col param = false.
Proof.
  destruct param as [v|]; simpl; [|reflexivity].
  intros H. apply bool_decide_eq_false. congruence.
Qed.

Lemma sql_eq_true col param : sql_eq col param = true <-> param = Some col.
Proof.
  destruct param as [v|]; simpl.
  - rewrite bool_decide_eq_true. split; congruence.
  - split; discriminate.
Qed.



Lemma isAuthenticated_next s next db :
  authenticated s -> Routes.isAuthenticated s next db = next.
Proof. unfold authenticated, Routes.isAuthenticated. now intros ->. Qed.

Lemma getPolicies_elem db tenant p :
  p ∈ Storage.getPolicies db tenant <->
  tenant = Some (Policy.tenantId p) /\ p ∈ policies db.
Proof.
  unfold Storage.getPolicies. rewrite merge_sort_Permutation.
  rewrite select_where_elem. now rewrite sql_eq_true.
Qed.

Lemma getInvestments_elem db tenant i :
  i ∈ Storage.getInvestments db tenant <->
  tenant = Some (Investment.tenantId i) /\ i ∈ investments db.
Proof.
  unfold Storage.getInvestments. rewrite merge_sort_Permutation.
  rewrite select_where_elem. now rewrite sql_eq_true.
Qed.
(** ** Record operations whose [where] clause selects nothing *)

Lemma getPolicy_unmatched db id tenant :
  Forall (fun q => Storage.policy_in id tenant q = false) (policies db) ->
  Storage.getPolicy db id tenant = None.
Proof. intros H. unfold Storage.getPolicy. now rewrite select_where_none. Qed.

Lemma deletePolicy_unmatched db id tenant :
  Forall (fun q => Storage.policy_in id tenant q = false) (policies db) ->
  Storage.deletePolicy db id tenant = db.
Proof.
  intros H. unfold Storage.deletePolicy.
  rewrite delete_where_none by exact H. apply set_policies_same.
Qed.

Lemma getInvestment_unmatched db id tenant :
  Forall (fun q => Storage.investment_in id tenant q = false) (investments db) ->
  Storage.getInvestment db id tenant = None.
Proof. intros H. unfold Storage.getInvestment. now rewrite select_where_none. Qed.

Lemma deleteInvestment_unmatched db id tenant :
  Forall (fun q => Storage.investment_in id tenant q = false) (investments db) ->
  Storage.deleteInvestment db id tenant = db.
Proof.
  intros H. unfold Storage.deleteInvestment.
  rewrite delete_where_none by exact H. apply set_investments_same.
Qed.

(** The rows a session can select by [id]: none when the id is absent or
    belongs to another tenant. *)
Lemma absent_or_foreign_policy db tenant id :
  (forall p, p ∈ policies db -> Policy.id p = id ->
             tenant <> Some (Policy.tenantId p)) ->
  Forall (fun q => Storage.policy_in id tenant q = false) (policies db).
Proof.
  intros H. apply Forall_forall. intros q Hq.
  unfold Storage.policy_in. apply andb_false_iff.
  destruct (decide (Policy.id q = id)) as [Hid|Hid].
  - right. apply sql_eq_false. now apply H.
  - left. now apply bool_decide_eq_false.
Qed.

Lemma absent_or_foreign_investment db tenant id :
  (forall i, i ∈ investments db -> Investment.id i = id ->
             tenant <> Some (Investment.tenantId i)) ->
  Forall (fun q => Storage.investment_in id tenant q = false) (investments db).
Proof.
  intros H. apply Forall_forall. intros q Hq.
  unfold Storage.investment_in. apply andb_false_iff.
  destruct (decide (Investment.id q = id)) as [Hid|Hid].
  - right. apply sql_eq_false. now apply H.
  - left. now apply bool_decide_eq_false.
Qed.

Section Unmatched.

Context {pg : Postgres}.



End Unmatched.

(** ** C9: the delete handlers of [server/routes.ts] *)

(** C9.  In the session-backed route module the Policy and Investment
    delete endpoints perform no existence check.  For an id within the
    range of the integer [id] column: whenever the id is absent, or
    every row carrying it belongs to another tenant, the call removes no
    row (the database is the same afterwards) and still answers 204.
    For an id outside that range the statement is refused: the database
    is the same afterwards and nothing is answered.  On no database,
    session or id does either endpoint answer 404. *)
Theorem C9_delete_without_existence_check (db : Db) (s : Session) (id : Z) :
  authenticated s ->
  (int4 id = true ->
   ((forall p, p ∈ policies db -> Policy.id p = id ->
               tenantId s <> Some (Policy.tenantId p)) ->
    Routes.delete_policy db s id = (Sent 204 NoBody, db))
   /\ ((forall i, i ∈ investments db -> Investment.id i = id ->
                  tenantId s <> Some (Investment.tenantId i)) ->
       Routes.delete_investment db s id = (Sent 204 NoBody, db)))
  /\ (int4 id = false ->
      Routes.delete_policy db s id = (Thrown, db)
      /\ Routes.delete_investment db s id = (Thrown, db))
  /\ ~ not_found (Routes.delete_policy db s id).1
  /\ ~ not_found (Routes.delete_investment db s id).1.
Proof.
  intros Hauth. unfold Routes.delete_policy, Routes.delete_investment.
  rewrite !isAuthenticated_next by exact Hauth.
  destruct (int4 id); simpl.
  - split; [intros _; split|split; [discriminate|split]].
    + intros H.
      now rewrite deletePolicy_unmatched by now apply absent_or_foreign_policy.
    + intros H.
      now rewrite deleteInvestment_unmatched
        by now apply absent_or_foreign_investment.
    + intros [m Hm]. discriminate.
    + intros [m Hm]. discriminate.
  - split; [discriminate|]. split; [now intros _|].
    split; intros [m Hm]; discriminate.
Qed.

Lemma C9_witness :
  authenticated globex_session /\ int4 1 = true /\ int4 7 = true
  /\ Routes.delete_policy acme_db globex_session 1 = (Sent 204 NoBody, acme_db)
  /\ Routes.delete_investment acme_db globex_session 7 = (Sent 204 NoBody, acme_db).
Proof.
  assert (Ha : authenticated globex_session) by reflexivity.
  split; [exact Ha|]. split; [reflexivity|]. split; [reflexivity|].
  split.
  - apply (C9_delete_without_existence_check acme_db globex_session 1 Ha);
      [reflexivity|].
    intros p Hp _. apply list_elem_of_singleton in Hp. subst p. discriminate.
  - apply (C9_delete_without_existence_check acme_db globex_session 7 Ha);
      [reflexivity|].
    intros i Hi Hid. apply list_elem_of_singleton in Hi. subst i. discriminate.
Defined.

(** C9, outside the range of the column.  No policy has the id
    2147483648, and the delete is not answered 204: the comparison of
    the [integer] column with that number is refused and the handler,
    which has no [catch], sends nothing. *)
Lemma C9_counterexample :
  authenticated globex_session
  /\ (forall p, p ∈ policies acme_db -> Policy.id p <> 2147483648)
  /\ Routes.delete_policy acme_db globex_session 2147483648 = (Thrown, acme_db)
  /\ Routes.delete_policy acme_db globex_session 2147483648
     <> (Sent 204 NoBody, acme_db).
Proof.
  split; [reflexivity|]. split; [|split; [reflexivity|discriminate]].
  intros p Hp. apply list_elem_of_singleton in Hp. subst p. discriminate.
Qed.

(** ** C1: tenant isolation in [server/routes.ts] *)

Section Isolation.

Context {pg : Postgres}.




End Isolation.



Section IsolationExamples.

#[local] Existing Instance iso_postgres.



End IsolationExamples.
(** ** C2: where the owning tenant of a record comes from *)

Section Stamping.

Context {pg : Postgres}.

(** On create the stored [tenantId] is the session's, whatever the body
    held under that key. *)
Lemma post_policies_stamps_session db s now body p db' :
  Routes.post_policies db s now body = (Sent 201 (OfPolicy p), db') ->
  tenantId s = Some (Policy.tenantId p) /\ p ∈ policies db'.
Proof.
  unfold Routes.post_policies, Routes.isAuthenticated.
  destruct (negb (Js.truthy_opt (userId s))); [discriminate|].
  destruct (Contract.policies_create_input body) as [m|input]; [discriminate|].
  unfold Storage.createPolicy.
  destruct (_ || _); [discriminate|]. simpl.
  destruct (tenantId s) as [t|]; [|discriminate].
  destruct (ip_startDate input) as [d|]; [|discriminate].
  destruct (existsb _ _); [discriminate|].
  intros H. injection H as <- <-. simpl. split; [reflexivity|].
  apply elem_of_app. right. now apply list_elem_of_singleton.
Qed.

Lemma post_investments_stamps_session db s now body i db' :
  Routes.post_investments db s now body = (Sent 201 (OfInvestment i), db') ->
  tenantId s = Some (Investment.tenantId i) /\ i ∈ investments db'.
Proof.
  unfold Routes.post_investments, Routes.isAuthenticated.
  destruct (negb (Js.truthy_opt (userId s))); [discriminate|].
  destruct (Contract.investments_create_input body) as [m|input]; [discriminate|].
  unfold Storage.createInvestment.
  destruct (_ || _); [discriminate|]. simpl.
  destruct (tenantId s) as [t|]; [|discriminate].
  destruct (ii_lastUpdated input) as [d|]; [discriminate|].
  destruct (existsb _ _); [discriminate|].
  intros H. injection H as <- <-. simpl. split; [reflexivity|].
  apply elem_of_app. right. now apply list_elem_of_singleton.
Qed.

(** The Policy update schema omits [tenantId]: no body makes the parsed
    payload carry one, and such a payload leaves the column alone. *)
Lemma policies_update_input_no_tenant body input :
  Contract.policies_update_input body = Contract.Parsed input ->
  up_tenantId input = None.
Proof.
  unfold Contract.policies_update_input, Contract.bind.
  repeat (match goal with
          | |- context [match ?x with Contract.ZodError _ => _ | Contract.Parsed _ => _ end] =>
              destruct x; [discriminate|]
          end).
  intros H. injection H as <-. reflexivity.
Qed.

Lemma set_policy_keeps_tenant updates p :
  up_tenantId updates = None ->
  Policy.tenantId (Storage.set_policy updates p) = Policy.tenantId p.
Proof. intros H. unfold Storage.set_policy. simpl. now rewrite H. Qed.

(** C2, at the failing input.  A session of tenant [acme] updates its
    own Investment 1 with the body [{ "tenantId": "globex" }]: the
    payload passes validation, the stored row now belongs to [globex],
    it has left [acme]'s list and entered [globex]'s. *)
Theorem C2_investment_update_rewrites_tenant (now : Z) :
  Investment.tenantId acme_investment = "acme"
  /\ tenantId acme_session = Some "acme"
  /\ Routes.put_investment acme_db acme_session now 1 move_to_globex
     = (Sent 200 (OfInvestment (moved_investment now)),
        Storage.set_investments acme_db [moved_investment now] 2)
  /\ Investment.tenantId (moved_investment now) = "globex"
  /\ Storage.getInvestments
       (Routes.put_investment acme_db acme_session now 1 move_to_globex).2
       (Some "acme") = []
  /\ Storage.getInvestments
       (Routes.put_investment acme_db acme_session now 1 move_to_globex).2
       (Some "globex") = [moved_investment now].
Proof. repeat split. Qed.

End Stamping.
(** ** C3: who becomes admin at registration *)

Section RegistrationProofs.

Variable is_email : string -> bool.
Variable bcrypt_hash : string -> string.

Lemma getTenantByDomain_domain db d t :
  Storage.getTenantByDomain db d = Some t ->
  t ∈ tenants db /\ Tenant.domain t = Some d.
Proof.
  unfold Storage.getTenantByDomain. intros H.
  apply head_Some_elem_of, list_elem_of_filter in H. tauto.
Qed.


Lemma tenant_conflict_fresh db t u :
  Storage.tenant_conflict db t = false -> u ∈ tenants db ->
  Tenant.id u <> Tenant.id t.
Proof.
  unfold Storage.tenant_conflict. intros H Hu Hid.
  apply not_true_iff_false in H. apply H.
  apply existsb_exists. exists u. split; [now apply list_elem_of_In|].
  apply orb_true_iff. left. apply orb_true_iff. left.
  now apply bool_decide_eq_true.
Qed.

Lemma resolve_tenant_spec db d tid now t db1 :
  resolve_tenant db d tid now = (t, db1) ->
  users db1 = users db
  /\ match t with
     | None => db1 = db
     | Some tn =>
         Tenant.domain tn = Some d
         /\ Storage.getTenantByDomain db1 d = Some tn
         /\ (db1 = db
             \/ (tenants db1 = (tenants db ++ [tn])%list
                 /\ Storage.tenant_conflict db tn = false))
     end.
Proof.
  unfold resolve_tenant.
  destruct (Storage.getTenantByDomain db d) as [tn|] eqn:Hget.
  - intros H. injection H as <- <-. split; [reflexivity|].
    split; [apply (getTenantByDomain_domain db d tn Hget)|].
    split; [exact Hget | now left].
  - unfold Storage.createTenant. simpl.
    destruct (Storage.tenant_conflict db _) eqn:Hc; intros H; injection H as <- <-.
    + now split.
    + split; [reflexivity|]. split; [reflexivity|]. split.
      * unfold Storage.getTenantByDomain in *. simpl.
        rewrite filter_app. apply head_None in Hget. rewrite Hget. simpl.
        rewrite filter_cons_True by reflexivity. reflexivity.
      * right. split; [reflexivity | exact Hc].
Qed.










Lemma NoDup_tenant_ids_app db tn :
  NoDup (map Tenant.id (tenants db)) ->
  Storage.tenant_conflict db tn = false ->
  NoDup (map Tenant.id (tenants db ++ [tn])).
Proof.
  intros Hnd Hfresh. rewrite map_app. apply NoDup_app. split; [exact Hnd|].
  split; [|apply NoDup_singleton].
  intros x Hx Hx'. apply list_elem_of_singleton in Hx'. subst x.
  apply list_elem_of_In, in_map_iff in Hx as (t0 & Hid & Ht0).
  apply list_elem_of_In in Ht0.
  exact (tenant_conflict_fresh db tn t0 Hfresh Ht0 Hid).
Qed.











End RegistrationProofs.

Example roles_under_acme :
  roles_under "acme"
    (register_all (fun _ => true) (fun p => p) empty_db three_registrations).1
  = [Some "admin"; Some "user"].
Proof. reflexivity. Qed.

Example roles_under_globex :
  roles_under "globex"
    (register_all (fun _ => true) (fun p => p) empty_db three_registrations).1
  = [Some "admin"].
Proof. reflexivity. Qed.

(** ** C4: the windows of the dashboard counters *)

Lemma stats_step_counts now bound e n p :
  Storage.stats_step now bound (e, n) p
  = (e + (if expiring_soon now bound p then 1 else 0),
     n + (if needs_renewal bound p then 1 else 0)).
Proof.
  unfold Storage.stats_step, expiring_soon, needs_renewal, maturity_of, renewal_of.
  f_equal.
  - destruct (Js.truthy_opt (Policy.maturityDate p)); [|lia].
    destruct (Policy.maturityDate p ≫= Js.Date_parse) as [m|]; simpl; [|lia].
    rewrite andb_comm. destruct (_ && _); lia.
  - destruct (Js.truthy_opt (Policy.nextRenewalDate p)); [|lia].
    destruct (Policy.nextRenewalDate p ≫= Js.Date_parse) as [r|]; simpl; [|lia].
    destruct (r <=? _)%Z; lia.
Qed.

Lemma count_cons {A} (f : A -> bool) x l :
  count f (x :: l) = (if f x then 1 else 0) + count f l.
Proof.
  unfold count. destruct (f x) eqn:E.
  - rewrite filter_cons_True by exact E. simpl length. lia.
  - rewrite filter_cons_False by congruence. lia.
Qed.

Lemma fold_stats_step now bound l : forall e n,
  fold_left (Storage.stats_step now bound) l (e, n)
  = (e + count (expiring_soon now bound) l, n + count (needs_renewal bound) l).
Proof.
  induction l as [|p l IH]; intros e n; cbn [fold_left].
  - unfold count. simpl. f_equal; lia.
  - rewrite stats_step_counts, IH, !count_cons. f_equal; lia.
Qed.

Section Windows.

Context {tz : Js.TimeZone}.

Lemma getDashboardStats_counts db now tenant :
  Storage.expiringSoon (Storage.getDashboardStats db now tenant)
  = count (expiring_soon now (Js.setDate_plus now 60))
      (Storage.getPolicies db tenant)
  /\ Storage.needsRenewal (Storage.getDashboardStats db now tenant)
     = count (needs_renewal (Js.setDate_plus now 60))
         (Storage.getPolicies db tenant).
Proof.
  unfold Storage.getDashboardStats. rewrite fold_stats_step. simpl. split; lia.
Qed.

(** Sixty calendar days of the local time are sixty days of
    milliseconds when the offset of the zone is the same at both
    ends. *)
Lemma setDate_plus_same_offset now :
  same_offset now -> Js.setDate_plus now 60 = now + 60 * Js.msPerDay.
Proof. unfold same_offset, Js.setDate_plus. intros ->. lia. Qed.

(** C4.  In [DatabaseStorage.getDashboardStats] the upper bound of both
    windows is the instant [setDate(getDate() + 60)] yields in the time
    zone of the server, which is [now + 60 days] when the offset of the
    zone is the same at both ends.  [expiringSoon] counts the tenant's
    policies with [now < maturityDate <= bound] and [needsRenewal] those
    with [nextRenewalDate <= bound]: a policy maturing exactly [now] is
    not expiring soon, and under that condition on the zone one
    renewing exactly at [now + 60 days] needs renewal, and so does one
    whose renewal date is past.  The stats handler of [api/index.ts]
    reads [maturityDate] only: a policy without one moves no counter,
    and one maturing exactly [now] is counted in [needsRenewal], not in
    [expiringSoon]. *)
Theorem C4_dashboard_windows (db : Db) (now : Z) (tenant : option string) :
  Storage.expiringSoon (Storage.getDashboardStats db now tenant)
  = count (expiring_soon now (Js.setDate_plus now 60))
      (Storage.getPolicies db tenant)
  /\ Storage.needsRenewal (Storage.getDashboardStats db now tenant)
     = count (needs_renewal (Js.setDate_plus now 60))
         (Storage.getPolicies db tenant)
  /\ (same_offset now -> Js.setDate_plus now 60 = now + 60 * Js.msPerDay)
  /\ (forall p, maturity_of p = Some now ->
                expiring_soon now (Js.setDate_plus now 60) p = false)
  /\ (forall p, same_offset now ->
                renewal_of p = Some (now + 60 * Js.msPerDay) ->
                needs_renewal (Js.setDate_plus now 60) p = true)
  /\ (forall p r, same_offset now -> renewal_of p = Some r -> r <= now ->
                  needs_renewal (Js.setDate_plus now 60) p = true)
  /\ (forall acc p, Policy.maturityDate p = None -> Api.stats_step now acc p = acc)
  /\ (forall e n p, maturity_of p = Some now ->
                    Api.stats_step now (e, n) p = (e, n + 1)).
Proof.
  destruct (getDashboardStats_counts db now tenant) as [He Hn].
  split; [exact He|]. split; [exact Hn|].
  split; [apply setDate_plus_same_offset|]. repeat split.
  - intros p Hm. unfold expiring_soon. rewrite Hm.
    now rewrite Z.ltb_irrefl.
  - intros p Hz Hr. rewrite setDate_plus_same_offset by exact Hz.
    unfold needs_renewal. rewrite Hr. apply Z.leb_refl.
  - intros p r Hz Hr Hle. rewrite setDate_plus_same_offset by exact Hz.
    unfold needs_renewal. rewrite Hr.
    apply Z.leb_le. unfold Js.msPerDay. lia.
  - intros [e n] p Hm. unfold Api.stats_step. now rewrite Hm.
  - intros e n p Hm. unfold Api.stats_step. unfold maturity_of in Hm.
    destruct (Js.truthy_opt (Policy.maturityDate p)); [|discriminate].
    rewrite Hm. now rewrite Z.sub_diag.
Qed.

End Windows.

Section WindowsInUTC.

#[local] Existing Instance utc.

Lemma C4_witness :
  same_offset new_years_eve
  /\ renewal_of renewal_policy = Some (new_years_eve + 60 * Js.msPerDay)
  /\ needs_renewal (Js.setDate_plus new_years_eve 60) renewal_policy = true
  /\ Storage.needsRenewal
       (Storage.getDashboardStats renewal_db new_years_eve (Some "acme")) = 1.
Proof.
  split; [reflexivity|]. split; [reflexivity|]. split.
  - apply (C4_dashboard_windows renewal_db new_years_eve (Some "acme"));
      reflexivity.
  - rewrite (proj1 (proj2 (C4_dashboard_windows renewal_db new_years_eve
                             (Some "acme")))).
    reflexivity.
Defined.

End WindowsInUTC.

Section WindowsInStockholm.

#[local] Existing Instance stockholm_2026.

(** C4, on the stats handler of [api/index.ts]: the only policy of the
    tenant has its [nextRenewalDate] exactly 60 days after [now], and
    [needsRenewal] is 0.  And on [DatabaseStorage.getDashboardStats] of
    a server in Stockholm: summer time begins between 1 March 2026 and
    the renewal date 60 days later, the bound falls an hour short of it,
    and [needsRenewal] is 0. *)
Lemma C4_counterexample :
  (renewal_of renewal_policy = Some (new_years_eve + 60 * Js.msPerDay)
   /\ exists stats,
        Api.get_dashboard_stats renewal_db (Some acme_user) new_years_eve
        = (Sent 200 (OfStats stats), renewal_db)
        /\ Storage.totalPolicies stats = 1
        /\ Storage.needsRenewal stats = 0)
  /\ (renewal_of april_policy = Some (first_of_march + 60 * Js.msPerDay)
      /\ Js.setDate_plus first_of_march 60
         = first_of_march + 60 * Js.msPerDay - 3600000
      /\ Storage.totalPolicies
           (Storage.getDashboardStats april_db first_of_march (Some "acme")) = 1
      /\ Storage.needsRenewal
           (Storage.getDashboardStats april_db first_of_march (Some "acme")) = 0).
Proof.
  split.
  - split; [reflexivity|]. eexists. repeat split.
  - repeat split.
Qed.

End WindowsInStockholm.
(** ** C5: the [premiumsByProvider] rows of the analytics *)

Lemma of_Z_1 : Js.of_Z 1 = Js.Num 1%Qc.
Proof. js_number. Qed.

Lemma ndiv_1 x : Js.ndiv x (Js.of_Z 1) = x.
Proof.
  rewrite of_Z_1. destruct x as [|a]; [reflexivity|]. simpl.
  destruct (Qc_eq_dec 1%Qc 0%Qc) as [H|_]; [discriminate H|].
  f_equal. unfold Qcdiv. replace (/ 1)%Qc with 1%Qc by now apply Qc_is_canon.
  apply Qcmult_1_r.
Qed.

Lemma nmul_1 x : Js.nmul x (Js.of_Z 1) = x.
Proof.
  rewrite of_Z_1. destruct x as [|a]; [reflexivity|]. simpl.
  f_equal. apply Qcmult_1_r.
Qed.

Lemma premium_row_yearly pol :
  Policy.premiumFrequency pol = Some "yearly" ->
  monthlyPremium (Routes.premium_row pol) = Js.ndiv (premium_of pol) (Js.of_Z 12)
  /\ yearlyPremium (Routes.premium_row pol) = premium_of pol.
Proof.
  intros H. unfold Routes.premium_row, Routes.is_yearly, premium_of. simpl.
  rewrite bool_decide_eq_true_2 by exact H. split; [reflexivity | apply nmul_1].
Qed.

Lemma premium_row_other pol :
  Policy.premiumFrequency pol <> Some "yearly" ->
  monthlyPremium (Routes.premium_row pol) = premium_of pol
  /\ yearlyPremium (Routes.premium_row pol) = Js.nmul (premium_of pol) (Js.of_Z 12).
Proof.
  intros H. unfold Routes.premium_row, Routes.is_yearly, premium_of. simpl.
  rewrite bool_decide_eq_false_2 by exact H. split; [apply ndiv_1 | reflexivity].
Qed.

(** C5.  For an authenticated session the analytics answer carries in
    [premiumsByProvider] exactly one row per policy of the tenant, in
    the order of the policy list and without grouping.  The row of a
    policy whose [premiumFrequency] is [yearly] has
    [monthlyPremium = premium / 12] and [yearlyPremium = premium]; for
    any other frequency (or none) [monthlyPremium = premium] and
    [yearlyPremium = premium * 12].  With [premium = "1200"] and
    frequency [yearly] the row has [monthlyPremium = 100] and
    [yearlyPremium = 1200]. *)
Theorem C5_premiums_by_provider (db : Db) (s : Session) :
  authenticated s ->
  (exists a,
     Routes.get_dashboard_analytics db s = (Sent 200 (OfAnalytics a), db)
     /\ premiumsByProvider a
        = map Routes.premium_row (Storage.getPolicies db (tenantId s))
     /\ length (premiumsByProvider a)
        = length (Storage.getPolicies db (tenantId s)))
  /\ (forall pol, Policy.premiumFrequency pol = Some "yearly" ->
        monthlyPremium (Routes.premium_row pol)
        = Js.ndiv (premium_of pol) (Js.of_Z 12)
        /\ yearlyPremium (Routes.premium_row pol) = premium_of pol)
  /\ (forall pol, Policy.premiumFrequency pol <> Some "yearly" ->
        monthlyPremium (Routes.premium_row pol) = premium_of pol
        /\ yearlyPremium (Routes.premium_row pol)
           = Js.nmul (premium_of pol) (Js.of_Z 12))
  /\ (forall pol, Policy.premium pol = Some "1200" ->
        Policy.premiumFrequency pol = Some "yearly" ->
        monthlyPremium (Routes.premium_row pol) = Js.of_Z 100
        /\ yearlyPremium (Routes.premium_row pol) = Js.of_Z 1200).
Proof.
  intros Hauth. split; [|split; [|split]].
  - eexists. unfold Routes.get_dashboard_analytics.
    rewrite isAuthenticated_next by exact Hauth.
    unfold authenticated in Hauth. rewrite Hauth. simpl.
    split; [reflexivity|]. split; [reflexivity|]. apply length_map.
  - apply premium_row_yearly.
  - apply premium_row_other.
  - intros pol Hp Hf. destruct (premium_row_yearly pol Hf) as [-> ->].
    unfold premium_of. rewrite Hp. split; js_number.
Qed.

Lemma C5_witness :
  authenticated acme_session
  /\ (exists a,
        Routes.get_dashboard_analytics acme_db acme_session
        = (Sent 200 (OfAnalytics a), acme_db)
        /\ length (premiumsByProvider a) = 1%nat)
  /\ monthlyPremium (Routes.premium_row acme_policy) = Js.of_Z 100
  /\ yearlyPremium (Routes.premium_row acme_policy) = Js.of_Z 1200.
Proof.
  pose proof (C5_premiums_by_provider acme_db acme_session eq_refl)
    as ((a & Ha & _ & Hlen) & _ & _ & Hscenario).
  split; [reflexivity|]. split.
  - exists a. split; [exact Ha | exact Hlen].
  - apply Hscenario; reflexivity.
Defined.

(** ** C6: the [lastUpdated] stamp of an Investment update *)
(** ** C6: the [lastUpdated] stamp of an Investment update *)

Lemma head_map_filter_Some {A} (c : A -> bool) (f : A -> A) rows r :
  head (map f (filter (fun x => c x = true) rows)) = Some r ->
  exists x, x ∈ rows /\ c x = true /\ r = f x.
Proof.
  destruct (filter _ rows) as [|x l] eqn:E; [discriminate|].
  simpl. intros H. injection H as <-.
  assert (Hx : x ∈ filter (fun x => c x = true) rows)
    by (rewrite E; apply list_elem_of_here).
  apply list_elem_of_filter in Hx as [Hc Hx]. now exists x.
Qed.


Section Stamp.

Context {pg : Postgres}.





End Stamp.

Section StampExamples.

#[local] Existing Instance iso_postgres.



End StampExamples.
(** ** C7: role changes an admin cannot make *)

Lemma isAdmin_next db s next :
  is_admin db s -> Routes.isAdmin db s next = next.
Proof.
  intros (user & Hget & Hrole). unfold Routes.isAdmin. rewrite Hget.
  now rewrite bool_decide_eq_true_2 by exact Hrole.
Qed.

(** Neither rejection writes, whoever sends the request. *)
Lemma put_admin_user_role_rejections_write_nothing db s target role :
  (userId s = Some target /\ role = Value "user")
  \/ Routes.role_included role = None ->
  (Routes.put_admin_user_role db s target role).2 = db.
Proof.
  intros H. unfold Routes.put_admin_user_role, Routes.isAuthenticated, Routes.isAdmin.
  destruct (negb _); [reflexivity|].
  destruct (userId s ≫= Storage.getUser db) as [user|]; [|reflexivity].
  destruct (negb _); [reflexivity|].
  destruct H as [[Hself ->]| ->]; [|reflexivity].
  simpl. rewrite bool_decide_eq_true_2 by now rewrite Hself. reflexivity.
Qed.

(** C7.  For an authenticated admin, a role change that targets the
    admin's own account with [role = "user"] is answered 400 and leaves
    the database, hence the stored role, as it was; and a [role] that is
    not one of [admin] and [user] (or is missing) is answered 400
    "Invalid role", again without any write. *)
Theorem C7_role_change_rejected (db : Db) (s : Session) (target : string)
    (role : prop string) :
  authenticated s -> is_admin db s ->
  (userId s = Some target -> role = Value "user" ->
     Routes.put_admin_user_role db s target role
     = (Sent 400 (Message
          "Cannot demote yourself. Ask another admin to change your role."), db)
     /\ Storage.getUser (Routes.put_admin_user_role db s target role).2 target
        = Storage.getUser db target)
  /\ ((forall r, role = Value r -> r <> "admin" /\ r <> "user") ->
      Routes.put_admin_user_role db s target role
      = (Sent 400 (Message "Invalid role"), db)).
Proof.
  intros Hauth Hadmin. unfold Routes.put_admin_user_role.
  rewrite isAuthenticated_next by exact Hauth.
  rewrite isAdmin_next by exact Hadmin. split.
  - intros Hself ->. simpl.
    rewrite bool_decide_eq_true_2 by now rewrite Hself. now split.
  - intros Hrole.
    assert (Routes.role_included role = None) as ->; [|reflexivity].
    unfold Routes.role_included. destruct role as [| |r]; try reflexivity.
    destruct (Hrole r eq_refl) as [Ha Hu].
    now rewrite !bool_decide_eq_false_2 by assumption.
Qed.

Lemma C7_witness :
  authenticated acme_session /\ is_admin admin_db acme_session
  /\ Routes.put_admin_user_role admin_db acme_session "u-acme" (Value "user")
     = (Sent 400 (Message
          "Cannot demote yourself. Ask another admin to change your role."),
        admin_db)
  /\ Routes.put_admin_user_role admin_db acme_session "u-bob" (Value "owner")
     = (Sent 400 (Message "Invalid role"), admin_db).
Proof.
  assert (Hadmin : is_admin admin_db acme_session)
    by (exists alice; split; reflexivity).
  split; [reflexivity|]. split; [exact Hadmin|]. split.
  - apply (C7_role_change_rejected admin_db acme_session "u-acme" (Value "user")
             eq_refl Hadmin); reflexivity.
  - apply (C7_role_change_rejected admin_db acme_session "u-bob" (Value "owner")
             eq_refl Hadmin).
    intros r Hr. injection Hr as <-. split; discriminate.
Defined.

(** ** C10: what removal from a tenant writes *)

Lemma removeUserFromTenant_users db target tenant :
  users (Storage.removeUserFromTenant db target tenant)
  = map (fun u => if Storage.user_in target tenant u
                  then Storage.with_role (Storage.with_tenantId u None) (Some "user")
                  else u) (users db).
Proof. reflexivity. Qed.



(** ** C8: deleting a Policy that has a document ([api/index.ts]) *)

Lemma Api_deletePolicy_elem db id p :
  p ∈ policies (Api.deletePolicy db id) <-> p ∈ policies db /\ Policy.id p <> id.
Proof.
  unfold Api.deletePolicy. simpl. rewrite delete_where_elem.
  rewrite bool_decide_eq_false. tauto.
Qed.

Lemma Api_getPolicy_deleted db id : Api.getPolicy (Api.deletePolicy db id) id = None.
Proof.
  unfold Api.getPolicy. apply head_None.
  destruct (Storage.select_where _ _) as [|p l] eqn:E; [reflexivity|exfalso].
  assert (Hp : p ∈ Storage.select_where
                     (fun p => bool_decide (Policy.id p = id))
                     (policies (Api.deletePolicy db id)))
    by (rewrite E; apply list_elem_of_here).
  apply select_where_elem in Hp as [Hid Hp].
  apply bool_decide_eq_true in Hid.
  apply Api_deletePolicy_elem in Hp as [_ Hne]. contradiction.
Qed.

Lemma remove_not_elem x l : x ∉ Api.remove x l.
Proof.
  unfold Api.remove. intros H. apply list_elem_of_filter in H as [H _].
  now apply H.
Qed.

(** C8.  The session's tenant owns Policy [id], which has a document.
    Whatever the collaborators do, including every call throwing, the
    handler answers 204 and the row is gone from the table; the only
    trace of the document deletion is in the world outside the database.
    For a document in the blob store, the deletion is attempted: when
    [del] throws the failure is written to the error console and
    nothing else changes, and when it does not the blob is gone. *)
Theorem C8_document_deletion_is_best_effort (f : Api.Faults) (db : Db)
    (w : Api.World) (user : Api.SessionUser) (id : Z) (policy : Policy.t)
    (url : string) :
  Api.getPolicy db id = Some policy ->
  Some (Policy.tenantId policy) = Api.su_tenantId user ->
  Policy.documentUrl policy = Some url -> Js.truthy url = true ->
  Api.delete_policy f db w (Some user) id
  = (Sent 204 NoBody, Api.deletePolicy db id, Api.deleteBlobFile f w (Some url))
  /\ Api.getPolicy (Api.deletePolicy db id) id = None
  /\ (forall p, p ∈ policies (Api.deletePolicy db id) <->
                p ∈ policies db /\ Policy.id p <> id)
  /\ (is_blob_url url = true -> Api.del_throws f url = true ->
        Api.deleteBlobFile f w (Some url)
        = Api.log_error w ("Failed to delete file: " ++ url))
  /\ (is_blob_url url = true -> Api.del_throws f url = false ->
        (url ∉ Api.blobs (Api.deleteBlobFile f w (Some url)))
        /\ Api.console_error (Api.deleteBlobFile f w (Some url))
           = Api.console_error w).
Proof.
  intros Hget Hown Hdoc Htruthy.
  split; [|split; [apply Api_getPolicy_deleted|split; [apply Api_deletePolicy_elem|]]].
  - unfold Api.delete_policy. rewrite Hget.
    rewrite bool_decide_eq_true_2 by exact Hown. simpl.
    rewrite Hdoc. simpl. now rewrite Htruthy.
  - unfold is_blob_url, Api.deleteBlobFile. simpl. rewrite Htruthy. simpl.
    split.
    + intros -> ->. reflexivity.
    + intros -> ->. simpl. split; [apply remove_not_elem | reflexivity].
Qed.

Lemma C8_witness :
  Api.getPolicy documented_db 1 = Some documented_policy
  /\ Api.del_throws all_fail policy_pdf = true
  /\ Api.delete_policy all_fail documented_db blob_world (Some acme_user) 1
     = (Sent 204 NoBody, mkDb [] [] [] [] 2 1,
        Api.log_error blob_world ("Failed to delete file: " ++ policy_pdf)).
Proof.
  split; [reflexivity|]. split; [reflexivity|].
  pose proof (C8_document_deletion_is_best_effort all_fail documented_db
                blob_world acme_user 1 documented_policy policy_pdf
                eq_refl eq_refl eq_refl eq_refl) as (Hresp & _ & _ & Hfail & _).
  rewrite Hresp. rewrite (Hfail eq_refl eq_refl). reflexivity.
Defined.

(** ** The primary keys are kept by every write of [DatabaseStorage] *)

Section Keys.
Context {A K : Type} (key : A -> K).

Lemma keys_filter (P : A -> Prop) `{!forall x, Decision (P x)} (rows : list A) :
  NoDup (map key rows) -> NoDup (map key (filter P rows)).
Proof.
  induction rows as [|r rows IH]; simpl; intros Hnd; [constructor|].
  apply NoDup_cons in Hnd as [Hr Hnd].
  rewrite filter_cons. destruct (decide (P r)); [|now apply IH].
  simpl. apply NoDup_cons. split; [|now apply IH].
  intros Hin. apply Hr.
  apply list_elem_of_In, in_map_iff in Hin as (x & Hk & Hx).
  apply list_elem_of_In, list_elem_of_filter in Hx as [_ Hx].
  rewrite <- Hk. now apply list_elem_of_In, in_map, list_elem_of_In.
Qed.

Lemma keys_update_where (c : A -> bool) (f : A -> A) (rows : list A) :
  (forall r, key (f r) = key r) ->
  map key (Storage.update_where c f rows).1 = map key rows.
Proof.
  intros Hf. unfold Storage.update_where. simpl.
  induction rows as [|r rows IH]; [reflexivity|].
  simpl. rewrite IH. now destruct (c r); rewrite ?Hf.
Qed.

Lemma keys_insert `{!EqDecision K} (rows : list A) (r : A) (k : K) :
  existsb (fun x => bool_decide (key x = k)) rows = false -> key r = k ->
  NoDup (map key rows) -> NoDup (map key (rows ++ [r])).
Proof.
  intros Hfresh <- Hnd. rewrite map_app. apply NoDup_app.
  split; [exact Hnd|]. split; [|apply NoDup_singleton].
  intros k Hk Hk'. apply list_elem_of_singleton in Hk'. subst k.
  apply list_elem_of_In, in_map_iff in Hk as (x & Hx & Hin).
  apply not_true_iff_false in Hfresh. apply Hfresh.
  apply existsb_exists. exists x. split; [exact Hin|].
  now apply bool_decide_eq_true.
Qed.
End Keys.

Section Records.

Context {pg : Postgres}.

Lemma createPolicy_keys db now policy :
  primary_keys db -> primary_keys (Storage.createPolicy db now policy).2.
Proof.
  intros (Ht & Hu & Hp & Hi). unfold Storage.createPolicy.
  destruct (_ || _); [repeat split; assumption|].
  destruct (ip_tenantId policy), (ip_startDate policy);
    try (repeat split; assumption).
  destruct (existsb _ _) eqn:E; [repeat split; assumption|].
  repeat split; try assumption. simpl.
  apply (keys_insert Policy.id (policies db) _ _ E); [reflexivity | exact Hp].
Qed.

Lemma updatePolicy_keys db id tenant updates :
  primary_keys db -> primary_keys (Storage.updatePolicy db id tenant updates).2.
Proof.
  intros (Ht & Hu & Hp & Hi). unfold Storage.updatePolicy.
  destruct (_ || _); [repeat split; assumption|].
  repeat split; try assumption.
  change (policies _) with
    (Storage.update_where (Storage.policy_in id tenant)
       (Storage.set_policy updates) (policies db)).1.
  now rewrite keys_update_where.
Qed.

Lemma deletePolicy_keys db id tenant :
  primary_keys db -> primary_keys (Storage.deletePolicy db id tenant).
Proof.
  intros (Ht & Hu & Hp & Hi). repeat split; try assumption.
  simpl. now apply keys_filter.
Qed.

Lemma createInvestment_keys db now investment :
  primary_keys db -> primary_keys (Storage.createInvestment db now investment).2.
Proof.
  intros (Ht & Hu & Hp & Hi). unfold Storage.createInvestment.
  destruct (_ || _); [repeat split; assumption|].
  destruct (ii_tenantId investment), (ii_lastUpdated investment);
    try (repeat split; assumption).
  destruct (existsb _ _) eqn:E; [repeat split; assumption|].
  repeat split; try assumption. simpl.
  apply (keys_insert Investment.id (investments db) _ _ E); [reflexivity | exact Hi].
Qed.

Lemma updateInvestment_keys db now id tenant updates :
  primary_keys db ->
  primary_keys (Storage.updateInvestment db now id tenant updates).2.
Proof.
  intros (Ht & Hu & Hp & Hi). unfold Storage.updateInvestment.
  destruct (negb _); [repeat split; assumption|].
  repeat split; try assumption.
  change (investments _) with
    (Storage.update_where (Storage.investment_in id tenant)
       (Storage.set_investment updates now) (investments db)).1.
  now rewrite keys_update_where.
Qed.

Lemma deleteInvestment_keys db id tenant :
  primary_keys db -> primary_keys (Storage.deleteInvestment db id tenant).
Proof.
  intros (Ht & Hu & Hp & Hi). repeat split; try assumption.
  simpl. now apply keys_filter.
Qed.

Lemma removeUserFromTenant_keys db target tenant :
  primary_keys db -> primary_keys (Storage.removeUserFromTenant db target tenant).
Proof.
  intros (Ht & Hu & Hp & Hi). repeat split; try assumption.
  change (users _) with
    (Storage.update_where (Storage.user_in target tenant)
       (fun u => Storage.with_role (Storage.with_tenantId u None) (Some "user"))
       (users db)).1.
  now rewrite keys_update_where.
Qed.

Lemma updateUserRole_keys db target tenant role :
  primary_keys db -> primary_keys (Storage.updateUserRole db target tenant role).2.
Proof.
  intros (Ht & Hu & Hp & Hi). repeat split; try assumption.
  change (users _) with
    (Storage.update_where (Storage.user_in target tenant)
       (fun u => Storage.with_role u (Some role)) (users db)).1.
  now rewrite keys_update_where.
Qed.

(** ** Records: what is created can be read, what is deleted cannot *)

Lemma existsb_false_Forall {A} (f : A -> bool) (l : list A) :
  existsb f l = false -> Forall (fun x => f x = false) l.
Proof.
  induction l as [|x l IH]; simpl; [constructor|].
  intros H. apply orb_false_iff in H as [Hx Hl]. constructor; auto.
Qed.

Lemma createPolicy_created db now policy p db' :
  Storage.createPolicy db now policy = (Some p, db') ->
  ip_tenantId policy = Some (Policy.tenantId p)
  /\ Policy.id p = policies_id_seq db
  /\ int4 (Policy.id p) = true
  /\ Forall (fun q => bool_decide (Policy.id q = Policy.id p) = false) (policies db)
  /\ policies db' = (policies db ++ [p])%list
  /\ policies_id_seq db' = policies_id_seq db + 1
  /\ investments db' = investments db /\ users db' = users db
  /\ tenants db' = tenants db.
Proof.
  unfold Storage.createPolicy.
  destruct (negb (Storage.insert_policy_accepted policy)); [discriminate|].
  destruct (int4 (policies_id_seq db)) eqn:Hint; [|discriminate]. cbn [negb orb].
  destruct (ip_tenantId policy) as [t|]; [|discriminate].
  destruct (ip_startDate policy) as [d|]; [|discriminate].
  destruct (existsb _ _) eqn:E; [discriminate|].
  intros H. injection H as <- <-. simpl.
  repeat split; [exact Hint|]. now apply existsb_false_Forall.
Qed.

Lemma createInvestment_created db now investment i db' :
  Storage.createInvestment db now investment = (Some i, db') ->
  ii_tenantId investment = Some (Investment.tenantId i)
  /\ Investment.id i = investments_id_seq db
  /\ int4 (Investment.id i) = true
  /\ Forall (fun q => bool_decide (Investment.id q = Investment.id i) = false)
            (investments db)
  /\ investments db' = (investments db ++ [i])%list
  /\ investments_id_seq db' = investments_id_seq db + 1
  /\ Investment.lastUpdated i = Some now
  /\ policies db' = policies db /\ users db' = users db
  /\ tenants db' = tenants db.
Proof.
  unfold Storage.createInvestment.
  destruct (bool_decide _ || negb _); [discriminate|].
  destruct (int4 (investments_id_seq db)) eqn:Hint; [|discriminate].
  cbn [negb orb].
  destruct (ii_tenantId investment) as [t|]; [|discriminate].
  destruct (ii_lastUpdated investment) as [d|]; [discriminate|].
  destruct (existsb _ _) eqn:E; [discriminate|].
  intros H. injection H as <- <-. simpl.
  repeat split; [exact Hint|]. now apply existsb_false_Forall.
Qed.

Lemma select_where_fresh {A} (c : A -> bool) (rows : list A) (r : A) :
  Forall (fun q => c q = false) rows -> c r = true ->
  Storage.select_where c (rows ++ [r]) = [r].
Proof.
  intros Hold Hr. unfold Storage.select_where. rewrite filter_app.
  change (filter (fun x => c x = true) rows) with (Storage.select_where c rows).
  rewrite select_where_none by exact Hold.
  now rewrite filter_cons_True by exact Hr.
Qed.

Lemma post_policies_created db s now body p db' :
  Routes.post_policies db s now body = (Sent 201 (OfPolicy p), db') ->
  authenticated s
  /\ exists input, Contract.policies_create_input body = Contract.Parsed input
       /\ Storage.createPolicy db now (Routes.policy_for input (tenantId s))
          = (Some p, db').
Proof.
  unfold Routes.post_policies, Routes.isAuthenticated, authenticated.
  destruct (Js.truthy_opt (userId s)); [|discriminate]. simpl.
  destruct (Contract.policies_create_input body) as [m|input]; [discriminate|].
  destruct (Storage.createPolicy _ _ _) as [[q|] db1] eqn:E; [|discriminate].
  intros H. injection H as <- <-. split; [reflexivity|]. now exists input.
Qed.

Lemma post_investments_created db s now body i db' :
  Routes.post_investments db s now body = (Sent 201 (OfInvestment i), db') ->
  authenticated s
  /\ exists input, Contract.investments_create_input body = Contract.Parsed input
       /\ Storage.createInvestment db now
            (Routes.investment_for input (tenantId s)) = (Some i, db').
Proof.
  unfold Routes.post_investments, Routes.isAuthenticated, authenticated.
  destruct (Js.truthy_opt (userId s)); [|discriminate]. simpl.
  destruct (Contract.investments_create_input body) as [m|input]; [discriminate|].
  destruct (Storage.createInvestment _ _ _) as [[q|] db1] eqn:E; [|discriminate].
  intros H. injection H as <- <-. split; [reflexivity|]. now exists input.
Qed.

(** X1.  A Policy the create endpoint answered 201 with can be read
    back: a get of its id in the same session answers 200 with the same
    row, the row is in the session's list, its id is the one the
    sequence held, and the sequence has moved past it. *)
Theorem X1_policy_create_then_get (db : Db) (s : Session) (now : Z)
    (body : Contract.PolicyBody) (p : Policy.t) (db' : Db) :
  Routes.post_policies db s now body = (Sent 201 (OfPolicy p), db') ->
  Routes.get_policy db' s (Policy.id p) = (Sent 200 (OfPolicy p), db')
  /\ p ∈ Storage.getPolicies db' (tenantId s)
  /\ Policy.id p = policies_id_seq db
  /\ policies_id_seq db' = Policy.id p + 1
  /\ Policy.createdAt p = Some now
  /\ Policy.renewalStatus p = Some "active".
Proof.
  intros H. pose proof H as Hstamp.
  apply post_policies_stamps_session in Hstamp as [Htenant Hin].
  apply post_policies_created in H as (Hauth & input & _ & Hcreate).
  pose proof Hcreate as Hc.
  apply createPolicy_created in Hc as (_ & Hid & Hint & Hfresh & Hrows & Hseq & _).
  split; [|split; [|split; [exact Hid|split; [lia|]]]].
  - unfold Routes.get_policy. rewrite isAuthenticated_next by exact Hauth.
    rewrite Hint. cbn [negb].
    unfold Storage.getPolicy. rewrite Hrows, select_where_fresh; [reflexivity| |].
    + eapply Forall_impl; [exact Hfresh|]. intros q Hq. unfold Storage.policy_in.
      now rewrite Hq.
    + unfold Storage.policy_in. rewrite bool_decide_eq_true_2 by reflexivity.
      now apply sql_eq_true.
  - apply getPolicies_elem. now split.
  - unfold Storage.createPolicy in Hcreate.
    destruct (_ || _); [discriminate|]. simpl in Hcreate.
    destruct (tenantId s); [|discriminate].
    destruct (ip_startDate input); [|discriminate].
    destruct (existsb _ _); [discriminate|].
    injection Hcreate as <- _. now split.
Qed.

(** X2.  An Investment the create endpoint answered 201 with is stored
    under the session's tenant with a fresh id, is found by the storage
    lookup of that id and tenant, is in the session's list, and carries
    the clock reading of the insert as [lastUpdated]. *)
Theorem X2_investment_create_then_get (db : Db) (s : Session) (now : Z)
    (body : Contract.InvestmentBody) (i : Investment.t) (db' : Db) :
  Routes.post_investments db s now body = (Sent 201 (OfInvestment i), db') ->
  Storage.getInvestment db' (Investment.id i) (tenantId s) = Some i
  /\ i ∈ Storage.getInvestments db' (tenantId s)
  /\ tenantId s = Some (Investment.tenantId i)
  /\ Investment.id i = investments_id_seq db
  /\ investments_id_seq db' = Investment.id i + 1
  /\ Investment.lastUpdated i = Some now.
Proof.
  intros H. pose proof H as Hstamp.
  apply post_investments_stamps_session in Hstamp as [Htenant Hin].
  apply post_investments_created in H as (Hauth & input & _ & Hcreate).
  apply createInvestment_created in Hcreate
    as (_ & Hid & _ & Hfresh & Hrows & Hseq & Hlast & _).
  split; [|split; [|split; [exact Htenant|split; [exact Hid|split; [lia|exact Hlast]]]]].
  - unfold Storage.getInvestment. rewrite Hrows, select_where_fresh; [reflexivity| |].
    + eapply Forall_impl; [exact Hfresh|]. intros q Hq.
      unfold Storage.investment_in. now rewrite Hq.
    + unfold Storage.investment_in. rewrite bool_decide_eq_true_2 by reflexivity.
      now apply sql_eq_true.
  - apply getInvestments_elem. now split.
Qed.

End Records.

Section RecordsExamples.

#[local] Existing Instance iso_postgres.

Lemma X1_witness :
  exists p db',
    Routes.post_policies acme_db acme_session 1767300000000 car_policy
    = (Sent 201 (OfPolicy p), db')
    /\ Routes.get_policy db' acme_session (Policy.id p)
       = (Sent 200 (OfPolicy p), db')
    /\ Policy.id p = 2.
Proof.
  eexists. eexists. split; [vm_compute; reflexivity|].
  match goal with
  | |- Routes.get_policy ?d _ (Policy.id ?p) = _ /\ _ =>
      destruct (X1_policy_create_then_get acme_db acme_session 1767300000000
                  car_policy p d) as (Hget & _ & Hid & _);
        [vm_compute; reflexivity|]
  end.
  split; [exact Hget|exact Hid].
Defined.

Lemma X2_witness :
  exists i db',
    Routes.post_investments acme_db acme_session 1767300000000 usd_holding
    = (Sent 201 (OfInvestment i), db')
    /\ Storage.getInvestment db' (Investment.id i) (Some "acme") = Some i
    /\ Investment.lastUpdated i = Some 1767300000000.
Proof.
  eexists. eexists. split; [vm_compute; reflexivity|].
  match goal with
  | |- Storage.getInvestment ?d (Investment.id ?i) _ = _ /\ _ =>
      destruct (X2_investment_create_then_get acme_db acme_session
                  1767300000000 usd_holding i d)
        as (Hget & _ & _ & _ & _ & Hlast);
        [vm_compute; reflexivity|]
  end.
  split; [exact Hget|exact Hlast].
Defined.

End RecordsExamples.
(** ** Deletes remove the addressed row and nothing else *)


Lemma policy_in_false id tenant p :
  Storage.policy_in id tenant p = false <->
  ~ (Policy.id p = id /\ tenant = Some (Policy.tenantId p)).
Proof.
  unfold Storage.policy_in. rewrite andb_false_iff, bool_decide_eq_false.
  rewrite <- sql_eq_true. destruct (sql_eq _ _); intuition congruence.
Qed.

Lemma investment_in_false id tenant i :
  Storage.investment_in id tenant i = false <->
  ~ (Investment.id i = id /\ tenant = Some (Investment.tenantId i)).
Proof.
  unfold Storage.investment_in. rewrite andb_false_iff, bool_decide_eq_false.
  rewrite <- sql_eq_true. destruct (sql_eq _ _); intuition congruence.
Qed.

Lemma delete_where_idem {A} (c : A -> bool) (rows : list A) :
  Storage.delete_where c (Storage.delete_where c rows) = Storage.delete_where c rows.
Proof.
  apply delete_where_none, Forall_forall. intros r Hr.
  now apply delete_where_elem in Hr.
Qed.

(** X3.  The delete endpoints of [server/routes.ts], for an
    authenticated session and an id within the range of the [id]
    column: the rows removed are exactly those with the given id that
    belong to the session's tenant, every other table and both
    sequences are left alone, a get of the id then answers "not found",
    and deleting again changes nothing more. *)
Theorem X3_delete_removes_exactly (db : Db) (s : Session) (id : Z) :
  authenticated s -> int4 id = true ->
  (forall p, p ∈ policies (Routes.delete_policy db s id).2 <->
             p ∈ policies db
             /\ ~ (Policy.id p = id /\ tenantId s = Some (Policy.tenantId p)))
  /\ (forall i, i ∈ investments (Routes.delete_investment db s id).2 <->
                i ∈ investments db
                /\ ~ (Investment.id i = id
                      /\ tenantId s = Some (Investment.tenantId i)))
  /\ investments (Routes.delete_policy db s id).2 = investments db
  /\ policies (Routes.delete_investment db s id).2 = policies db
  /\ policies_id_seq (Routes.delete_policy db s id).2 = policies_id_seq db
  /\ investments_id_seq (Routes.delete_investment db s id).2
     = investments_id_seq db
  /\ Routes.get_policy (Routes.delete_policy db s id).2 s id
     = (Sent 404 (Message "Policy not found"), (Routes.delete_policy db s id).2)
  /\ Storage.getInvestment (Routes.delete_investment db s id).2 id (tenantId s)
     = None
  /\ (Routes.delete_policy (Routes.delete_policy db s id).2 s id).2
     = (Routes.delete_policy db s id).2
  /\ (Routes.delete_investment (Routes.delete_investment db s id).2 s id).2
     = (Routes.delete_investment db s id).2.
Proof.
  intros Hauth Hint. unfold Routes.delete_policy, Routes.delete_investment,
    Routes.get_policy.
  rewrite !isAuthenticated_next by exact Hauth. rewrite Hint. cbn [negb fst snd].
  rewrite ?isAuthenticated_next by exact Hauth. cbn [fst snd].
  split; [|split; [|split; [reflexivity|split; [reflexivity|split;
    [reflexivity|split; [reflexivity|split; [|split; [|split]]]]]]]].
  - intros p. unfold Storage.deletePolicy. simpl.
    rewrite delete_where_elem, policy_in_false. tauto.
  - intros i. unfold Storage.deleteInvestment. simpl.
    rewrite delete_where_elem, investment_in_false. tauto.
  - rewrite getPolicy_unmatched; [reflexivity|].
    apply Forall_forall. intros p Hp. unfold Storage.deletePolicy in Hp.
    simpl in Hp. now apply delete_where_elem in Hp.
  - apply getInvestment_unmatched, Forall_forall. intros i Hi.
    unfold Storage.deleteInvestment in Hi. simpl in Hi.
    now apply delete_where_elem in Hi.
  - unfold Storage.deletePolicy. simpl. now rewrite delete_where_idem.
  - unfold Storage.deleteInvestment. simpl. now rewrite delete_where_idem.
Qed.

Lemma X3_witness :
  authenticated acme_session /\ int4 1 = true
  /\ policies (Routes.delete_policy acme_db acme_session 1).2 = []
  /\ Routes.get_policy (Routes.delete_policy acme_db acme_session 1).2
       acme_session 1
     = (Sent 404 (Message "Policy not found"),
        (Routes.delete_policy acme_db acme_session 1).2).
Proof.
  split; [reflexivity|]. split; [reflexivity|]. split; [reflexivity|].
  apply (X3_delete_removes_exactly acme_db acme_session 1 eq_refl eq_refl).
Defined.

(** ** Policy updates keep the key and the owner *)

Lemma update_where_lookup {A} (c : A -> bool) (f : A -> A) rows k :
  (Storage.update_where c f rows).1 !! k
  = (fun r => if c r then f r else r) <$> rows !! k.
Proof.
  unfold Storage.update_where. cbn [fst].
  change (map ?g ?l) with (g <$> l). apply list_lookup_fmap.
Qed.

Lemma update_where_map {A B} (c : A -> bool) (f : A -> A) (g : A -> B) rows :
  (forall r, g (f r) = g r) ->
  map g (Storage.update_where c f rows).1 = map g rows.
Proof. apply keys_update_where. Qed.

Section PolicyUpdate.

Context {pg : Postgres}.

(** X4.  Whatever the body, the Policy update endpoint keeps the number
    and order of the rows and, row by row, the id, the owning tenant,
    the creation time and the renewal status; a row it does not select
    is left as it is; and a row it answers 200 with has the requested id,
    belongs to the session's tenant and is stored. *)
Theorem X4_policy_update_keeps_owner (db : Db) (s : Session) (id : Z)
    (body : Contract.PolicyBody) :
  map Policy.id (policies (Routes.put_policy db s id body).2)
  = map Policy.id (policies db)
  /\ map Policy.tenantId (policies (Routes.put_policy db s id body).2)
     = map Policy.tenantId (policies db)
  /\ map Policy.createdAt (policies (Routes.put_policy db s id body).2)
     = map Policy.createdAt (policies db)
  /\ map Policy.renewalStatus (policies (Routes.put_policy db s id body).2)
     = map Policy.renewalStatus (policies db)
  /\ (forall k q, policies db !! k = Some q ->
        Storage.policy_in id (tenantId s) q = false ->
        policies (Routes.put_policy db s id body).2 !! k = Some q)
  /\ (forall p, (Routes.put_policy db s id body).1 = Sent 200 (OfPolicy p) ->
        Policy.id p = id /\ tenantId s = Some (Policy.tenantId p)
        /\ p ∈ policies (Routes.put_policy db s id body).2)
  /\ investments (Routes.put_policy db s id body).2 = investments db
  /\ users (Routes.put_policy db s id body).2 = users db.
Proof.
  unfold Routes.put_policy, Routes.isAuthenticated.
  destruct (negb _).
  { repeat split; try reflexivity; [tauto | discriminate..]. }
  destruct (Contract.policies_update_input body) as [m|input] eqn:Hparse.
  { repeat split; try reflexivity; [tauto | discriminate..]. }
  apply policies_update_input_no_tenant in Hparse.
  destruct (negb (int4 id)).
  { repeat split; try reflexivity; [tauto | discriminate..]. }
  unfold Storage.updatePolicy.
  destruct (_ || _).
  { repeat split; try reflexivity; [tauto | discriminate..]. }
  destruct (Storage.update_where _ _ _) as [rows updated] eqn:Eu.
  assert (Hrows : rows = (Storage.update_where (Storage.policy_in id (tenantId s))
                            (Storage.set_policy input) (policies db)).1)
    by now rewrite Eu.
  assert (Hupd : updated = map (Storage.set_policy input)
                             (filter (fun p => Storage.policy_in id (tenantId s) p = true)
                                     (policies db)))
    by (unfold Storage.update_where in Eu; now injection Eu as _ <-).
  clear Eu.
  assert (Hframe :
    map Policy.id rows = map Policy.id (policies db)
    /\ map Policy.tenantId rows = map Policy.tenantId (policies db)
    /\ map Policy.createdAt rows = map Policy.createdAt (policies db)
    /\ map Policy.renewalStatus rows = map Policy.renewalStatus (policies db)
    /\ (forall k q0, policies db !! k = Some q0 ->
          Storage.policy_in id (tenantId s) q0 = false -> rows !! k = Some q0)).
  { rewrite Hrows. repeat split.
    - now apply update_where_map.
    - apply update_where_map. intros r. now apply set_policy_keeps_tenant.
    - now apply update_where_map.
    - now apply update_where_map.
    - intros k q0 Hk Hc. rewrite update_where_lookup, Hk. simpl. now rewrite Hc. }
  destruct Hframe as (H1 & H2 & H3 & H4 & H5).
  destruct (head updated) as [q|] eqn:Hhead; cbn [fst snd]; simpl policies;
    simpl investments; simpl users;
    (split; [exact H1|split; [exact H2|split; [exact H3|split; [exact H4|
       split; [exact H5|split; [|split; reflexivity]]]]]]);
    [|discriminate].
  intros p Hp. injection Hp as <-. rewrite Hupd in Hhead.
  apply head_map_filter_Some in Hhead as (x & Hx & Hc & ->).
  unfold Storage.policy_in in Hc. apply andb_true_iff in Hc as [Hid Hten].
  apply bool_decide_eq_true in Hid. apply sql_eq_true in Hten.
  split; [exact Hid|]. split.
  - now rewrite set_policy_keeps_tenant.
  - rewrite Hrows. unfold Storage.update_where. cbn [fst].
    apply list_elem_of_In, in_map_iff. exists x.
    split; [|now apply list_elem_of_In].
    unfold Storage.policy_in. rewrite bool_decide_eq_true_2 by exact Hid.
    now rewrite (proj2 (sql_eq_true _ _) Hten).
Qed.

End PolicyUpdate.

(** ** Lists are newest first *)

Lemma desc_le_total a b : desc_le a b = true \/ desc_le b a = true.
Proof.
  destruct a as [x|], b as [y|]; simpl; auto.
  destruct (Z.leb_spec y x); [now left|right]. apply Z.leb_le. lia.
Qed.

Lemma desc_le_trans a b c :
  desc_le a b = true -> desc_le b c = true -> desc_le a c = true.
Proof.
  destruct a as [x|], b as [y|], c as [z|]; simpl; try congruence.
  rewrite !Z.leb_le. lia.
Qed.

Section NewestFirst.
Context {A : Type} (createdAt : A -> option Z).

#[local] Instance by_createdAt_desc_total :
  Total (Storage.by_createdAt_desc createdAt).
Proof.
  intros a b. unfold Storage.by_createdAt_desc.
  destruct (desc_le_total (createdAt a) (createdAt b)) as [->| ->];
    [left|right]; exact I.
Qed.

#[local] Instance by_createdAt_desc_trans :
  Transitive (Storage.by_createdAt_desc createdAt).
Proof.
  intros a b c. unfold Storage.by_createdAt_desc.
  rewrite !Is_true_true. apply desc_le_trans.
Qed.

Lemma StronglySorted_lookup (R : A -> A -> Prop) (l : list A) :
  StronglySorted R l ->
  forall k k' a b, (k < k')%nat -> l !! k = Some a -> l !! k' = Some b -> R a b.
Proof.
  induction 1 as [|x l Hl IH Hx]; intros k k' a b Hlt Ha Hb.
  - now rewrite lookup_nil in Ha.
  - destruct k' as [|k']; [lia|]. destruct k as [|k]; simpl in *.
    + injection Ha as <-. rewrite Forall_forall in Hx. apply Hx.
      now apply list_elem_of_lookup_2 in Hb.
    + apply (IH k k'); [lia|assumption..].
Qed.

Lemma merge_sort_newest_first (rows : list A) :
  newest_first createdAt (merge_sort (Storage.by_createdAt_desc createdAt) rows).
Proof.
  intros k k' a b Hlt Ha Hb.
  assert (H : Storage.by_createdAt_desc createdAt a b).
  { eapply StronglySorted_lookup; [|exact Hlt|exact Ha|exact Hb].
    apply StronglySorted_merge_sort; apply _. }
  unfold Storage.by_createdAt_desc, desc_le in H.
  destruct (createdAt a) as [x|], (createdAt b) as [y|]; try exact I.
  - apply Is_true_true in H. now apply Z.leb_le.
  - exact H.
Qed.
End NewestFirst.

(** X5.  [getPolicies] and [getInvestments] return the rows of the given
    tenant, each as often as it is stored and no other row.  Of two rows
    of the answer that both have a creation time, the one that comes
    first was not created before the other; and a row that has a
    creation time never comes before one that has none. *)
Theorem X5_lists_are_newest_first (db : Db) (tenant : option string) :
  Storage.getPolicies db tenant
    ≡ₚ filter (fun p => tenant = Some (Policy.tenantId p)) (policies db)
  /\ newest_first Policy.createdAt (Storage.getPolicies db tenant)
  /\ Storage.getInvestments db tenant
       ≡ₚ filter (fun i => tenant = Some (Investment.tenantId i)) (investments db)
  /\ newest_first Investment.createdAt (Storage.getInvestments db tenant).
Proof.
  unfold Storage.getPolicies, Storage.getInvestments.
  split; [|split; [apply merge_sort_newest_first|
                   split; [|apply merge_sort_newest_first]]].
  - rewrite merge_sort_Permutation. unfold Storage.select_where.
    erewrite list_filter_iff; [reflexivity|]. intros p. apply sql_eq_true.
  - rewrite merge_sort_Permutation. unfold Storage.select_where.
    erewrite list_filter_iff; [reflexivity|]. intros i. apply sql_eq_true.
Qed.

(** The rows stored oldest first come back newest first, the one
    without creation time ahead of them. *)
Example getPolicies_three_policies :
  policies three_policies_db = [older_policy; newer_policy; undated_policy]
  /\ Storage.getPolicies three_policies_db (Some "acme")
     = [undated_policy; newer_policy; older_policy].
Proof. split; reflexivity. Qed.
(** ** The validation boundary of the record endpoints *)

Lemma string_Parsed p s : Contract.string_ p = Contract.Parsed s <-> p = Value s.
Proof. destruct p; simpl; split; congruence. Qed.

(** A string that is not empty has at least one code unit. *)
Lemma length_positive s : (1 <=? Js.length s)%nat = negb (bool_decide (s = "")).
Proof.
  destruct s as [|c r]; [reflexivity|].
  rewrite bool_decide_eq_false_2 by discriminate.
  unfold Js.length. cbn [Js.length_from negb]. apply Nat.leb_le.
  unfold Js.code_units. destruct (_ <=? _)%nat; lia.
Qed.

Lemma string_min_1_Parsed message p s :
  Contract.string_min 1 message p = Contract.Parsed s <-> p = Value s /\ s <> "".
Proof.
  unfold Contract.string_min, Contract.bind.
  destruct p as [| |x]; cbn [Contract.string_];
    try (split; [discriminate|intros [? _]; discriminate]).
  rewrite length_positive.
  destruct (decide (x = "")) as [->|Hne].
  - rewrite bool_decide_eq_true_2 by reflexivity. simpl.
    split; [discriminate|]. intros [H Hne]. injection H as <-. contradiction.
  - rewrite bool_decide_eq_false_2 by exact Hne. simpl.
    split; [intros H; injection H as <-; now split|].
    intros [H _]. now injection H as ->.
Qed.

Lemma typed_Parsed p :
  (exists q, Contract.typed p = Contract.Parsed q) <-> holds_no_other p.
Proof.
  unfold holds_no_other. destruct p as [| |[s|r]]; simpl.
  - split; [discriminate|eauto].
  - split; [discriminate|eauto].
  - split; [discriminate|eauto].
  - split; [intros [q H]; discriminate|]. intros H. now destruct (H r).
Qed.

Lemma required_Parsed p s :
  Contract.required p = Contract.Parsed s <-> p = Value (Str s).
Proof.
  unfold Contract.required, Contract.bind.
  destruct p as [| |[x|r]]; simpl; split; congruence.
Qed.

Lemma startDate_required_Parsed p s :
  Contract.startDate_required p = Contract.Parsed s
  <-> p = Value (Str s) /\ s <> "".
Proof.
  unfold Contract.startDate_required, Contract.bind.
  destruct p as [| |[x|r]]; cbn [Contract.typed];
    try (split; [discriminate|intros [? _]; discriminate]).
  rewrite string_min_1_Parsed with (p := Value x).
  split; intros [H Hne]; (split; [congruence|exact Hne]).
Qed.

Lemma date_field_Parsed p :
  (exists o, Contract.date_field p = Contract.Parsed o) <-> holds_no_other p.
Proof.
  unfold holds_no_other. destruct p as [| |[s|r]]; simpl.
  - split; [discriminate|eauto].
  - split; [discriminate|eauto].
  - split; [discriminate|eauto].
  - split; [intros [q H]; discriminate|]. intros H. now destruct (H r).
Qed.

Ltac zod_cases :=
  repeat match goal with
    | |- context [match ?x with Contract.ZodError _ => _ | Contract.Parsed _ => _ end] =>
        destruct x eqn:?
    end.

(** What the create schema of policies asks for: the required keys as
    strings, and no other value than a string under the others. *)
Lemma policies_create_input_Parsed b :
  (exists input, Contract.policies_create_input b = Contract.Parsed input)
  <-> policy_required b /\ policy_optional_typed b.
Proof.
  unfold Contract.policies_create_input, Contract.bind, policy_required,
    policy_optional_typed. split.
  - intros [input H]. revert H. zod_cases; try discriminate. intros _.
    repeat match goal with
      | H : Contract.required _ = Contract.Parsed _ |- _ =>
          apply required_Parsed in H
      | H : Contract.startDate_required _ = Contract.Parsed _ |- _ =>
          apply startDate_required_Parsed in H as [H ?]
      | H : Contract.typed ?p = Contract.Parsed ?q |- _ =>
          assert (holds_no_other p) by (apply typed_Parsed; eauto); clear H
      | H : Contract.date_field ?p = Contract.Parsed ?q |- _ =>
          assert (holds_no_other p) by (apply date_field_Parsed; eauto); clear H
      end.
    split; [eauto 12|]. repeat split; assumption.
  - intros [(p & n & t & c & d & Hp & Hn & Ht & Hc & Hd & Hne) Hopt].
    destruct Hopt as (H1 & H2 & H3 & H4 & H5 & H6 & H7 & H8 & H9 & H10 & H11 & H12).
    rewrite (proj2 (required_Parsed _ _) Hp), (proj2 (required_Parsed _ _) Hn),
      (proj2 (required_Parsed _ _) Ht), (proj2 (required_Parsed _ _) Hc).
    rewrite (proj2 (startDate_required_Parsed _ d)) by now split.
    repeat match goal with
      | H : holds_no_other ?p |- context [Contract.typed ?p] =>
          let q := fresh "q" in let E := fresh "E" in
          destruct (proj2 (typed_Parsed p) H) as [q E]; rewrite E
      | H : holds_no_other ?p |- context [Contract.date_field ?p] =>
          let q := fresh "q" in let E := fresh "E" in
          destruct (proj2 (date_field_Parsed p) H) as [q E]; rewrite E
      end.
    eauto.
Qed.

Lemma string_optional_Undefined : Contract.string_optional Undefined = Contract.Parsed None.
Proof. reflexivity. Qed.

Lemma investments_create_input_required b input :
  Contract.investments_create_input b = Contract.Parsed input ->
  investment_required b.
Proof.
  unfold Contract.investments_create_input, Contract.bind, investment_required.
  zod_cases; try discriminate. intros _.
  repeat match goal with
    | H : Contract.string_ _ = Contract.Parsed _ |- _ => apply string_Parsed in H
    end.
  eauto 12.
Qed.

Section Validation.

Context {pg : Postgres}.

(** X6.  The create endpoints answer 400 and write nothing unless the
    body holds every required key as a string: for a Policy [provider],
    [policyName], [policyType], [country] and a non-empty [startDate];
    for an Investment [type], [platform], [initialAmount],
    [currentValue] and, although the stored value is the session's,
    [tenantId].  A Policy body is also answered 400 when one of its
    other keys holds a value that is neither a string nor [null], and
    the schema asks for nothing else: a body with the required keys and
    with strings, [null] or nothing under the others passes it. *)
Theorem X6_create_requires_fields (db : Db) (s : Session) (now : Z) :
  authenticated s ->
  (forall body, ~ policy_required body ->
     exists message,
       Routes.post_policies db s now body = (Sent 400 (Message message), db))
  /\ (forall body, ~ policy_optional_typed body ->
        exists message,
          Routes.post_policies db s now body = (Sent 400 (Message message), db))
  /\ (forall body, policy_required body -> policy_optional_typed body ->
        exists input, Contract.policies_create_input body = Contract.Parsed input)
  /\ (forall body, ~ investment_required body ->
        exists message,
          Routes.post_investments db s now body
          = (Sent 400 (Message message), db)).
Proof.
  intros Hauth. split; [|split; [|split]].
  - intros body Hreq. unfold Routes.post_policies.
    rewrite isAuthenticated_next by exact Hauth.
    destruct (Contract.policies_create_input body) as [m|input] eqn:E; [eauto|].
    exfalso. apply Hreq. eapply proj1, policies_create_input_Parsed. eauto.
  - intros body Hreq. unfold Routes.post_policies.
    rewrite isAuthenticated_next by exact Hauth.
    destruct (Contract.policies_create_input body) as [m|input] eqn:E; [eauto|].
    exfalso. apply Hreq. eapply proj2, policies_create_input_Parsed. eauto.
  - intros body Hreq Hopt. now apply policies_create_input_Parsed.
  - intros body Hreq. unfold Routes.post_investments.
    rewrite isAuthenticated_next by exact Hauth.
    destruct (Contract.investments_create_input body) as [m|input] eqn:E; [eauto|].
    exfalso. eapply Hreq, investments_create_input_required, E.
Qed.

(** ** Blank dates are not stored *)

Lemma non_blank_not_blank v : not_blank (Contract.non_blank v).
Proof.
  intros s. unfold Contract.non_blank. destruct v as [x|]; [|discriminate].
  destruct (Js.truthy x); simpl; [|discriminate].
  destruct (bool_decide (Js.trim x = "")) eqn:E; simpl; [discriminate|].
  intros H. injection H as <-. now apply bool_decide_eq_false in E.
Qed.

Lemma date_field_not_blank p o :
  Contract.date_field p = Contract.Parsed o -> not_blank o.
Proof.
  unfold Contract.date_field. destruct p as [| |[x|r]]; try discriminate;
    intros H; injection H as <-; try (intros s; discriminate).
  exact (non_blank_not_blank (Some x)).
Qed.

Lemma policies_create_input_dates b input :
  Contract.policies_create_input b = Contract.Parsed input ->
  not_blank (ip_startDate input) /\ not_blank (ip_maturityDate input)
  /\ not_blank (ip_nextRenewalDate input) /\ not_blank (ip_lastPremiumDate input).
Proof.
  unfold Contract.policies_create_input, Contract.bind.
  zod_cases; try discriminate. intros H. injection H as <-.
  cbn [ip_startDate ip_maturityDate ip_nextRenewalDate ip_lastPremiumDate].
  split; [exact (non_blank_not_blank (Some _))|].
  repeat split; eapply date_field_not_blank; eassumption.
Qed.

Lemma policies_update_input_dates b input :
  Contract.policies_update_input b = Contract.Parsed input ->
  not_blank (up_startDate input) /\ not_blank (up_maturityDate input)
  /\ not_blank (up_nextRenewalDate input) /\ not_blank (up_lastPremiumDate input).
Proof.
  unfold Contract.policies_update_input, Contract.bind.
  zod_cases; try discriminate. intros H. injection H as <-.
  cbn [up_startDate up_maturityDate up_nextRenewalDate up_lastPremiumDate].
  split; [|repeat split; eapply date_field_not_blank; eassumption].
  match goal with
  | H : Contract.startDate_partial _ = Contract.Parsed ?o |- not_blank ?o =>
      unfold Contract.startDate_partial, Contract.bind in H;
      destruct (Contract.pb_startDate b);
      [injection H as <-; intros s; discriminate| |];
      (destruct (Contract.startDate_required _); [discriminate|];
       injection H as <-; exact (non_blank_not_blank (Some _)))
  end.
Qed.

Lemma set_policy_dates updates p :
  not_blank (up_startDate updates) -> not_blank (up_maturityDate updates) ->
  not_blank (up_nextRenewalDate updates) -> not_blank (up_lastPremiumDate updates) ->
  dates_not_blank p -> dates_not_blank (Storage.set_policy updates p).
Proof.
  intros Hs Hm Hn Hl (Ps & Pm & Pn & Pl). unfold dates_not_blank. simpl.
  repeat split.
  - destruct (up_startDate updates) as [d|]; simpl; [now apply Hs|exact Ps].
  - destruct (up_maturityDate updates) as [d|]; simpl; [|exact Pm].
    intros s H. injection H as <-. now apply Hm.
  - destruct (up_nextRenewalDate updates) as [d|]; simpl; [|exact Pn].
    intros s H. injection H as <-. now apply Hn.
  - destruct (up_lastPremiumDate updates) as [d|]; simpl; [|exact Pl].
    intros s H. injection H as <-. now apply Hl.
Qed.

(** X7.  No blank date gets stored through the Policy endpoints: a
    Policy the create endpoint answers 201 with has a start date that is
    not blank, and each of its optional dates is absent or not blank
    (an empty string or [null] in the body is stored as absent); and if
    the stored policies have no blank date before an update, they have
    none after it, whatever the body. *)
Theorem X7_no_blank_date_stored (db : Db) (s : Session) :
  (forall now body p db',
     Routes.post_policies db s now body = (Sent 201 (OfPolicy p), db') ->
     dates_not_blank p)
  /\ (forall id body,
        Forall dates_not_blank (policies db) ->
        Forall dates_not_blank (policies (Routes.put_policy db s id body).2)).
Proof.
  split.
  - intros now body p db' H.
    apply post_policies_created in H as (_ & input & Hparse & Hcreate).
    apply policies_create_input_dates in Hparse as (Hs & Hm & Hn & Hl).
    unfold Storage.createPolicy in Hcreate.
    destruct (_ || _); [discriminate|]. simpl in Hcreate.
    destruct (tenantId s); [|discriminate].
    destruct (ip_startDate input) as [d|] eqn:Ed; [|discriminate].
    destruct (existsb _ _); [discriminate|].
    injection Hcreate as <- _. unfold dates_not_blank. simpl.
    split; [now apply Hs|]. now repeat split.
  - intros id body Hinv. unfold Routes.put_policy, Routes.isAuthenticated.
    destruct (negb _); [exact Hinv|].
    destruct (Contract.policies_update_input body) as [m|input] eqn:Hparse;
      [exact Hinv|].
    destruct (negb (int4 id)); [exact Hinv|].
    apply policies_update_input_dates in Hparse as (Hs & Hm & Hn & Hl).
    assert (Hrows : Forall dates_not_blank
              (policies (Storage.updatePolicy db id (tenantId s) input).2)).
    { unfold Storage.updatePolicy, Storage.update_where.
      destruct (_ || _); [exact Hinv|]. simpl.
      apply Forall_forall. intros q Hq.
      apply list_elem_of_In, in_map_iff in Hq as (x & <- & Hx).
      apply list_elem_of_In in Hx.
      pose proof (proj1 (Forall_forall _ _) Hinv x Hx) as Px.
      destruct (Storage.policy_in id (tenantId s) x); [|exact Px].
      now apply set_policy_dates. }
    now destruct (Storage.updatePolicy db id (tenantId s) input)
      as [[|[q|]] db1].
Qed.



End Validation.

Section ValidationExamples.

#[local] Existing Instance iso_postgres.

Lemma X6_witness :
  authenticated acme_session
  /\ ~ investment_required
         {| Contract.ib_tenantId := Undefined;
            Contract.ib_type := Value "Stocks";
            Contract.ib_platform := Value "Avanza";
            Contract.ib_country := Undefined;
            Contract.ib_currency := Undefined;
            Contract.ib_initialAmount := Value "1000";
            Contract.ib_currentValue := Value "1500";
            Contract.ib_shares := Undefined;
            Contract.ib_purchaseDate := Undefined;
            Contract.ib_lastUpdated := Undefined |}
  /\ (exists message,
        Routes.post_investments acme_db acme_session 0
          {| Contract.ib_tenantId := Undefined;
             Contract.ib_type := Value "Stocks";
             Contract.ib_platform := Value "Avanza";
             Contract.ib_country := Undefined;
             Contract.ib_currency := Undefined;
             Contract.ib_initialAmount := Value "1000";
             Contract.ib_currentValue := Value "1500";
             Contract.ib_shares := Undefined;
             Contract.ib_purchaseDate := Undefined;
             Contract.ib_lastUpdated := Undefined |}
        = (Sent 400 (Message message), acme_db))
  /\ ~ policy_optional_typed premium_as_number
  /\ exists message,
       Routes.post_policies acme_db acme_session 0 premium_as_number
       = (Sent 400 (Message message), acme_db).
Proof.
  assert (Hreq : ~ investment_required
         {| Contract.ib_tenantId := Undefined;
            Contract.ib_type := Value "Stocks";
            Contract.ib_platform := Value "Avanza";
            Contract.ib_country := Undefined;
            Contract.ib_currency := Undefined;
            Contract.ib_initialAmount := Value "1000";
            Contract.ib_currentValue := Value "1500";
            Contract.ib_shares := Undefined;
            Contract.ib_purchaseDate := Undefined;
            Contract.ib_lastUpdated := Undefined |}).
  { intros (t & _ & _ & _ & _ & Ht & _). discriminate Ht. }
  assert (Hopt : ~ policy_optional_typed premium_as_number).
  { intros (_ & _ & _ & _ & H & _). now apply (H JNumber). }
  pose proof (X6_create_requires_fields acme_db acme_session 0 eq_refl)
    as (_ & Hp & _ & Hi).
  split; [reflexivity|]. split; [exact Hreq|].
  split; [exact (Hi _ Hreq)|]. split; [exact Hopt|]. exact (Hp _ Hopt).
Defined.

(** The message of the answer names the type zod received. *)
Example post_policies_premium_as_number :
  Routes.post_policies acme_db acme_session 0 premium_as_number
  = (Sent 400 (Message "Expected string, received number"), acme_db).
Proof. reflexivity. Qed.


(** The id drawn for the refused row is spent. *)
Example post_policies_blank_start_sequence :
  policies_id_seq acme_db = 2
  /\ policies_id_seq (Routes.post_policies acme_db acme_session 0 blank_start).2
     = 3.
Proof. split; reflexivity. Qed.

End ValidationExamples.
(** ** The dashboard counters and totals *)

Section Dashboard.

Context {pg : Postgres} {tz : Js.TimeZone}.

Lemma getPolicies_rows db tenant :
  Storage.getPolicies db tenant
    ≡ₚ filter (fun p => tenant = Some (Policy.tenantId p)) (policies db).
Proof.
  unfold Storage.getPolicies. rewrite merge_sort_Permutation.
  unfold Storage.select_where.
  erewrite list_filter_iff; [reflexivity|]. intros p. apply sql_eq_true.
Qed.

Lemma getInvestments_rows db tenant :
  Storage.getInvestments db tenant
    ≡ₚ filter (fun i => tenant = Some (Investment.tenantId i)) (investments db).
Proof.
  unfold Storage.getInvestments. rewrite merge_sort_Permutation.
  unfold Storage.select_where.
  erewrite list_filter_iff; [reflexivity|]. intros i. apply sql_eq_true.
Qed.

Lemma count_bounds {A} (f : A -> bool) (l : list A) :
  0 <= count f l <= Z.of_nat (length l).
Proof. unfold count. pose proof (length_filter (fun x => f x = true) l). lia. Qed.

(** X9.  The stats of [DatabaseStorage.getDashboardStats]:
    [totalPolicies] and [totalInvestments] are the numbers of rows of
    the tenant, and each of [expiringSoon] and [needsRenewal] lies
    between 0 and [totalPolicies]; a tenant without policies gets 0 for
    all three. *)
Theorem X9_dashboard_counts_bounded (db : Db) (now : Z) (tenant : option string) :
  Storage.totalPolicies (Storage.getDashboardStats db now tenant)
  = Z.of_nat (length (filter (fun p => tenant = Some (Policy.tenantId p))
                             (policies db)))
  /\ Storage.totalInvestments (Storage.getDashboardStats db now tenant)
     = Z.of_nat (length (filter (fun i => tenant = Some (Investment.tenantId i))
                                (investments db)))
  /\ 0 <= Storage.expiringSoon (Storage.getDashboardStats db now tenant)
       <= Storage.totalPolicies (Storage.getDashboardStats db now tenant)
  /\ 0 <= Storage.needsRenewal (Storage.getDashboardStats db now tenant)
       <= Storage.totalPolicies (Storage.getDashboardStats db now tenant).
Proof.
  destruct (getDashboardStats_counts db now tenant) as [-> ->].
  pose proof (getPolicies_rows db tenant) as Hp.
  pose proof (getInvestments_rows db tenant) as Hi.
  assert (Htp : Storage.totalPolicies (Storage.getDashboardStats db now tenant)
                = Z.of_nat (length (Storage.getPolicies db tenant))).
  { unfold Storage.getDashboardStats.
    now destruct (fold_left _ _ _). }
  assert (Hti : Storage.totalInvestments (Storage.getDashboardStats db now tenant)
                = Z.of_nat (length (Storage.getInvestments db tenant))).
  { unfold Storage.getDashboardStats.
    now destruct (fold_left _ _ _). }
  rewrite Htp, Hti.
  split; [now rewrite Hp|]. split; [now rewrite Hi|].
  split; apply count_bounds.
Qed.

Lemma ceil_div_le a b k : 0 < b -> Api.ceil_div a b <= k <-> a <= k * b.
Proof.
  intros Hb. unfold Api.ceil_div.
  pose proof (Z.div_mod (- a) b ltac:(lia)).
  pose proof (Z.mod_pos_bound (- a) b Hb). split; nia.
Qed.

Lemma Api_stats_step_counts now e n p :
  Api.stats_step now (e, n) p
  = (e + (if api_expiring_soon now p then 1 else 0),
     n + (if api_needs_renewal now p then 1 else 0)).
Proof.
  unfold Api.stats_step, api_expiring_soon, api_needs_renewal, maturity_of.
  destruct (Js.truthy_opt (Policy.maturityDate p)); [|f_equal; lia].
  destruct (Policy.maturityDate p ≫= Js.Date_parse) as [m|]; [|f_equal; lia].
  assert (Hb : 0 < Js.msPerDay) by reflexivity.
  pose proof (ceil_div_le (m - now) Js.msPerDay 30 Hb) as H30.
  pose proof (ceil_div_le (m - now) Js.msPerDay 60 Hb) as H60.
  pose proof (ceil_div_le (m - now) Js.msPerDay (-1) Hb) as Hneg.
  destruct (Z.ltb_spec (Api.ceil_div (m - now) Js.msPerDay) 0);
  destruct (Z.leb_spec (Api.ceil_div (m - now) Js.msPerDay) 30);
  destruct (Z.leb_spec (Api.ceil_div (m - now) Js.msPerDay) 60);
  destruct (Z.leb_spec (m - now) (30 * Js.msPerDay));
  destruct (Z.ltb_spec (30 * Js.msPerDay) (m - now));
  destruct (Z.leb_spec (m - now) (60 * Js.msPerDay));
  simpl; try (f_equal; lia); exfalso; lia.
Qed.

Lemma Api_fold_stats_step now l : forall e n,
  fold_left (Api.stats_step now) l (e, n)
  = (e + count (api_expiring_soon now) l, n + count (api_needs_renewal now) l).
Proof.
  induction l as [|p l IH]; intros e n; cbn [fold_left].
  - unfold count. simpl. f_equal; lia.
  - rewrite Api_stats_step_counts, IH, !count_cons. f_equal; lia.
Qed.

Lemma api_buckets_disjoint now p :
  api_expiring_soon now p = true -> api_needs_renewal now p = false.
Proof.
  unfold api_expiring_soon, api_needs_renewal.
  destruct (maturity_of p) as [m|]; [|discriminate].
  intros H. apply andb_true_iff in H as [H _].
  apply Z.ltb_lt in H. apply Z.leb_gt. exact H.
Qed.

Lemma count_disjoint {A} (f g : A -> bool) (l : list A) :
  (forall x, f x = true -> g x = false) ->
  count f l + count g l <= Z.of_nat (length l).
Proof.
  intros Hd. induction l as [|x l IH].
  - unfold count. simpl. lia.
  - rewrite !count_cons. simpl length. specialize (Hd x).
    destruct (f x), (g x); try lia; now specialize (Hd eq_refl).
Qed.

(** X10.  The stats handler of [api/index.ts], for a session with a
    user: it answers 200 and writes nothing; [needsRenewal] counts the
    tenant's policies that mature at most 30 days after [now], matured
    ones included, and [expiringSoon] those that mature more than 30 and
    at most 60 days after [now]; no policy is in both, so the two add up
    to at most [totalPolicies]. *)
Theorem X10_api_stats_buckets (db : Db) (user : Api.SessionUser) (now : Z) :
  exists stats,
    Api.get_dashboard_stats db (Some user) now = (Sent 200 (OfStats stats), db)
    /\ Storage.totalPolicies stats
       = Z.of_nat (length (Api.getPoliciesByTenant db (Api.su_tenantId user)))
    /\ Storage.needsRenewal stats
       = count (api_needs_renewal now)
               (Api.getPoliciesByTenant db (Api.su_tenantId user))
    /\ Storage.expiringSoon stats
       = count (api_expiring_soon now)
               (Api.getPoliciesByTenant db (Api.su_tenantId user))
    /\ (forall p, api_expiring_soon now p = true -> api_needs_renewal now p = false)
    /\ Storage.expiringSoon stats + Storage.needsRenewal stats
       <= Storage.totalPolicies stats.
Proof.
  unfold Api.get_dashboard_stats. rewrite Api_fold_stats_step.
  destruct (fold_left Api.sum_step _ _) as [SEK INR].
  eexists. split; [reflexivity|]. simpl.
  split; [reflexivity|]. split; [lia|]. split; [lia|].
  split; [apply api_buckets_disjoint|].
  pose proof (count_disjoint (api_expiring_soon now) (api_needs_renewal now)
                (Api.getPoliciesByTenant db (Api.su_tenantId user))
                (api_buckets_disjoint now)). lia.
Qed.

(** ** Totals by currency *)

Lemma nadd_swap a x y : Js.nadd (Js.nadd a x) y = Js.nadd (Js.nadd a y) x.
Proof.
  destruct a as [|a], x as [|x], y as [|y]; simpl; try reflexivity.
  f_equal. rewrite <- !Qcplus_assoc. f_equal. apply Qcplus_comm.
Qed.

Lemma fold_nadd_Permutation {A} (g : A -> Js.number) (l1 l2 : list A) :
  l1 ≡ₚ l2 -> forall a,
  fold_left (fun sum x => Js.nadd sum (g x)) l1 a
  = fold_left (fun sum x => Js.nadd sum (g x)) l2 a.
Proof.
  induction 1 as [|x l1 l2 _ IH|x y l|l1 l2 l3 _ IH1 _ IH2]; intros a; simpl.
  - reflexivity.
  - apply IH.
  - now rewrite nadd_swap.
  - now rewrite IH1.
Qed.

Lemma sum_currentValue_Permutation currency l1 l2 :
  l1 ≡ₚ l2 ->
  Storage.sum_currentValue currency l1 = Storage.sum_currentValue currency l2.
Proof.
  intros H. unfold Storage.sum_currentValue.
  apply fold_nadd_Permutation. now rewrite H.
Qed.

Lemma sum_currentValue_other currency l i :
  Investment.currency i <> currency ->
  Storage.sum_currentValue currency (l ++ [i]) = Storage.sum_currentValue currency l.
Proof.
  intros H. unfold Storage.sum_currentValue.
  rewrite filter_app, filter_cons_False by exact H. now rewrite app_nil_r.
Qed.

Lemma getInvestments_created db db' tenant i :
  investments db' = (investments db ++ [i])%list ->
  tenant = Some (Investment.tenantId i) ->
  Storage.getInvestments db' tenant ≡ₚ (Storage.getInvestments db tenant ++ [i])%list.
Proof.
  intros Hrows Ht. rewrite !getInvestments_rows, Hrows, filter_app.
  now rewrite filter_cons_True by exact Ht.
Qed.

(** X11.  Totals by currency are sums over the tenant's holdings in
    that currency, in whatever order the rows come; a holding created in
    any currency other than SEK and INR adds one to [totalInvestments]
    and leaves both totals, and every policy counter, where they were. *)
Theorem X11_other_currency_not_totalled (db : Db) (s : Session) (now : Z)
    (body : Contract.InvestmentBody) (i : Investment.t) (db' : Db) (at_ : Z) :
  Routes.post_investments db s now body = (Sent 201 (OfInvestment i), db') ->
  Investment.currency i <> "SEK" -> Investment.currency i <> "INR" ->
  Storage.investmentsByCurrency_SEK (Storage.getDashboardStats db' at_ (tenantId s))
  = Storage.investmentsByCurrency_SEK (Storage.getDashboardStats db at_ (tenantId s))
  /\ Storage.investmentsByCurrency_INR
       (Storage.getDashboardStats db' at_ (tenantId s))
     = Storage.investmentsByCurrency_INR
         (Storage.getDashboardStats db at_ (tenantId s))
  /\ Storage.totalInvestments (Storage.getDashboardStats db' at_ (tenantId s))
     = Storage.totalInvestments (Storage.getDashboardStats db at_ (tenantId s)) + 1
  /\ Storage.totalPolicies (Storage.getDashboardStats db' at_ (tenantId s))
     = Storage.totalPolicies (Storage.getDashboardStats db at_ (tenantId s))
  /\ Storage.expiringSoon (Storage.getDashboardStats db' at_ (tenantId s))
     = Storage.expiringSoon (Storage.getDashboardStats db at_ (tenantId s))
  /\ Storage.needsRenewal (Storage.getDashboardStats db' at_ (tenantId s))
     = Storage.needsRenewal (Storage.getDashboardStats db at_ (tenantId s)).
Proof.
  intros H Hsek Hinr. pose proof H as Hstamp.
  apply post_investments_stamps_session in Hstamp as [Htenant _].
  apply post_investments_created in H as (_ & input & _ & Hcreate).
  apply createInvestment_created in Hcreate
    as (_ & _ & _ & _ & Hrows & _ & _ & Hpol & _).
  pose proof (getInvestments_created db db' (tenantId s) i Hrows Htenant) as Hperm.
  assert (Hp : Storage.getPolicies db' (tenantId s)
               = Storage.getPolicies db (tenantId s))
    by (unfold Storage.getPolicies; now rewrite Hpol).
  unfold Storage.getDashboardStats. rewrite Hp.
  destruct (fold_left _ (Storage.getPolicies db (tenantId s)) _) as [e n].
  cbn [Storage.investmentsByCurrency_SEK Storage.investmentsByCurrency_INR
       Storage.totalInvestments Storage.totalPolicies Storage.expiringSoon
       Storage.needsRenewal].
  rewrite !(sum_currentValue_Permutation _ _ _ Hperm).
  rewrite !sum_currentValue_other by assumption.
  rewrite Hperm, length_app. simpl length.
  repeat split; lia.
Qed.

End Dashboard.

Section DashboardExamples.

#[local] Existing Instance iso_postgres.
#[local] Existing Instance utc.

Lemma X11_witness :
  exists i db',
    Routes.post_investments acme_db acme_session 1767300000000 usd_holding
    = (Sent 201 (OfInvestment i), db')
    /\ Investment.currency i = "USD"
    /\ Storage.investmentsByCurrency_SEK
         (Storage.getDashboardStats db' 0 (Some "acme"))
       = Storage.investmentsByCurrency_SEK
           (Storage.getDashboardStats acme_db 0 (Some "acme")).
Proof.
  eexists. eexists. split; [vm_compute; reflexivity|]. split; [reflexivity|].
  match goal with
  | |- context [Storage.getDashboardStats ?d 0 _] =>
      refine (proj1 (X11_other_currency_not_totalled acme_db acme_session
                       1767300000000 usd_holding _ d 0 _ _ _));
        [vm_compute; reflexivity|discriminate..]
  end.
Defined.

End DashboardExamples.
(** ** The gates in front of the handlers *)

Section Gates.
Variable bcrypt_hash : string -> string.
Variable bcrypt_compare : string -> string -> bool.
Context {pg : Postgres} {tz : Js.TimeZone}.

(** X12.  Without a user in the session every endpoint behind the
    [/api] middleware, and the change-password endpoint that checks the
    session itself, answers 401 "Unauthorized" and leaves the database as
    it was, whatever the request. *)
Theorem X12_anonymous_requests_rejected (db : Db) (s : Session) :
  Js.truthy_opt (userId s) = false ->
  let unauthorized := (Sent 401 (Message "Unauthorized"), db) in
  Routes.get_policies db s = unauthorized
  /\ (forall id, Routes.get_policy db s id = unauthorized)
  /\ (forall now body, Routes.post_policies db s now body = unauthorized)
  /\ (forall id body, Routes.put_policy db s id body = unauthorized)
  /\ (forall id, Routes.delete_policy db s id = unauthorized)
  /\ Routes.get_investments db s = unauthorized
  /\ (forall now body, Routes.post_investments db s now body = unauthorized)
  /\ (forall now id body, Routes.put_investment db s now id body = unauthorized)
  /\ (forall id, Routes.delete_investment db s id = unauthorized)
  /\ (forall now, Routes.get_dashboard_stats db s now = unauthorized)
  /\ Routes.get_dashboard_analytics db s = unauthorized
  /\ Routes.get_admin_users db s = unauthorized
  /\ (forall target role, Routes.put_admin_user_role db s target role = unauthorized)
  /\ (forall target, Routes.delete_admin_user db s target = unauthorized)
  /\ (forall target body now,
        Routes.put_admin_user_reset_password bcrypt_hash db s target body now
        = unauthorized)
  /\ (forall body now,
        Routes.post_auth_change_password bcrypt_hash bcrypt_compare db s body now
        = unauthorized).
Proof.
  intros H unauthorized. subst unauthorized.
  unfold Routes.get_policies, Routes.get_policy, Routes.post_policies,
    Routes.put_policy, Routes.delete_policy, Routes.get_investments,
    Routes.post_investments, Routes.put_investment, Routes.delete_investment,
    Routes.get_dashboard_stats, Routes.get_dashboard_analytics,
    Routes.get_admin_users, Routes.put_admin_user_role, Routes.delete_admin_user,
    Routes.put_admin_user_reset_password, Routes.post_auth_change_password,
    Routes.isAuthenticated.
  rewrite H. simpl. repeat split.
Qed.

(** The session's account is missing or is not an admin. *)
Lemma isAdmin_rejects db s next :
  ~ is_admin db s ->
  Routes.isAdmin db s next = (Sent 403 (Message "Admin access required"), db).
Proof.
  intros H. unfold Routes.isAdmin.
  destruct (userId s ≫= Storage.getUser db) as [user|] eqn:E; [|reflexivity].
  destruct (bool_decide (User.role user = Some "admin")) eqn:Er; [|reflexivity].
  exfalso. apply H. exists user. split; [exact E|].
  now apply bool_decide_eq_true in Er.
Qed.

(** X13.  For an authenticated session whose account is not stored with
    role [admin] (a plain user, or an account that no longer exists),
    each of the four admin endpoints answers 403 "Admin access required"
    and writes nothing. *)
Theorem X13_admin_endpoints_need_admin (db : Db) (s : Session) :
  authenticated s -> ~ is_admin db s ->
  let denied := (Sent 403 (Message "Admin access required"), db) in
  Routes.get_admin_users db s = denied
  /\ (forall target role, Routes.put_admin_user_role db s target role = denied)
  /\ (forall target, Routes.delete_admin_user db s target = denied)
  /\ (forall target body now,
        Routes.put_admin_user_reset_password bcrypt_hash db s target body now
        = denied).
Proof.
  intros Hauth Hno denied. subst denied.
  unfold Routes.get_admin_users, Routes.put_admin_user_role,
    Routes.delete_admin_user, Routes.put_admin_user_reset_password.
  repeat split; intros; rewrite isAuthenticated_next by exact Hauth;
    now apply isAdmin_rejects.
Qed.

End Gates.

Section GatesExamples.

#[local] Existing Instance iso_postgres.
#[local] Existing Instance utc.

Lemma X12_witness :
  Js.truthy_opt (userId anonymous) = false
  /\ Routes.delete_policy acme_db anonymous 1
     = (Sent 401 (Message "Unauthorized"), acme_db).
Proof.
  split; [reflexivity|].
  apply (X12_anonymous_requests_rejected (fun p => p) String.eqb acme_db
           anonymous eq_refl).
Defined.

End GatesExamples.

Lemma dave_not_admin : ~ is_admin two_tenants_db dave_session.
Proof. intros (u & Hu & Hr). injection Hu as <-. discriminate Hr. Qed.

Lemma X13_witness :
  authenticated dave_session /\ ~ is_admin two_tenants_db dave_session
  /\ Routes.delete_admin_user two_tenants_db dave_session "u-bob"
     = (Sent 403 (Message "Admin access required"), two_tenants_db).
Proof.
  split; [reflexivity|]. split; [exact dave_not_admin|].
  apply (X13_admin_endpoints_need_admin (fun p => p) two_tenants_db dave_session
           eq_refl dave_not_admin).
Defined.

(** ** Admin operations stay inside the admin's tenant *)
Lemma getUser_elem db target u :
  Storage.getUser db target = Some u -> u ∈ users db /\ User.id u = target.
Proof.
  unfold Storage.getUser. intros H.
  apply head_Some_elem_of, list_elem_of_filter in H. tauto.
Qed.

Lemma user_in_spec target tenant u :
  Storage.user_in target tenant u = true <->
  User.id u = target
  /\ exists t, User.tenantId u = Some t /\ tenant = Some t.
Proof.
  unfold Storage.user_in, sql_eq_null.
  rewrite andb_true_iff, bool_decide_eq_true.
  destruct (User.tenantId u) as [t|].
  - rewrite sql_eq_true. split.
    + intros [? ->]. eauto.
    + intros [? (t' & Ht & ->)]. now injection Ht as ->.
  - split; [intros [_ ?]; discriminate|]. intros [_ (t & ? & _)]. discriminate.
Qed.

Lemma foreign_user_unmatched db s target u :
  NoDup (map User.id (users db)) ->
  Storage.getUser db target = Some u -> ~ in_session_tenant u s ->
  Forall (fun v => Storage.user_in target (tenantId s) v = false) (users db).
Proof.
  intros Hnd Hget Hne. apply getUser_elem in Hget as [Hu Hid].
  apply Forall_forall. intros v Hv.
  apply not_true_iff_false. intros Hin.
  apply user_in_spec in Hin as [Hvid Hten]. apply Hne.
  assert (v = u) as <-; [|exact Hten].
  apply (NoDup_key_inj User.id (users db)); congruence.
Qed.

Lemma updateUserRole_unmatched db target tenant role :
  Forall (fun v => Storage.user_in target tenant v = false) (users db) ->
  Storage.updateUserRole db target tenant role = (None, db).
Proof.
  intros H. unfold Storage.updateUserRole.
  rewrite update_where_none by exact H. simpl. now rewrite set_users_same.
Qed.

Lemma removeUserFromTenant_unmatched db target tenant :
  Forall (fun v => Storage.user_in target tenant v = false) (users db) ->
  Storage.removeUserFromTenant db target tenant = db.
Proof.
  intros H. unfold Storage.removeUserFromTenant.
  rewrite update_where_none by exact H. now rewrite set_users_same.
Qed.

Lemma same_tenant_spec column session :
  Routes.same_tenant column session = true <->
  exists t, column = Some t /\ session = Some t.
Proof.
  unfold Routes.same_tenant. destruct column as [a|], session as [b|];
    try (split; [discriminate|intros (t & ? & ?); discriminate]).
  rewrite bool_decide_eq_true. split.
  - intros ->. eauto.
  - intros (t & H1 & H2). congruence.
Qed.

Section AdminScope.
Variable bcrypt_hash : string -> string.

(** X14.  An admin cannot reach an account of another tenant (or of no
    tenant): with unique user ids, the account is not in the member
    list the admin is sent, a role change that passes the checks is
    answered 404, a removal is answered 204, a password reset is
    answered 404 when the new password is valid, and none of the three
    changes the database. *)
Theorem X14_admin_cannot_reach_other_tenant (db : Db) (s : Session)
    (target : string) (u : User.t) :
  primary_keys db -> authenticated s -> is_admin db s ->
  Storage.getUser db target = Some u -> ~ in_session_tenant u s ->
  Routes.get_admin_users db s
  = (Sent 200 (OfUsers (Storage.getUsersByTenant db (tenantId s))), db)
  /\ (u ∉ Storage.getUsersByTenant db (tenantId s))
  /\ (forall role r, allowed_role_change s target role r ->
        Routes.put_admin_user_role db s target role
        = (Sent 404 (Message "User not found"), db))
  /\ (userId s <> Some target ->
        Routes.delete_admin_user db s target = (Sent 204 NoBody, db))
  /\ (forall body now,
        (Routes.put_admin_user_reset_password bcrypt_hash db s target body now).2
        = db
        /\ forall newPassword,
             Routes.adminResetPasswordSchema body = Contract.Parsed newPassword ->
             Routes.put_admin_user_reset_password bcrypt_hash db s target body now
             = (Sent 404 (Message "User not found"), db)).
Proof.
  intros (_ & Hnd & _) Hauth Hadmin Hget Hne.
  pose proof (foreign_user_unmatched db s target u Hnd Hget Hne) as Hun.
  unfold Routes.get_admin_users, Routes.put_admin_user_role,
    Routes.delete_admin_user, Routes.put_admin_user_reset_password.
  rewrite !isAuthenticated_next by exact Hauth.
  rewrite !isAdmin_next by exact Hadmin.
  split; [reflexivity|]. split; [|split; [|split]].
  - unfold Storage.getUsersByTenant. rewrite select_where_elem.
    intros [Hin _]. apply Hne. unfold sql_eq_null in Hin.
    destruct (User.tenantId u) as [t|] eqn:Et; [|discriminate].
    apply sql_eq_true in Hin. exists t. now split.
  - intros role r [Hrole Hself].
    rewrite isAuthenticated_next by exact Hauth.
    rewrite isAdmin_next by exact Hadmin. rewrite Hrole.
    destruct (bool_decide (Some target = userId s) && bool_decide (r = "user"))
      eqn:E.
    { exfalso. apply Hself. apply andb_true_iff in E as [E1 E2].
      apply bool_decide_eq_true in E1, E2. now split. }
    now rewrite updateUserRole_unmatched.
  - intros Hother. rewrite bool_decide_eq_false_2 by congruence.
    now rewrite removeUserFromTenant_unmatched.
  - intros body now. rewrite isAuthenticated_next by exact Hauth.
    rewrite isAdmin_next by exact Hadmin. rewrite Hget.
    assert (Routes.same_tenant (User.tenantId u) (tenantId s) = false) as ->.
    { apply not_true_iff_false. intros H. now apply same_tenant_spec in H. }
    simpl. split; [|now intros newPassword ->].
    now destruct (Routes.adminResetPasswordSchema body).
Qed.

End AdminScope.

Lemma two_tenants_keys : primary_keys two_tenants_db.
Proof.
  repeat split; simpl; repeat (apply NoDup_cons; split;
    [rewrite ?elem_of_cons, ?elem_of_nil; intuition discriminate|]);
    apply NoDup_nil_2.
Qed.

Lemma alice_is_admin : is_admin two_tenants_db acme_session.
Proof. exists alice. split; reflexivity. Qed.

Lemma carol_elsewhere : ~ in_session_tenant carol acme_session.
Proof. intros (t & Ht & Hs). injection Ht as <-. discriminate Hs. Qed.

Lemma X14_witness :
  primary_keys two_tenants_db /\ authenticated acme_session
  /\ is_admin two_tenants_db acme_session
  /\ Storage.getUser two_tenants_db "u-carol" = Some carol
  /\ ~ in_session_tenant carol acme_session
  /\ Routes.delete_admin_user two_tenants_db acme_session "u-carol"
     = (Sent 204 NoBody, two_tenants_db).
Proof.
  split; [exact two_tenants_keys|]. split; [reflexivity|].
  split; [exact alice_is_admin|]. split; [reflexivity|].
  split; [exact carol_elsewhere|].
  apply (X14_admin_cannot_reach_other_tenant (fun p => p) two_tenants_db
           acme_session "u-carol" carol two_tenants_keys eq_refl alice_is_admin
           eq_refl carol_elsewhere).
  discriminate.
Defined.

(** ** A role change takes effect at once *)

Lemma head_filter_key_map {A K} `{EqDecision K} (key : A -> K) (g : A -> A)
    (k : K) (rows : list A) :
  (forall r, key (g r) = key r) ->
  head (filter (fun r => key r = k) (map g rows))
  = g <$> head (filter (fun r => key r = k) rows).
Proof.
  intros Hg. induction rows as [|r rows IH]; [reflexivity|].
  simpl map. rewrite !filter_cons, Hg.
  destruct (decide (key r = k)); [reflexivity|exact IH].
Qed.

Lemma getUser_update_where db (c : User.t -> bool) (g : User.t -> User.t) x :
  (forall r, User.id (g r) = User.id r) ->
  Storage.getUser (Storage.set_users db (Storage.update_where c g (users db)).1) x
  = (fun r => if c r then g r else r) <$> Storage.getUser db x.
Proof.
  intros Hg. unfold Storage.getUser, Storage.update_where. cbn [fst users Storage.set_users].
  apply (head_filter_key_map User.id). intros r. now destruct (c r).
Qed.

Lemma updateUserRole_getUser db target tenant role x :
  Storage.getUser (Storage.updateUserRole db target tenant role).2 x
  = (fun r => if Storage.user_in target tenant r
              then Storage.with_role r (Some role) else r)
    <$> Storage.getUser db x.
Proof. now apply getUser_update_where. Qed.

Lemma updateUserRole_returned db target tenant role u :
  NoDup (map User.id (users db)) ->
  Storage.getUser db target = Some u ->
  Storage.user_in target tenant u = true ->
  (Storage.updateUserRole db target tenant role).1
  = Some (Storage.with_role u (Some role)).
Proof.
  intros Hnd Hget Hin. apply getUser_elem in Hget as [Hu Hid].
  unfold Storage.updateUserRole, Storage.update_where. cbn [fst].
  destruct (filter _ (users db)) as [|v l] eqn:E.
  - exfalso. assert (u ∈ filter (fun r => Storage.user_in target tenant r = true)
                              (users db)) by now apply list_elem_of_filter.
    rewrite E in H. now apply not_elem_of_nil in H.
  - assert (Hv : v ∈ filter (fun r => Storage.user_in target tenant r = true)
                            (users db)) by (rewrite E; apply list_elem_of_here).
    apply list_elem_of_filter in Hv as [Hc Hv].
    apply user_in_spec in Hc as [Hvid _].
    assert (v = u) as -> by (apply (NoDup_key_inj User.id (users db)); congruence).
    reflexivity.
Qed.

(** X15.  An admin changes the role of a member of the admin's tenant
    (with unique user ids, and a request that passes the two checks):
    the answer is 200 with the member's row carrying the new role, that
    row is what a lookup of the member now finds, every other account is
    found as before, and no other table changes.  The admin check reads
    the stored role, so the change holds for the member's very next
    request: promoted to [admin] the member passes the check, demoted to
    [user] the member does not, whatever the session holds. *)
Theorem X15_role_change_takes_effect (db : Db) (s : Session) (target : string)
    (u : User.t) (role : prop string) (r : string) :
  primary_keys db -> authenticated s -> is_admin db s ->
  Storage.getUser db target = Some u -> in_session_tenant u s ->
  allowed_role_change s target role r ->
  exists db',
    Routes.put_admin_user_role db s target role
    = (Sent 200 (OfUser (Storage.with_role u (Some r))), db')
    /\ Storage.getUser db' target = Some (Storage.with_role u (Some r))
    /\ (forall other, other <> target ->
          Storage.getUser db' other = Storage.getUser db other)
    /\ tenants db' = tenants db /\ policies db' = policies db
    /\ investments db' = investments db
    /\ (forall s', userId s' = Some target -> (is_admin db' s' <-> r = "admin")).
Proof.
  intros (_ & Hnd & _) Hauth Hadmin Hget Hsame [Hrole Hself].
  pose proof Hget as Hget'. apply getUser_elem in Hget' as [Hu Hid].
  assert (Hin : Storage.user_in target (tenantId s) u = true)
    by (apply user_in_spec; split; assumption).
  exists (Storage.updateUserRole db target (tenantId s) r).2.
  assert (Hfound : Storage.getUser (Storage.updateUserRole db target (tenantId s) r).2
                     target = Some (Storage.with_role u (Some r))).
  { rewrite updateUserRole_getUser, Hget. simpl. now rewrite Hin. }
  split; [|split; [exact Hfound|split; [|split; [reflexivity|split;
    [reflexivity|split; [reflexivity|]]]]]].
  - unfold Routes.put_admin_user_role.
    rewrite isAuthenticated_next by exact Hauth.
    rewrite isAdmin_next by exact Hadmin. rewrite Hrole.
    destruct (bool_decide (Some target = userId s) && bool_decide (r = "user"))
      eqn:E.
    { exfalso. apply Hself. apply andb_true_iff in E as [E1 E2].
      apply bool_decide_eq_true in E1, E2. now split. }
    pose proof (updateUserRole_returned db target (tenantId s) r u Hnd Hget Hin)
      as Hret.
    destruct (Storage.updateUserRole db target (tenantId s) r) as [o db1].
    simpl in Hret. now rewrite Hret.
  - intros other Hother. rewrite updateUserRole_getUser.
    destruct (Storage.getUser db other) as [v|] eqn:Ev; [|reflexivity]. simpl.
    apply getUser_elem in Ev as [_ Hvid].
    assert (Storage.user_in target (tenantId s) v = false) as ->; [|reflexivity].
    apply not_true_iff_false. intros Hc. apply user_in_spec in Hc as [Hc _].
    congruence.
  - intros s' Hs'. unfold is_admin. rewrite Hs'. cbn [mbind option_bind].
    rewrite Hfound. split.
    + intros (user & Huser & Hr). injection Huser as <-. simpl in Hr.
      congruence.
    + intros ->. eexists. split; reflexivity.
Qed.

Lemma dave_in_acme : in_session_tenant dave acme_session.
Proof. exists "acme". split; reflexivity. Qed.

Lemma X15_witness :
  primary_keys two_tenants_db /\ authenticated acme_session
  /\ is_admin two_tenants_db acme_session
  /\ Storage.getUser two_tenants_db "u-dave" = Some dave
  /\ in_session_tenant dave acme_session
  /\ allowed_role_change acme_session "u-dave" (Value "admin") "admin"
  /\ exists db',
       Routes.put_admin_user_role two_tenants_db acme_session "u-dave" (Value "admin")
       = (Sent 200 (OfUser (Storage.with_role dave (Some "admin"))), db')
       /\ is_admin db' dave_session.
Proof.
  assert (Hallowed : allowed_role_change acme_session "u-dave" (Value "admin") "admin").
  { split; [reflexivity|]. intros [H _]. discriminate H. }
  split; [exact two_tenants_keys|]. split; [reflexivity|].
  split; [exact alice_is_admin|]. split; [reflexivity|].
  split; [exact dave_in_acme|]. split; [exact Hallowed|].
  destruct (X15_role_change_takes_effect two_tenants_db acme_session "u-dave" dave
              (Value "admin") "admin" two_tenants_keys eq_refl alice_is_admin
              eq_refl dave_in_acme Hallowed)
    as (db' & Hresp & _ & _ & _ & _ & _ & Heffect).
  exists db'. split; [exact Hresp|]. now apply (Heffect dave_session).
Defined.

(** ** Removal from a tenant and the records *)

Section Removal.

Context {tz : Js.TimeZone}.

(** X16.  Removing a member writes to the [users] table only, and the
    record endpoints read the tenant from the session, not from that
    table: for every session, the removed member's included, each of
    them answers after the removal exactly as it did before. *)
Theorem X16_removal_keeps_session_access (db : Db) (s : Session)
    (target : string) (s' : Session) :
  let db' := (Routes.delete_admin_user db s target).2 in
  policies db' = policies db /\ investments db' = investments db
  /\ (Routes.get_policies db' s').1 = (Routes.get_policies db s').1
  /\ (forall id, (Routes.get_policy db' s' id).1 = (Routes.get_policy db s' id).1)
  /\ (Routes.get_investments db' s').1 = (Routes.get_investments db s').1
  /\ (forall now, (Routes.get_dashboard_stats db' s' now).1
                  = (Routes.get_dashboard_stats db s' now).1)
  /\ (forall id, policies (Routes.delete_policy db' s' id).2
                 = policies (Routes.delete_policy db s' id).2).
Proof.
  intros db'.
  assert (Hp : policies db' = policies db /\ investments db' = investments db
               /\ policies_id_seq db' = policies_id_seq db).
  { subst db'. unfold Routes.delete_admin_user, Routes.isAuthenticated, Routes.isAdmin.
    destruct (negb _); [now repeat split|].
    destruct (userId s ≫= Storage.getUser db) as [a|]; [|now repeat split].
    destruct (negb _); [now repeat split|].
    destruct (bool_decide _); now repeat split. }
  destruct Hp as (Hp & Hi & Hseq).
  split; [exact Hp|]. split; [exact Hi|].
  unfold Routes.get_policies, Routes.get_policy, Routes.get_investments,
    Routes.get_dashboard_stats, Routes.delete_policy, Routes.isAuthenticated,
    Storage.getDashboardStats, Storage.getPolicies, Storage.getPolicy,
    Storage.getInvestments, Storage.deletePolicy.
  rewrite Hp, Hi.
  destruct (negb (Js.truthy_opt (userId s'))); repeat split; intros;
    cbn [fst snd]; try rewrite Hp; try reflexivity.
  - destruct (negb (int4 id)); [reflexivity|]. now destruct (head _).
  - destruct (negb (int4 id)); cbn [fst snd]; now rewrite ?Hp.
Qed.

End Removal.
(** ** Registration and login *)

Lemma resolve_tenant_frame db d tid now t db1 :
  resolve_tenant db d tid now = (t, db1) ->
  policies db1 = policies db /\ investments db1 = investments db.
Proof.
  unfold resolve_tenant, Storage.createTenant.
  destruct (Storage.getTenantByDomain db d).
  - intros H. now injection H as <- <-.
  - destruct (Storage.tenant_conflict db _); intros H; now injection H as <- <-.
Qed.

Lemma user_conflict_fresh db u v :
  Storage.user_conflict db u = false -> v ∈ users db ->
  User.id v <> User.id u /\ User.email v <> User.email u.
Proof.
  unfold Storage.user_conflict. intros H Hv.
  assert (Hall := existsb_false_Forall _ _ H).
  rewrite Forall_forall in Hall. specialize (Hall v Hv).
  apply orb_false_iff in Hall as [H1 H2].
  apply bool_decide_eq_false in H1, H2. now split.
Qed.

Lemma NoDup_key_snoc {A K} (key : A -> K) (l : list A) (x : A) :
  NoDup (map key l) -> (forall y, y ∈ l -> key y <> key x) ->
  NoDup (map key (l ++ [x])).
Proof.
  intros Hnd Hfresh. rewrite map_app. apply NoDup_app. split; [exact Hnd|].
  split; [|apply NoDup_singleton].
  intros k Hk Hk'. apply list_elem_of_singleton in Hk'. subst k.
  apply list_elem_of_fmap in Hk as (y & Hy & Hin). now apply (Hfresh y Hin).
Qed.

Lemma getUserByEmail_None db email v :
  Storage.getUserByEmail db email = None -> v ∈ users db -> User.email v <> email.
Proof.
  unfold Storage.getUserByEmail. intros H Hv He. apply head_None in H.
  assert (v ∈ filter (fun u => User.email u = email) (users db))
    by now apply list_elem_of_filter.
  rewrite H in H0. now apply not_elem_of_nil in H0.
Qed.

Lemma getUserByEmail_snoc db db' user :
  users db' = (users db ++ [user])%list ->
  Storage.getUserByEmail db (User.email user) = None ->
  Storage.getUserByEmail db' (User.email user) = Some user.
Proof.
  unfold Storage.getUserByEmail. intros -> H. apply head_None in H.
  rewrite filter_app, H. simpl. now rewrite filter_cons_True.
Qed.

Lemma getUserByEmail_elem db email u :
  Storage.getUserByEmail db email = Some u -> u ∈ users db /\ User.email u = email.
Proof.
  unfold Storage.getUserByEmail. intros H.
  apply head_Some_elem_of, list_elem_of_filter in H. tauto.
Qed.

Lemma string_min_Parsed n message p s :
  Contract.string_min n message p = Contract.Parsed s -> p = Value s.
Proof.
  unfold Contract.string_min, Contract.bind.
  destruct p as [| |x]; simpl; try discriminate.
  destruct (_ <=? _)%nat; [|discriminate]. intros H. now injection H as ->.
Qed.

Section RegisterLogin.

Variable is_email : string -> bool.
Variable bcrypt_hash : string -> string.
Variable bcrypt_compare : string -> string -> bool.

(** What a registration that created an account did. *)
Lemma post_auth_register_created db s body tid uid now au db' s' :
  Routes.post_auth_register is_email bcrypt_hash db s body tid uid now
  = (Sent 201 (OfAuthUser au), db', s') ->
  exists input tn db1 user,
    Routes.registerSchema is_email body = Contract.Parsed input
    /\ Storage.getUserByEmail db (Routes.ri_email input) = None
    /\ resolve_tenant db (Routes.ri_domain input) tid now = (Some tn, db1)
    /\ Storage.user_conflict db1 user = false
    /\ users db' = (users db ++ [user])%list
    /\ tenants db' = tenants db1
    /\ policies db' = policies db /\ investments db' = investments db
    /\ User.email user = Routes.ri_email input
    /\ User.passwordHash user = Some (bcrypt_hash (Routes.ri_password input))
    /\ User.tenantId user = Some (Tenant.id tn)
    /\ au = Routes.auth_user user
    /\ s' = {| userId := Some (User.id user); tenantId := User.tenantId user |}.
Proof.
  unfold Routes.post_auth_register.
  destruct (Routes.registerSchema is_email body) as [m|input] eqn:Hparse;
    [discriminate|].
  destruct (Storage.getUserByEmail db (Routes.ri_email input)) eqn:Hmail;
    [discriminate|].
  fold (resolve_tenant db (Routes.ri_domain input) tid now).
  destruct (resolve_tenant _ _ _ _) as [t db1] eqn:Hres.
  pose proof (resolve_tenant_spec is_email bcrypt_hash _ _ _ _ _ _ Hres) as [Hu1 _].
  pose proof (resolve_tenant_frame _ _ _ _ _ _ Hres) as [Hp1 Hi1].
  destruct t as [tn|]; [|discriminate].
  unfold Storage.createUser.
  destruct (Storage.user_conflict db1 _) eqn:Hc; [discriminate|].
  intros H. injection H as <- <- <-.
  match type of Hc with
  | Storage.user_conflict _ ?u = _ => exists input, tn, db1, u
  end.
  split; [reflexivity|]. split; [exact Hmail|].
  split; [exact Hres|]. split; [exact Hc|]. cbn.
  rewrite Hu1, Hp1, Hi1. repeat split.
Qed.

(** What a registration that created no account did. *)
Lemma post_auth_register_failed db s body tid uid now o db' s' :
  Routes.post_auth_register is_email bcrypt_hash db s body tid uid now
  = (o, db', s') ->
  (forall au, o <> Sent 201 (OfAuthUser au)) ->
  users db' = users db
  /\ policies db' = policies db /\ investments db' = investments db
  /\ (tenants db' = tenants db
      \/ exists tn, tenants db' = (tenants db ++ [tn])%list
                    /\ Storage.tenant_conflict db tn = false).
Proof.
  unfold Routes.post_auth_register.
  destruct (Routes.registerSchema is_email body) as [m|input] eqn:Hparse.
  { intros H _. injection H as <- <- <-. repeat split. now left. }
  destruct (Storage.getUserByEmail db (Routes.ri_email input)) eqn:Hmail.
  { intros H _. injection H as <- <- <-. repeat split. now left. }
  fold (resolve_tenant db (Routes.ri_domain input) tid now).
  destruct (resolve_tenant _ _ _ _) as [t db1] eqn:Hres.
  pose proof (resolve_tenant_spec is_email bcrypt_hash _ _ _ _ _ _ Hres) as [Hu1 Ht].
  pose proof (resolve_tenant_frame _ _ _ _ _ _ Hres) as [Hp1 Hi1].
  destruct t as [tn|].
  2:{ subst db1. intros H _. injection H as <- <- <-. repeat split. now left. }
  destruct Ht as (_ & _ & Hten).
  unfold Storage.createUser.
  destruct (Storage.user_conflict db1 _) eqn:Hc.
  - intros H _. injection H as <- <- <-. repeat split; try assumption.
    destruct Hten as [->|[Happ Hfresh]]; [now left|]. right. now exists tn.
  - intros H Hno. injection H as <- <- <-. exfalso. now eapply Hno.
Qed.

(** X17.  Registration keeps the accounts consistent.  On a database
    whose primary keys are unique, where no two accounts share an e-mail
    address and every member references an existing tenant, any
    registration request, valid or not, with any generated identifiers,
    leaves a database of which the same holds; the policies and the
    investments are not touched. *)
Theorem X17_registration_keeps_accounts_consistent (db : Db) (s : Session)
    (body : Routes.RegisterBody) (newTenantId newUserId : string) (now : Z) :
  accounts_consistent db ->
  let db' := (Routes.post_auth_register is_email bcrypt_hash db s body
                newTenantId newUserId now).1.2 in
  accounts_consistent db'
  /\ policies db' = policies db /\ investments db' = investments db.
Proof.
  intros ((Ht & Hu & Hp & Hi) & Hmail & Href) db'. subst db'.
  destruct (Routes.post_auth_register _ _ _ _ _ _ _ _) as [[o db'] s'] eqn:E.
  cbn [fst snd].
  assert (Hcase : (exists au, o = Sent 201 (OfAuthUser au))
                  \/ forall au, o <> Sent 201 (OfAuthUser au)).
  { destruct o as [status []|]; try (right; discriminate).
    destruct (decide (status = 201)) as [->|]; [left; eauto|].
    right. intros au H. injection H as H _. contradiction. }
  destruct Hcase as [[au ->]|Hno].
  - apply post_auth_register_created in E
      as (input & tn & db1 & user & _ & Hnone & Hres & Hc & Husers & Htens & Hp'
          & Hi' & Hemail & _ & Htid & _ & _).
    pose proof (resolve_tenant_spec is_email bcrypt_hash _ _ _ _ _ _ Hres) as (Hu1 & _ & Hget & Hten).
    assert (Hnd1 : NoDup (map Tenant.id (tenants db1))).
    { destruct Hten as [->|[-> Hfresh]]; [exact Ht|].
      now apply NoDup_tenant_ids_app. }
    assert (Hsub : forall t, t ∈ tenants db -> t ∈ tenants db1).
    { intros t Hin. destruct Hten as [->|[-> _]]; [exact Hin|].
      apply elem_of_app. now left. }
    split; [|now split]. split; [|split].
    + unfold primary_keys. rewrite Htens, Husers, Hp', Hi'.
      repeat split; try assumption.
      apply NoDup_key_snoc; [exact Hu|]. intros v Hv.
      rewrite <- Hu1 in Hv. exact (proj1 (user_conflict_fresh _ _ _ Hc Hv)).
    + unfold unique_emails. rewrite Husers.
      apply NoDup_key_snoc; [exact Hmail|]. intros v Hv.
      rewrite <- Hu1 in Hv. exact (proj2 (user_conflict_fresh _ _ _ Hc Hv)).
    + intros v t. rewrite Husers, Htens. intros Hv Hvt.
      apply elem_of_app in Hv as [Hv|Hv].
      * destruct (Href v t Hv Hvt) as (t0 & Ht0 & Hid). exists t0. auto.
      * apply list_elem_of_singleton in Hv. subst v. exists tn.
        split; [|congruence].
        now apply (getTenantByDomain_domain is_email bcrypt_hash db1 (Routes.ri_domain input)).
  - apply (post_auth_register_failed _ _ _ _ _ _ _ _ _ E) in Hno
      as (Husers & Hp' & Hi' & Hten).
    split; [|now split]. split; [|split].
    + unfold primary_keys. rewrite Husers, Hp', Hi'. repeat split; try assumption.
      destruct Hten as [->|(tn & -> & Hfresh)]; [exact Ht|].
      now apply NoDup_tenant_ids_app.
    + unfold unique_emails. now rewrite Husers.
    + intros v t. rewrite Husers. intros Hv Hvt.
      destruct (Href v t Hv Hvt) as (t0 & Ht0 & Hid). exists t0.
      split; [|exact Hid].
      destruct Hten as [->|(tn & -> & _)]; [exact Ht0|].
      apply elem_of_app. now left.
Qed.

Lemma registerSchema_fields body input :
  Routes.registerSchema is_email body = Contract.Parsed input ->
  Routes.rb_email body = Value (Routes.ri_email input)
  /\ Routes.rb_password body = Value (Routes.ri_password input)
  /\ is_email (Routes.ri_email input) = true.
Proof.
  unfold Routes.registerSchema, Contract.bind.
  destruct (Contract.string_ (Routes.rb_email body)) as [|email] eqn:E1;
    [discriminate|].
  destruct (is_email email) eqn:He; [|discriminate].
  destruct (Contract.string_min 6 _ (Routes.rb_password body)) as [|password] eqn:E2;
    [discriminate|].
  destruct (Contract.string_optional (Routes.rb_firstName body)); [discriminate|].
  destruct (Contract.string_optional (Routes.rb_lastName body)); [discriminate|].
  destruct (Contract.string_min 2 _ (Routes.rb_domain body)); [discriminate|].
  intros H. injection H as <-. cbn.
  apply string_Parsed in E1. apply string_min_Parsed in E2. now repeat split.
Qed.

(** X18.  Register, then log in.  Where bcrypt accepts a password
    against its own hash and the hash is not the empty string, a login
    that repeats the e-mail address and the password of a registration
    that answered 201 succeeds on the database the registration left,
    from any session: it answers 200 with the account the registration
    returned, writes nothing, and binds the session to that account. *)
Theorem X18_register_then_login (db : Db) (s : Session)
    (body : Routes.RegisterBody) (newTenantId newUserId : string) (now : Z)
    (account : AuthUser) (db' : Db) (s' : Session) (s0 : Session) :
  (forall password, bcrypt_compare password (bcrypt_hash password) = true) ->
  (forall password, bcrypt_hash password <> "") ->
  Routes.post_auth_register is_email bcrypt_hash db s body
    newTenantId newUserId now
  = (Sent 201 (OfAuthUser account), db', s') ->
  Routes.post_auth_login is_email bcrypt_compare db' s0 (login_with body)
  = (Sent 200 (OfAuthUser account), db', login_session account)
  /\ userId s' = Some (au_id account).
Proof.
  intros Hbcrypt Hhash Hreg.
  apply post_auth_register_created in Hreg
    as (input & tn & db1 & user & Hparse & Hnone & _ & _ & Husers & _ & _ & _
        & Hemail & Hpw & _ & -> & ->).
  apply registerSchema_fields in Hparse as (He & Hp & Hok).
  split; [|reflexivity].
  unfold Routes.post_auth_login, Routes.loginSchema, login_with, Contract.bind,
    Contract.string_.
  cbn [Routes.lb_email Routes.lb_password]. rewrite He, Hp, Hok.
  cbn [Routes.li_email Routes.li_password].
  rewrite <- Hemail in Hnone |- *.
  rewrite (getUserByEmail_snoc db db' user Husers Hnone), Hpw.
  cbn [default]. rewrite Hbcrypt.
  assert (Js.truthy_opt (Some (bcrypt_hash (Routes.ri_password input))) = true)
    as ->.
  { unfold Js.truthy_opt, Js.truthy. specialize (Hhash (Routes.ri_password input)).
    destruct (bcrypt_hash _); [contradiction|reflexivity]. }
  reflexivity.
Qed.

(** X19.  An e-mail address registers once.  After a registration that
    answered 201, every further registration request with the same
    e-mail address, whatever its other fields, answers 400 and leaves
    the database and the session as they were. *)
Theorem X19_email_registers_once (db : Db) (s : Session)
    (body : Routes.RegisterBody) (newTenantId newUserId : string) (now : Z)
    (account : AuthUser) (db' : Db) (s' : Session)
    (s2 : Session) (body2 : Routes.RegisterBody)
    (newTenantId2 newUserId2 : string) (now2 : Z) :
  Routes.post_auth_register is_email bcrypt_hash db s body
    newTenantId newUserId now
  = (Sent 201 (OfAuthUser account), db', s') ->
  Routes.rb_email body2 = Routes.rb_email body ->
  exists message,
    Routes.post_auth_register is_email bcrypt_hash db' s2 body2
      newTenantId2 newUserId2 now2
    = (Sent 400 (Message message), db', s2).
Proof.
  intros Hreg Hsame.
  apply post_auth_register_created in Hreg
    as (input & tn & db1 & user & Hparse & Hnone & _ & _ & Husers & _ & _ & _
        & Hemail & _).
  apply registerSchema_fields in Hparse as (He & _ & _).
  unfold Routes.post_auth_register.
  destruct (Routes.registerSchema is_email body2) as [m|input2] eqn:Hparse2;
    [now exists m|].
  apply registerSchema_fields in Hparse2 as (He2 & _ & _).
  assert (Routes.ri_email input2 = User.email user) as -> by congruence.
  rewrite <- Hemail in Hnone.
  rewrite (getUserByEmail_snoc db db' user Husers Hnone). now eexists.
Qed.

End RegisterLogin.

Lemma two_tenants_consistent : accounts_consistent two_tenants_db.
Proof.
  split; [exact two_tenants_keys|]. split.
  - unfold unique_emails. simpl. repeat (apply NoDup_cons; split;
      [rewrite ?elem_of_cons, ?elem_of_nil; intuition discriminate|]).
    apply NoDup_nil_2.
  - intros u t Hu Ht. simpl in Hu.
    rewrite !elem_of_cons, elem_of_nil in Hu.
    destruct Hu as [->|[->|[->|[->|[]]]]]; injection Ht as <-;
      [exists acme_tenant|exists acme_tenant|exists globex_tenant|exists acme_tenant];
      (split; [simpl; rewrite !elem_of_cons; auto|reflexivity]).
Qed.

Lemma X17_witness :
  accounts_consistent two_tenants_db
  /\ accounts_consistent
       (Routes.post_auth_register any_email toy_hash two_tenants_db anonymous
          (reg_body (registration "erin@z.com" "initech" "t-9" "u-9"))
          "t-9" "u-9" 1767225600009).1.2.
Proof.
  split; [exact two_tenants_consistent|].
  exact (proj1 (X17_registration_keeps_accounts_consistent any_email toy_hash
                  two_tenants_db anonymous _ "t-9" "u-9" 1767225600009
                  two_tenants_consistent)).
Defined.

Lemma toy_compare_hash password : toy_compare password (toy_hash password) = true.
Proof. apply String.eqb_refl. Qed.

Lemma toy_hash_not_empty password : toy_hash password <> "".
Proof. discriminate. Qed.

Lemma X18_witness :
  exists account db' s',
    Routes.post_auth_register any_email toy_hash empty_db anonymous
      (reg_body (registration "alice@x.com" "acme" "t-1" "u-1"))
      "t-1" "u-1" 1767225600000
    = (Sent 201 (OfAuthUser account), db', s')
    /\ Routes.post_auth_login any_email toy_compare db' globex_session
         (login_with (reg_body (registration "alice@x.com" "acme" "t-1" "u-1")))
       = (Sent 200 (OfAuthUser account), db', login_session account).
Proof.
  do 3 eexists. split; [vm_compute; reflexivity|].
  refine (proj1 (X18_register_then_login any_email toy_hash toy_compare empty_db
                   anonymous _ "t-1" "u-1" 1767225600000 _ _ _ globex_session
                   toy_compare_hash toy_hash_not_empty _)).
  vm_compute; reflexivity.
Defined.

Lemma X19_witness :
  exists account db' s',
    Routes.post_auth_register any_email toy_hash empty_db anonymous
      (reg_body (registration "alice@x.com" "acme" "t-1" "u-1"))
      "t-1" "u-1" 1767225600000
    = (Sent 201 (OfAuthUser account), db', s')
    /\ exists message,
         Routes.post_auth_register any_email toy_hash db' anonymous
           (reg_body (registration "alice@x.com" "globex" "t-2" "u-2"))
           "t-2" "u-2" 1767225600001
         = (Sent 400 (Message message), db', anonymous).
Proof.
  do 3 eexists. split; [vm_compute; reflexivity|].
  refine (X19_email_registers_once any_email toy_hash empty_db anonymous
            (reg_body (registration "alice@x.com" "acme" "t-1" "u-1"))
            "t-1" "u-1" 1767225600000 _ _ _ anonymous
            (reg_body (registration "alice@x.com" "globex" "t-2" "u-2"))
            "t-2" "u-2" 1767225600001 _ eq_refl).
  vm_compute; reflexivity.
Defined.

(** ** Passwords *)

Lemma getUserByEmail_unique db u :
  unique_emails db -> u ∈ users db ->
  Storage.getUserByEmail db (User.email u) = Some u.
Proof.
  intros Hnd Hu. unfold Storage.getUserByEmail.
  destruct (filter _ (users db)) as [|v l] eqn:E.
  - exfalso. assert (u ∈ filter (fun v => User.email v = User.email u) (users db))
      by now apply list_elem_of_filter.
    rewrite E in H. now apply not_elem_of_nil in H.
  - assert (Hv : v ∈ filter (fun v => User.email v = User.email u) (users db))
      by (rewrite E; apply list_elem_of_here).
    apply list_elem_of_filter in Hv as [He Hv].
    simpl. f_equal. now apply (NoDup_key_inj User.email (users db)).
Qed.

Lemma updateUserPassword_frame db now uid h :
  let db' := (Storage.updateUserPassword db now uid h).2 in
  tenants db' = tenants db /\ policies db' = policies db
  /\ investments db' = investments db.
Proof. now repeat split. Qed.

Lemma updateUserPassword_getUser db now uid h x :
  Storage.getUser (Storage.updateUserPassword db now uid h).2 x
  = (fun r => if bool_decide (User.id r = uid)
              then Storage.with_password r h now else r)
    <$> Storage.getUser db x.
Proof.
  exact (getUser_update_where db (fun r => bool_decide (User.id r = uid))
           (fun r => Storage.with_password r h now) x (fun r => eq_refl)).
Qed.

Lemma updateUserPassword_getUserByEmail db now uid h email :
  Storage.getUserByEmail (Storage.updateUserPassword db now uid h).2 email
  = (fun r => if bool_decide (User.id r = uid)
              then Storage.with_password r h now else r)
    <$> Storage.getUserByEmail db email.
Proof.
  unfold Storage.getUserByEmail, Storage.updateUserPassword, Storage.update_where.
  cbn [snd users Storage.set_users].
  apply (head_filter_key_map User.email). intros r.
  now destruct (bool_decide _).
Qed.

Lemma filter_map_stable {A} (P : A -> Prop) `{forall x, Decision (P x)}
    (g : A -> A) (l : list A) :
  (forall x, P (g x) <-> P x) -> filter P (map g l) = map g (filter P l).
Proof.
  intros Hg. induction l as [|x l IH]; [reflexivity|].
  cbn [map]. rewrite !filter_cons.
  destruct (decide (P (g x))) as [Hy|Hn], (decide (P x)) as [Hy'|Hn'];
    cbn [map]; rewrite ?IH; try reflexivity.
  - destruct Hn'. now apply Hg.
  - destruct Hn. now apply Hg.
Qed.

Section PasswordProofs.

Variable is_email : string -> bool.
Variable bcrypt_hash : string -> string.
Variable bcrypt_compare : string -> string -> bool.

(** X20.  A failed login tells nothing about the accounts.  Whatever
    two databases hold, when a login request succeeds on neither, both
    answer with the same status and message; and a login that fails
    writes nothing and leaves the session as it was.  So an unknown
    e-mail address, an account without a password and a wrong password
    cannot be told apart. *)
Theorem X20_failed_login_tells_nothing (db1 db2 : Db) (s : Session)
    (body : Routes.LoginBody) :
  let r1 := Routes.post_auth_login is_email bcrypt_compare db1 s body in
  let r2 := Routes.post_auth_login is_email bcrypt_compare db2 s body in
  ~ logged_in r1.1.1 -> ~ logged_in r2.1.1 ->
  r1.1.1 = r2.1.1 /\ r1.1.2 = db1 /\ r1.2 = s.
Proof.
  intros r1 r2. subst r1 r2. unfold Routes.post_auth_login.
  destruct (Routes.loginSchema is_email body) as [m|input];
    [now intros _ _|].
  assert (Hfail : forall db,
    ~ logged_in
        (match Storage.getUserByEmail db (Routes.li_email input) with
         | Some user =>
             if negb (Js.truthy_opt (User.passwordHash user))
             then (Sent 401 (Message "Invalid email or password"), db, s)
             else if negb (bcrypt_compare (Routes.li_password input)
                             (default "" (User.passwordHash user)))
                  then (Sent 401 (Message "Invalid email or password"), db, s)
                  else (Sent 200 (OfAuthUser (Routes.auth_user user)), db,
                        {| userId := Some (User.id user);
                           tenantId := if Js.truthy_opt (User.tenantId user)
                                       then User.tenantId user else None |})
         | None => (Sent 401 (Message "Invalid email or password"), db, s)
         end).1.1 ->
    match Storage.getUserByEmail db (Routes.li_email input) with
    | Some user =>
        if negb (Js.truthy_opt (User.passwordHash user))
        then (Sent 401 (Message "Invalid email or password"), db, s)
        else if negb (bcrypt_compare (Routes.li_password input)
                        (default "" (User.passwordHash user)))
             then (Sent 401 (Message "Invalid email or password"), db, s)
             else (Sent 200 (OfAuthUser (Routes.auth_user user)), db,
                   {| userId := Some (User.id user);
                      tenantId := if Js.truthy_opt (User.tenantId user)
                                  then User.tenantId user else None |})
    | None => (Sent 401 (Message "Invalid email or password"), db, s)
    end = (Sent 401 (Message "Invalid email or password"), db, s)).
  { intros db H. destruct (Storage.getUserByEmail db _) as [user|]; [|reflexivity].
    destruct (negb (Js.truthy_opt _)); [reflexivity|].
    destruct (negb (bcrypt_compare _ _)); [reflexivity|].
    exfalso. apply H. now eexists. }
  cbv zeta. intros H1 H2. rewrite (Hfail db1 H1), (Hfail db2 H2). now repeat split.
Qed.

(** A stored password is replaced: the owner of the row logs in with
    the new one. *)
Lemma updateUserPassword_then_login db now u password s0 :
  unique_emails db -> u ∈ users db ->
  is_email (User.email u) = true ->
  bcrypt_compare password (bcrypt_hash password) = true ->
  bcrypt_hash password <> "" ->
  let db' := (Storage.updateUserPassword db now (User.id u)
                (bcrypt_hash password)).2 in
  Routes.post_auth_login is_email bcrypt_compare db' s0
    (credentials (User.email u) password)
  = (Sent 200 (OfAuthUser (Routes.auth_user u)), db',
     login_session (Routes.auth_user u)).
Proof.
  intros Hmail Hu Hok Hcmp Hne db'. subst db'.
  unfold Routes.post_auth_login, Routes.loginSchema, credentials, Contract.bind,
    Contract.string_.
  cbn [Routes.lb_email Routes.lb_password]. rewrite Hok.
  cbn [Routes.li_email Routes.li_password].
  rewrite updateUserPassword_getUserByEmail, (getUserByEmail_unique db u Hmail Hu).
  cbn [fmap option_fmap option_map]. rewrite bool_decide_eq_true_2 by reflexivity.
  cbn [Storage.with_password User.passwordHash default from_option id].
  rewrite Hcmp.
  assert (Js.truthy_opt (Some (bcrypt_hash password)) = true) as ->.
  { unfold Js.truthy_opt, Js.truthy. destruct (bcrypt_hash password);
      [contradiction|reflexivity]. }
  reflexivity.
Qed.

Lemma changePasswordSchema_new body input :
  Routes.changePasswordSchema body = Contract.Parsed input ->
  Routes.cb_newPassword body = Value (Routes.ci_newPassword input).
Proof.
  unfold Routes.changePasswordSchema, Contract.bind.
  destruct (Contract.string_ _); [discriminate|].
  destruct (Contract.string_min 6 _ _) eqn:E; [discriminate|].
  intros H. injection H as <-. now apply string_min_Parsed in E.
Qed.

(** X21.  Change the password, then log in.  On a database with unique
    user ids and e-mail addresses, where bcrypt accepts a password
    against its own hash and no hash is empty: when the change-password
    request answers 200, the row of the session's account now holds the
    hash of the new password and the time of the change, every other
    account and every other table is as before, and a login with the
    account's e-mail address (one the login schema accepts) and the new
    password succeeds. *)
Theorem X21_change_password_then_login (db : Db) (s : Session)
    (body : Routes.ChangePasswordBody) (now : Z) (message : string) (db' : Db)
    (new : string) (s0 : Session) :
  NoDup (map User.id (users db)) -> unique_emails db ->
  (forall password, bcrypt_compare password (bcrypt_hash password) = true) ->
  (forall password, bcrypt_hash password <> "") ->
  Routes.post_auth_change_password bcrypt_hash bcrypt_compare db s body now
  = (Sent 200 (Message message), db') ->
  Routes.cb_newPassword body = Value new ->
  exists u,
    userId s ≫= Storage.getUser db = Some u
    /\ Storage.getUser db' (User.id u)
       = Some (Storage.with_password u (bcrypt_hash new) now)
    /\ (forall other, other <> User.id u ->
          Storage.getUser db' other = Storage.getUser db other)
    /\ tenants db' = tenants db /\ policies db' = policies db
    /\ investments db' = investments db
    /\ (is_email (User.email u) = true ->
        Routes.post_auth_login is_email bcrypt_compare db' s0
          (credentials (User.email u) new)
        = (Sent 200 (OfAuthUser (Routes.auth_user u)), db',
           login_session (Routes.auth_user u))).
Proof.
  intros Hids Hmail Hcmp Hne Hreq Hnew.
  unfold Routes.post_auth_change_password in Hreq.
  destruct (negb (Js.truthy_opt (userId s))); [discriminate|].
  destruct (Routes.changePasswordSchema body) as [m|input] eqn:Hparse;
    [discriminate|].
  apply changePasswordSchema_new in Hparse. rewrite Hnew in Hparse.
  injection Hparse as Hp. rewrite <- Hp in Hreq. clear Hp.
  destruct (userId s ≫= Storage.getUser db) as [u|] eqn:Hget; [|discriminate].
  destruct (negb (Js.truthy_opt (User.passwordHash u))); [discriminate|].
  destruct (negb (bcrypt_compare _ _)); [discriminate|].
  destruct (Storage.updateUserPassword db now (User.id u) (bcrypt_hash new))
    as [o db1] eqn:Hupd.
  injection Hreq as _ <-.
  assert (Hdb : db1 = (Storage.updateUserPassword db now (User.id u)
                         (bcrypt_hash new)).2) by now rewrite Hupd.
  assert (Hu : Storage.getUser db (User.id u) = Some u).
  { destruct (userId s) as [uid|]; [|discriminate]. simpl in Hget.
    pose proof Hget as Hget'. apply getUser_elem in Hget' as [_ <-]. exact Hget. }
  exists u. split; [reflexivity|]. rewrite Hdb. split; [|split].
  - rewrite updateUserPassword_getUser, Hu. simpl.
    now rewrite bool_decide_eq_true_2.
  - intros other Hother. rewrite updateUserPassword_getUser.
    destruct (Storage.getUser db other) as [v|] eqn:Ev; [|reflexivity]. simpl.
    apply getUser_elem in Ev as [_ Hv].
    rewrite bool_decide_eq_false_2 by congruence. reflexivity.
  - split; [reflexivity|]. split; [reflexivity|]. split; [reflexivity|].
    intros Hok. apply updateUserPassword_then_login; auto.
    now apply getUser_elem in Hu.
Qed.

(** X22.  An admin resets a member's password.  Under the same
    assumptions, for an admin and a member of the admin's tenant, a
    reset with a password of six UTF-16 code units or more, which is
    what zod's [min(6)] counts, answers 200; the member then logs in
    with the new password; and nobody's role or tenant changes with it,
    so every session passes or fails the admin check as before, and the
    members of each tenant are, in some order, those of before with the
    password hash and [updatedAt] of the target rewritten. *)
Theorem X22_admin_reset_then_login (db : Db) (s : Session) (target : string)
    (u : User.t) (new : string) (now : Z) (s0 : Session) :
  unique_emails db ->
  (forall password, bcrypt_compare password (bcrypt_hash password) = true) ->
  (forall password, bcrypt_hash password <> "") ->
  authenticated s -> is_admin db s ->
  Storage.getUser db target = Some u -> in_session_tenant u s ->
  (6 <= Js.length new)%nat -> is_email (User.email u) = true ->
  exists db',
    Routes.put_admin_user_reset_password bcrypt_hash db s target
      {| Routes.rp_newPassword := Value new |} now
    = (Sent 200 (Message "Password reset successfully"), db')
    /\ Routes.post_auth_login is_email bcrypt_compare db' s0
         (credentials (User.email u) new)
       = (Sent 200 (OfAuthUser (Routes.auth_user u)), db',
          login_session (Routes.auth_user u))
    /\ (forall s', is_admin db' s' <-> is_admin db s')
    /\ (forall v, Storage.getUsersByTenant db' v
                  ≡ₚ map (fun r => if bool_decide (User.id r = target)
                                   then Storage.with_password r (bcrypt_hash new) now
                                   else r)
                         (Storage.getUsersByTenant db v)).
Proof.
  intros Hmail Hcmp Hne Hauth Hadmin Hget Hsame Hlen Hok.
  pose proof Hget as Hget'. apply getUser_elem in Hget' as [Hu Hid].
  exists (Storage.updateUserPassword db now target (bcrypt_hash new)).2.
  split; [|split; [|split]].
  - unfold Routes.put_admin_user_reset_password.
    rewrite isAuthenticated_next by exact Hauth.
    rewrite isAdmin_next by exact Hadmin.
    unfold Routes.adminResetPasswordSchema, Contract.string_min, Contract.bind,
      Contract.string_. cbn [Routes.rp_newPassword].
    apply Nat.leb_le in Hlen. rewrite Hlen, Hget.
    rewrite (proj2 (same_tenant_spec _ _) Hsame). cbn [negb].
    now destruct (Storage.updateUserPassword _ _ _ _).
  - rewrite <- Hid. now apply updateUserPassword_then_login.
  - intros s'. unfold is_admin.
    destruct (userId s') as [uid|]; cbn [mbind option_bind];
      [|split; intros (? & ? & _); discriminate].
    rewrite updateUserPassword_getUser.
    destruct (Storage.getUser db uid) as [v|]; cbn [fmap option_fmap option_map];
      [|split; intros (? & ? & _); discriminate].
    split; intros (w & Hw & Hrole); injection Hw as <-; eexists;
      (split; [reflexivity|]); destruct (bool_decide _); exact Hrole.
  - intros v. unfold Storage.getUsersByTenant, Storage.updateUserPassword,
      Storage.update_where, Storage.select_where.
    cbn [snd users Storage.set_users].
    rewrite filter_map_stable; [reflexivity|].
    intros r. now destruct (bool_decide _).
Qed.

End PasswordProofs.

Lemma X20_witness :
  ~ logged_in (Routes.post_auth_login any_email toy_compare two_tenants_db
                 anonymous (credentials "carol@y.com" "guess")).1.1
  /\ ~ logged_in (Routes.post_auth_login any_email toy_compare empty_db
                    anonymous (credentials "carol@y.com" "guess")).1.1
  /\ (Routes.post_auth_login any_email toy_compare two_tenants_db
        anonymous (credentials "carol@y.com" "guess")).1.1
     = (Routes.post_auth_login any_email toy_compare empty_db
          anonymous (credentials "carol@y.com" "guess")).1.1.
Proof.
  assert (H1 : ~ logged_in (Routes.post_auth_login any_email toy_compare
                  two_tenants_db anonymous (credentials "carol@y.com" "guess")).1.1)
    by (intros [account H]; discriminate H).
  assert (H2 : ~ logged_in (Routes.post_auth_login any_email toy_compare
                  empty_db anonymous (credentials "carol@y.com" "guess")).1.1)
    by (intros [account H]; discriminate H).
  split; [exact H1|]. split; [exact H2|].
  exact (proj1 (X20_failed_login_tells_nothing any_email toy_compare
                  two_tenants_db empty_db anonymous
                  (credentials "carol@y.com" "guess") H1 H2)).
Defined.

Lemma two_tenants_ids : NoDup (map User.id (users two_tenants_db)).
Proof. exact (proj1 (proj2 two_tenants_keys)). Qed.

Lemma two_tenants_emails : unique_emails two_tenants_db.
Proof. exact (proj1 (proj2 two_tenants_consistent)). Qed.

Lemma X21_witness :
  exists db',
    Routes.post_auth_change_password toy_hash toy_compare two_tenants_db
      dave_session (change_to "dave" "correct horse") 1767225600100
    = (Sent 200 (Message "Password changed successfully"), db')
    /\ Routes.post_auth_login any_email toy_compare db' anonymous
         (credentials "dave@x.com" "correct horse")
       = (Sent 200 (OfAuthUser (Routes.auth_user dave)), db',
          login_session (Routes.auth_user dave)).
Proof.
  eexists. split; [vm_compute; reflexivity|].
  destruct (X21_change_password_then_login any_email toy_hash toy_compare
              two_tenants_db dave_session (change_to "dave" "correct horse")
              1767225600100 "Password changed successfully" _
              "correct horse" anonymous two_tenants_ids two_tenants_emails
              toy_compare_hash toy_hash_not_empty eq_refl eq_refl)
    as (u & Hu & _ & _ & _ & _ & _ & Hlogin).
  injection Hu as <-. exact (Hlogin eq_refl).
Defined.

Lemma X22_witness :
  exists db',
    Routes.put_admin_user_reset_password toy_hash two_tenants_db acme_session
      "u-dave" {| Routes.rp_newPassword := Value "correct horse" |} 1767225600100
    = (Sent 200 (Message "Password reset successfully"), db')
    /\ Routes.post_auth_login any_email toy_compare db' anonymous
         (credentials "dave@x.com" "correct horse")
       = (Sent 200 (OfAuthUser (Routes.auth_user dave)), db',
          login_session (Routes.auth_user dave)).
Proof.
  destruct (X22_admin_reset_then_login any_email toy_hash toy_compare
              two_tenants_db acme_session "u-dave" dave "correct horse"
              1767225600100 anonymous two_tenants_emails toy_compare_hash
              toy_hash_not_empty eq_refl alice_is_admin eq_refl dave_in_acme
              ltac:(vm_compute; lia) eq_refl)
    as (db' & Hreset & Hlogin & _).
  exists db'. now split.
Defined.

(** ** [api/index.ts]: records of another tenant *)
(** [min(6)] counts UTF-16 code units: three letters of two bytes each
    are too short, six ASCII letters are enough. *)
Example adminResetPasswordSchema_counts_code_units :
  Routes.adminResetPasswordSchema {| Routes.rp_newPassword := Value "ååå" |}
  = Contract.ZodError "Password must be at least 6 characters"
  /\ Routes.adminResetPasswordSchema {| Routes.rp_newPassword := Value "secret" |}
     = Contract.Parsed "secret".
Proof. split; reflexivity. Qed.

Lemma head_filter_unique {A K} `{EqDecision K} (key : A -> K) (l : list A) (x : A) :
  NoDup (map key l) -> x ∈ l ->
  head (filter (fun y => key y = key x) l) = Some x.
Proof.
  intros Hnd Hx. destruct (filter _ l) as [|v l'] eqn:E.
  - exfalso. assert (x ∈ filter (fun y => key y = key x) l)
      by now apply list_elem_of_filter.
    rewrite E in H. now apply not_elem_of_nil in H.
  - assert (Hv : v ∈ filter (fun y => key y = key x) l)
      by (rewrite E; apply list_elem_of_here).
    apply list_elem_of_filter in Hv as [He Hv].
    simpl. f_equal. now apply (NoDup_key_inj key l).
Qed.

Lemma select_where_bool_decide {A} (P : A -> Prop) `{forall x, Decision (P x)}
    (l : list A) :
  Storage.select_where (fun x => bool_decide (P x)) l = filter P l.
Proof.
  unfold Storage.select_where. induction l as [|x l IH]; [reflexivity|].
  rewrite !filter_cons, IH.
  destruct (decide (P x)) as [Hp|Hp].
  - rewrite decide_True; [reflexivity|now apply bool_decide_eq_true].
  - rewrite decide_False; [reflexivity|].
    rewrite bool_decide_eq_true. exact Hp.
Qed.

Lemma Api_getPolicy_unique db p :
  NoDup (map Policy.id (policies db)) -> p ∈ policies db ->
  Api.getPolicy db (Policy.id p) = Some p.
Proof.
  intros Hnd Hp. unfold Api.getPolicy.
  rewrite (select_where_bool_decide (fun q => Policy.id q = Policy.id p)).
  now apply (head_filter_unique Policy.id).
Qed.

Lemma Api_getInvestment_unique db i :
  NoDup (map Investment.id (investments db)) -> i ∈ investments db ->
  Api.getInvestment db (Investment.id i) = Some i.
Proof.
  intros Hnd Hi. unfold Api.getInvestment.
  rewrite (select_where_bool_decide (fun q => Investment.id q = Investment.id i)).
  now apply (head_filter_unique Investment.id).
Qed.

(** X23.  In [api/index.ts] the storage selects by id alone and the
    handlers compare the tenant.  With unique ids, for a policy and an
    investment that belong to another tenant than the session's, the
    handlers that address one record (get, delete, delete the document)
    answer 404 with the message an unknown id gets, and leave the
    database, the blob store and the disk as they were; the lists do
    not carry the records. *)
Theorem X23_api_foreign_records_not_found (f : Api.Faults) (db : Db)
    (w : Api.World) (user : Api.SessionUser) (p : Policy.t) (i : Investment.t) :
  primary_keys db -> p ∈ policies db -> i ∈ investments db ->
  Api.su_tenantId user <> Some (Policy.tenantId p) ->
  Api.su_tenantId user <> Some (Investment.tenantId i) ->
  Api.get_policy db (Some user) (Policy.id p)
  = (Sent 404 (Message "Policy not found"), db)
  /\ Api.delete_policy f db w (Some user) (Policy.id p)
     = (Sent 404 (Message "Policy not found"), db, w)
  /\ Api.delete_policy_document f db w (Some user) (Policy.id p)
     = (Sent 404 (Message "Policy not found"), db, w)
  /\ Api.get_investment db (Some user) (Investment.id i)
     = (Sent 404 (Message "Investment not found"), db)
  /\ Api.delete_investment db (Some user) (Investment.id i)
     = (Sent 404 (Message "Investment not found"), db)
  /\ ~ carries_policy (Api.get_policies db (Some user)).1 p
  /\ ~ carries_investment (Api.get_investments db (Some user)).1 i.
Proof.
  intros (_ & _ & Hp & Hi) Hpin Hiin Htp Hti.
  assert (Hcp : bool_decide (Some (Policy.tenantId p) = Api.su_tenantId user) = false)
    by (apply bool_decide_eq_false; congruence).
  assert (Hci : bool_decide (Some (Investment.tenantId i) = Api.su_tenantId user)
                = false)
    by (apply bool_decide_eq_false; congruence).
  unfold Api.get_policy, Api.delete_policy, Api.delete_policy_document,
    Api.get_investment, Api.delete_investment.
  rewrite (Api_getPolicy_unique db p Hp Hpin),
    (Api_getInvestment_unique db i Hi Hiin), Hcp, Hci. cbn [negb].
  repeat (split; [reflexivity|]). split.
  - cbn. intros Hin. apply list_elem_of_fmap in Hin as (q & Hq & Hin).
    unfold Api.getPoliciesByTenant in Hin. apply select_where_elem in Hin as [Hin _].
    apply Htp. subst p. cbn. unfold sql_eq in Hin.
    destruct (Api.su_tenantId user) as [t|]; [|discriminate].
    apply bool_decide_eq_true in Hin. congruence.
  - cbn. intros Hin. unfold Api.getInvestmentsByTenant in Hin.
    apply select_where_elem in Hin as [Hin _]. apply Hti. unfold sql_eq in Hin.
    destruct (Api.su_tenantId user) as [t|]; [|discriminate].
    apply bool_decide_eq_true in Hin. congruence.
Qed.

Lemma acme_db_keys : primary_keys acme_db.
Proof.
  repeat split; simpl; repeat (apply NoDup_cons; split;
    [rewrite ?elem_of_cons, ?elem_of_nil; intuition discriminate|]);
    apply NoDup_nil_2.
Qed.

Lemma X23_witness :
  Api.get_policy acme_db (Some globex_user) 1
  = (Sent 404 (Message "Policy not found"), acme_db)
  /\ Api.delete_investment acme_db (Some globex_user) 1
     = (Sent 404 (Message "Investment not found"), acme_db).
Proof.
  destruct (X23_api_foreign_records_not_found no_faults acme_db empty_world
              globex_user acme_policy acme_investment acme_db_keys
              ltac:(apply list_elem_of_here) ltac:(apply list_elem_of_here)
              ltac:(discriminate) ltac:(discriminate))
    as (H1 & _ & _ & _ & H5 & _).
  split; [exact H1|exact H5].
Defined.

(** ** [deleteBlobFile] *)

Lemma remove_elem (x y : string) (l : list string) :
  y ∈ Api.remove x l <-> y ∈ l /\ y <> x.
Proof. unfold Api.remove. rewrite list_elem_of_filter. tauto. Qed.

Ltac store_frame :=
  repeat match goal with
         | |- _ /\ _ => split
         | |- forall _, _ => intro
         | H : _ ∈ Api.remove _ _ |- _ => apply remove_elem in H as [? ?]
         | |- _ ∈ Api.remove _ _ => apply remove_elem; split
         | H : ?x <> ?x |- _ => now destruct H
         | |- _ \/ _ => first [left; reflexivity | right; reflexivity]
         end; auto.

(** X24.  [deleteBlobFile] removes at most the document it is given.
    Whatever the URL and whichever collaborator throws: every blob other
    than the URL and every file other than the URL's path under the
    working directory is still there, nothing is added to either store,
    at most one of the two stores changes, and when an error is logged
    nothing was removed at all. *)
Theorem X24_deleteBlobFile_removes_only_the_document (f : Api.Faults)
    (w : Api.World) (documentUrl : option string) :
  let w' := Api.deleteBlobFile f w documentUrl in
  let url := default "" documentUrl in
  (forall b, b ∈ Api.blobs w' -> b ∈ Api.blobs w)
  /\ (forall b, b ∈ Api.blobs w -> b <> url -> b ∈ Api.blobs w')
  /\ (forall p, p ∈ Api.files w' -> p ∈ Api.files w)
  /\ (forall p, p ∈ Api.files w -> p <> Api.path_join (Api.cwd w) url ->
        p ∈ Api.files w')
  /\ (Api.blobs w' = Api.blobs w \/ Api.files w' = Api.files w)
  /\ (Api.console_error w' <> Api.console_error w ->
      Api.blobs w' = Api.blobs w /\ Api.files w' = Api.files w)
  /\ Api.cwd w' = Api.cwd w.
Proof.
  intros w' url. subst w' url. unfold Api.deleteBlobFile.
  destruct (negb (Js.truthy_opt documentUrl)); [store_frame|].
  destruct (Js.startsWith _ "https://" && Js.includes _ "vercel-storage.com").
  - destruct (Api.del_throws f _); cbn; store_frame.
  - destruct (Js.startsWith _ "documents/"); [store_frame|].
    destruct (bool_decide _); [|store_frame].
    destruct (Api.unlinkSync_throws f _); cbn; store_frame.
Qed.

(** ** Document paths *)

Lemma prefix_head c s p q :
  String.prefix (String c p) s = true -> (c =? q)%char = false ->
  forall r, String.prefix (String q r) s = false.
Proof.
  intros H Hc r. destruct s as [|d s]; [discriminate|]. simpl in *.
  destruct (ascii_dec c d) as [<-|]; [|discriminate].
  destruct (ascii_dec q c) as [->|]; [|reflexivity].
  now rewrite Ascii.eqb_refl in Hc.
Qed.

Lemma old_format_not_blob d :
  old_format d = true ->
  Js.startsWith (default "" d) "https://" = false
  /\ Js.startsWith (default "" d) "/" = false.
Proof.
  unfold old_format, Js.startsWith. intros H. apply andb_true_iff in H as [_ H].
  split; apply (prefix_head _ _ _ _ H); reflexivity.
Qed.

(** X25.  [fixDocumentUrl] only ever hides a path.  Its result is the
    stored value or null, never another path; applying it twice is
    applying it once; and it answers null exactly for an empty or
    missing value and for a path of the old format
    [documents/tenant/...] that does not contain [uploads/] (Vercel blob
    URLs and absolute paths are never of that format). *)
Theorem X25_fixDocumentUrl_only_hides (documentUrl : option string) :
  (Api.fixDocumentUrl documentUrl = None
   \/ Api.fixDocumentUrl documentUrl = documentUrl)
  /\ Api.fixDocumentUrl (Api.fixDocumentUrl documentUrl)
     = Api.fixDocumentUrl documentUrl
  /\ (Api.fixDocumentUrl documentUrl = None <->
      Js.truthy_opt documentUrl = false
      \/ (old_format documentUrl = true
          /\ Js.includes (default "" documentUrl) "uploads/" = false)).
Proof.
  assert (Hchar : Api.fixDocumentUrl documentUrl = None <->
      Js.truthy_opt documentUrl = false
      \/ (old_format documentUrl = true
          /\ Js.includes (default "" documentUrl) "uploads/" = false)).
  { unfold Api.fixDocumentUrl.
    destruct (Js.truthy_opt documentUrl) eqn:Ht; cbn [negb];
      [|split; [now left|reflexivity]].
    destruct documentUrl as [s|]; [|discriminate]. cbn [default from_option id].
    destruct (Js.startsWith s "https://" && Js.includes s "vercel-storage.com")
      eqn:Hblob.
    { split; [discriminate|]. intros [H|[H _]]; [discriminate|].
      apply old_format_not_blob in H as [H _]. cbn [default from_option id] in H.
      now rewrite H in Hblob. }
    destruct (Js.startsWith s "/" || Js.includes s "uploads/") eqn:Hlocal.
    { split; [discriminate|]. intros [H|[H Hup]]; [discriminate|].
      apply old_format_not_blob in H as [_ H]. cbn [default from_option id] in H, Hup.
      now rewrite H, Hup in Hlocal. }
    apply orb_false_iff in Hlocal as [_ Hup].
    destruct (Js.startsWith s "documents/tenant/") eqn:Hold.
    - split; [|reflexivity]. intros _. right. unfold old_format.
      cbn [default from_option id]. now rewrite Ht, Hold.
    - split; [discriminate|]. intros [H|[H _]]; [discriminate|].
      unfold old_format in H. cbn [default from_option id] in H.
      rewrite Hold in H. now apply andb_true_iff in H as [_ H]. }
  assert (Hor : Api.fixDocumentUrl documentUrl = None
                \/ Api.fixDocumentUrl documentUrl = documentUrl).
  { unfold Api.fixDocumentUrl.
    destruct (Js.truthy_opt documentUrl) eqn:Ht; cbn [negb]; [|now left].
    destruct documentUrl as [s|]; [|discriminate]. cbn [default from_option id].
    destruct (_ && _); [now right|]. destruct (_ || _); [now right|].
    destruct (Js.startsWith s "documents/tenant/"); [now left|now right]. }
  split; [exact Hor|]. split; [|exact Hchar].
  destruct Hor as [H|H]; rewrite H; [reflexivity|exact H].
Qed.

(** ** The cleanup of old-format paths *)

Lemma set_policy_documentUrl_null p :
  Storage.set_policy Api.documentUrl_null p = without_document p.
Proof. now destruct p. Qed.

(** The row an id-list cleanup leaves. *)
Lemma cleanup_fold (l : list Policy.t) : forall db n,
  fold_left Api.cleanup_step l (db, n)
  = (Storage.set_policies db
       (map (fun p =>
               if bool_decide
                    (Policy.id p ∈
                     map Policy.id
                       (filter (fun q => old_format (Policy.documentUrl q) = true) l))
               then without_document p else p) (policies db))
       (policies_id_seq db),
     (n + Z.of_nat (length (filter (fun q => old_format (Policy.documentUrl q) = true) l)))%Z).
Proof.
  induction l as [|q l IH]; intros db n.
  - cbn. rewrite Z.add_0_r. f_equal.
    rewrite <- (set_policies_same db) at 1. f_equal.
    rewrite <- (map_id (policies db)) at 1. apply map_ext. intros p.
    rewrite bool_decide_eq_false_2; [reflexivity|apply not_elem_of_nil].
  - cbn [fold_left]. unfold Api.cleanup_step at 2. fold (old_format (Policy.documentUrl q)).
    rewrite filter_cons.
    destruct (old_format (Policy.documentUrl q)) eqn:Hold.
    + rewrite decide_True by reflexivity. rewrite IH. cbn [length map].
      f_equal; [|lia].
      unfold Api.updatePolicy, Storage.update_where, Storage.set_policies.
      cbn [snd fst policies policies_id_seq tenants users investments
           investments_id_seq].
      f_equal. rewrite map_map. apply map_ext. intros p.
      rewrite set_policy_documentUrl_null.
      destruct (bool_decide (Policy.id p = Policy.id q)) eqn:Hid.
      * apply bool_decide_eq_true in Hid.
        rewrite (bool_decide_eq_true_2 (Policy.id p ∈ Policy.id q :: _))
          by (rewrite Hid; apply list_elem_of_here).
        now destruct (bool_decide _).
      * apply bool_decide_eq_false in Hid.
        destruct (bool_decide (Policy.id p ∈ map Policy.id _)) eqn:Hin.
        -- apply bool_decide_eq_true in Hin.
           rewrite bool_decide_eq_true_2; [reflexivity|].
           apply elem_of_cons. now right.
        -- apply bool_decide_eq_false in Hin.
           rewrite bool_decide_eq_false_2; [reflexivity|].
           intros Hc. apply elem_of_cons in Hc as [Hc|Hc]; contradiction.
    + rewrite decide_False by discriminate. apply IH.
Qed.

Lemma cleanup_fold_clean (l : list Policy.t) db n :
  Forall (fun q => old_format (Policy.documentUrl q) = false) l ->
  fold_left Api.cleanup_step l (db, n) = (db, n).
Proof.
  intros H. revert db n. induction H as [|q l Hq _ IH]; intros db n; [reflexivity|].
  cbn [fold_left]. unfold Api.cleanup_step at 2.
  fold (old_format (Policy.documentUrl q)). rewrite Hq. apply IH.
Qed.

Lemma cleaned_tenantId tenant p :
  Policy.tenantId (cleaned tenant p) = Policy.tenantId p.
Proof. unfold cleaned. now destruct (_ && _). Qed.

Lemma cleaned_old_format tenant p :
  sql_eq (Policy.tenantId p) tenant = true ->
  old_format (Policy.documentUrl (cleaned tenant p)) = false.
Proof.
  intros Hin. unfold cleaned. rewrite Hin. cbn [andb].
  destruct (old_format (Policy.documentUrl p)) eqn:E; [reflexivity|exact E].
Qed.

(** X26.  The cleanup endpoint clears the old-format paths of the
    session's tenant, and only those.  With unique policy ids (the
    storage of this file updates by id alone): the policies afterwards
    are the policies before with [documentUrl] set to NULL on exactly
    the tenant's rows that held an old-format path; [updatedCount] is
    the number of those rows; no policy the tenant then has holds such a
    path; the other tables are untouched; and a second run reports 0 and
    changes nothing. *)
Theorem X26_cleanup_clears_old_format_paths (db : Db) (user : Api.SessionUser) :
  NoDup (map Policy.id (policies db)) ->
  let tenant := Api.su_tenantId user in
  exists db',
    Api.post_policies_cleanup_document_urls db (Some user)
    = (inr (Z.of_nat
              (length (filter (fun p => old_format (Policy.documentUrl p) = true)
                              (Api.getPoliciesByTenant db tenant)))), db')
    /\ policies db' = map (cleaned tenant) (policies db)
    /\ (forall p, p ∈ Api.getPoliciesByTenant db' tenant ->
          old_format (Policy.documentUrl p) = false)
    /\ tenants db' = tenants db /\ users db' = users db
    /\ investments db' = investments db
    /\ Api.post_policies_cleanup_document_urls db' (Some user) = (inr 0%Z, db').
Proof.
  intros Hnd tenant.
  unfold Api.post_policies_cleanup_document_urls. fold tenant.
  rewrite cleanup_fold. rewrite Z.add_0_l.
  set (db' := Storage.set_policies db _ _).
  assert (Hmap : policies db' = map (cleaned tenant) (policies db)).
  { subst db'. cbn [policies Storage.set_policies].
    apply map_ext_in. intros p Hp. apply list_elem_of_In in Hp.
    unfold cleaned.
    destruct (sql_eq (Policy.tenantId p) tenant && old_format (Policy.documentUrl p))
      eqn:E.
    - rewrite bool_decide_eq_true_2; [reflexivity|].
      apply andb_true_iff in E as [E1 E2].
      apply list_elem_of_fmap. exists p. split; [reflexivity|].
      apply list_elem_of_filter. split; [exact E2|].
      apply select_where_elem. now split.
    - rewrite bool_decide_eq_false_2; [reflexivity|].
      intros Hin. apply list_elem_of_fmap in Hin as (q & Hid & Hq).
      apply list_elem_of_filter in Hq as [Hold Hq].
      apply select_where_elem in Hq as [Hten Hq].
      assert (q = p) as -> by (apply (NoDup_key_inj Policy.id (policies db)); auto).
      now rewrite Hten, Hold in E. }
  assert (Hclean : forall p, p ∈ Api.getPoliciesByTenant db' tenant ->
                             old_format (Policy.documentUrl p) = false).
  { intros p Hp. unfold Api.getPoliciesByTenant in Hp.
    apply select_where_elem in Hp as [Hten Hp]. rewrite Hmap in Hp.
    apply list_elem_of_fmap in Hp as (q & -> & Hq).
    rewrite cleaned_tenantId in Hten. now apply cleaned_old_format. }
  exists db'. split; [reflexivity|]. split; [exact Hmap|].
  split; [exact Hclean|]. split; [reflexivity|]. split; [reflexivity|].
  split; [reflexivity|].
  rewrite cleanup_fold_clean; [reflexivity|].
  apply Forall_forall. exact Hclean.
Qed.

Lemma X26_witness :
  NoDup (map Policy.id (policies old_path_db))
  /\ exists db',
       Api.post_policies_cleanup_document_urls old_path_db (Some acme_user)
       = (inr 1%Z, db')
       /\ Api.post_policies_cleanup_document_urls db' (Some acme_user)
          = (inr 0%Z, db').
Proof.
  assert (Hnd : NoDup (map Policy.id (policies old_path_db)))
    by (apply NoDup_singleton).
  split; [exact Hnd|].
  destruct (X26_cleanup_clears_old_format_paths old_path_db acme_user Hnd)
    as (db' & Hrun & _ & _ & _ & _ & _ & Hagain).
  exists db'. split; [exact Hrun|exact Hagain].
Defined.

(** ** Deleting the document of a policy *)

Lemma Api_updatePolicy_getPolicy db id updates x :
  Api.getPolicy (Api.updatePolicy db id updates).2 x
  = (fun r => if bool_decide (Policy.id r = id)
              then Storage.set_policy updates r else r)
    <$> Api.getPolicy db x.
Proof.
  unfold Api.getPolicy, Api.updatePolicy, Storage.update_where.
  cbn [snd policies Storage.set_policies].
  rewrite !(select_where_bool_decide (fun q => Policy.id q = x)).
  apply (head_filter_key_map Policy.id). intros r. now destruct (bool_decide _).
Qed.

Lemma Api_getPolicy_id db x p : Api.getPolicy db x = Some p -> Policy.id p = x.
Proof.
  unfold Api.getPolicy. intros H. apply head_Some_elem_of in H.
  apply select_where_elem in H as [H _]. now apply bool_decide_eq_true in H.
Qed.

(** X27.  Deleting the document of a policy of the session's tenant.
    With unique policy ids the endpoint answers 200; the policy is then
    found with [documentUrl] NULL (as it was, when it held no document),
    every other policy is found as before and the other tables are
    untouched; the file is handed to [deleteBlobFile] once, when there
    was one; and repeating the request answers 200 again and changes
    neither the database nor the stores. *)
Theorem X27_document_deleted_once (f : Api.Faults) (db : Db) (w : Api.World)
    (user : Api.SessionUser) (p : Policy.t) :
  NoDup (map Policy.id (policies db)) -> p ∈ policies db ->
  Api.su_tenantId user = Some (Policy.tenantId p) ->
  exists db' w',
    Api.delete_policy_document f db w (Some user) (Policy.id p)
    = (Sent 200 (Message "Document deleted successfully"), db', w')
    /\ Api.getPolicy db' (Policy.id p) = Some (document_removed p)
    /\ Js.truthy_opt (Policy.documentUrl (document_removed p)) = false
    /\ (forall other, other <> Policy.id p ->
          Api.getPolicy db' other = Api.getPolicy db other)
    /\ tenants db' = tenants db /\ users db' = users db
    /\ investments db' = investments db
    /\ w' = (if Js.truthy_opt (Policy.documentUrl p)
             then Api.deleteBlobFile f w (Policy.documentUrl p) else w)
    /\ Api.delete_policy_document f db' w' (Some user) (Policy.id p)
       = (Sent 200 (Message "Document deleted successfully"), db', w').
Proof.
  intros Hnd Hp Hten.
  pose proof (Api_getPolicy_unique db p Hnd Hp) as Hget.
  assert (Hown : forall q, Policy.tenantId q = Policy.tenantId p ->
            negb (bool_decide (Some (Policy.tenantId q) = Api.su_tenantId user))
            = false).
  { intros q Hq. rewrite Hten, Hq. now rewrite bool_decide_eq_true_2. }
  unfold Api.delete_policy_document, document_removed.
  rewrite Hget, (Hown p eq_refl).
  destruct (Js.truthy_opt (Policy.documentUrl p)) eqn:Ht.
  - set (db' := (Api.updatePolicy db (Policy.id p) Api.documentUrl_null).2).
    assert (Hget' : Api.getPolicy db' (Policy.id p) = Some (without_document p)).
    { subst db'. rewrite Api_updatePolicy_getPolicy, Hget. cbn.
      rewrite bool_decide_eq_true_2 by reflexivity.
      now rewrite set_policy_documentUrl_null. }
    exists db', (Api.deleteBlobFile f w (Policy.documentUrl p)).
    split; [reflexivity|]. split; [exact Hget'|]. split; [reflexivity|].
    split.
    { intros other Hother. subst db'. rewrite Api_updatePolicy_getPolicy.
      destruct (Api.getPolicy db other) as [v|] eqn:Hv; [|reflexivity]. cbn.
      apply Api_getPolicy_id in Hv.
      rewrite bool_decide_eq_false_2 by congruence. reflexivity. }
    split; [reflexivity|]. split; [reflexivity|]. split; [reflexivity|].
    split; [reflexivity|].
    rewrite Hget', (Hown (without_document p) eq_refl). reflexivity.
  - exists db, w. split; [reflexivity|]. split; [exact Hget|].
    split; [exact Ht|]. split; [reflexivity|].
    split; [reflexivity|]. split; [reflexivity|]. split; [reflexivity|].
    split; [reflexivity|].
    rewrite Hget, (Hown p eq_refl), Ht. reflexivity.
Qed.

Lemma X27_witness :
  exists db' w',
    Api.delete_policy_document no_faults blob_db one_blob_world (Some acme_user) 1
    = (Sent 200 (Message "Document deleted successfully"), db', w')
    /\ Api.getPolicy db' 1 = Some (without_document (acme_policy_with blob_url))
    /\ Api.blobs w' = [].
Proof.
  destruct (X27_document_deleted_once no_faults blob_db one_blob_world acme_user
              (acme_policy_with blob_url) ltac:(apply NoDup_singleton)
              ltac:(apply list_elem_of_here) eq_refl)
    as (db' & w' & Hrun & Hget & _ & _ & _ & _ & _ & Hw & _).
  exists db', w'. split; [exact Hrun|]. split; [exact Hget|].
  rewrite Hw. reflexivity.
Defined.

(** ** Register, then ask who is logged in *)

Lemma resolve_tenant_id db d tid now tn db1 :
  resolve_tenant db d tid now = (Some tn, db1) ->
  tn ∈ tenants db \/ Tenant.id tn = tid.
Proof.
  unfold resolve_tenant, Storage.createTenant.
  destruct (Storage.getTenantByDomain db d) as [t|] eqn:Hget.
  - intros H. injection H as -> _. left.
    unfold Storage.getTenantByDomain in Hget.
    apply head_Some_elem_of, list_elem_of_filter in Hget. tauto.
  - destruct (Storage.tenant_conflict db _); [discriminate|].
    intros H. injection H as <- _. now right.
Qed.

Lemma filter_none {A} (P : A -> Prop) `{forall x, Decision (P x)} (l : list A) :
  (forall x, x ∈ l -> ~ P x) -> filter P l = [].
Proof.
  induction l as [|x l IH]; intros Hall; [reflexivity|].
  rewrite filter_cons. destruct (decide (P x)) as [Hp|_].
  - destruct (Hall x (list_elem_of_here x l) Hp).
  - apply IH. intros y Hy. apply Hall. apply elem_of_cons. now right.
Qed.

Lemma string_min_length n message p s :
  Contract.string_min n message p = Contract.Parsed s -> (n <= Js.length s)%nat.
Proof.
  unfold Contract.string_min, Contract.bind.
  destruct p as [| |x]; simpl; try discriminate.
  destruct (n <=? Js.length x)%nat eqn:E; [|discriminate].
  intros H. injection H as <-. now apply Nat.leb_le.
Qed.

Section WhoAmI.

Variable is_email : string -> bool.
Variable bcrypt_hash : string -> string.

Lemma registerSchema_domain_min body input :
  Routes.registerSchema is_email body = Contract.Parsed input ->
  Routes.rb_domain body = Value (Routes.ri_domain input)
  /\ (2 <= Js.length (Routes.ri_domain input))%nat.
Proof.
  unfold Routes.registerSchema, Contract.bind.
  destruct (Contract.string_ (Routes.rb_email body)) as [|email]; [discriminate|].
  destruct (is_email email); [|discriminate].
  destruct (Contract.string_min 6 _ (Routes.rb_password body)); [discriminate|].
  destruct (Contract.string_optional (Routes.rb_firstName body)); [discriminate|].
  destruct (Contract.string_optional (Routes.rb_lastName body)); [discriminate|].
  destruct (Contract.string_min 2 _ (Routes.rb_domain body)) as [|domain] eqn:E;
    [discriminate|].
  intros H. injection H as <-. cbn. split.
  - now apply string_min_Parsed in E.
  - now apply string_min_length in E.
Qed.

Lemma post_auth_register_user_id db s body tid uid now au db' s' :
  Routes.post_auth_register is_email bcrypt_hash db s body tid uid now
  = (Sent 201 (OfAuthUser au), db', s') ->
  au_id au = uid.
Proof.
  unfold Routes.post_auth_register.
  destruct (Routes.registerSchema is_email body) as [m|input]; [discriminate|].
  destruct (Storage.getUserByEmail db _); [discriminate|].
  destruct (match Storage.getTenantByDomain db _ with Some _ => _ | None => _ end)
    as [[tn|] db1]; [|discriminate].
  unfold Storage.createUser.
  destruct (Storage.user_conflict db1 _); [discriminate|].
  intros H. now injection H as <- _ _.
Qed.

(** X28.  Register, then ask who is logged in.  Where the tenant ids
    are unique and the identifiers in play are not empty, after a
    registration that answered 201 the current-user endpoint, asked in
    the session the registration left, answers with the account the
    registration returned and with the domain it registered under. *)
Theorem X28_register_then_current_user (db : Db) (s : Session)
    (body : Routes.RegisterBody) (newTenantId newUserId : string) (now : Z)
    (account : AuthUser) (db' : Db) (s' : Session) :
  NoDup (map Tenant.id (tenants db)) ->
  ids_not_empty db newTenantId newUserId ->
  Routes.post_auth_register is_email bcrypt_hash db s body
    newTenantId newUserId now
  = (Sent 201 (OfAuthUser account), db', s') ->
  exists domain,
    Routes.rb_domain body = Value domain
    /\ Routes.get_auth_user db' s' = inr (current_user account (Some domain)).
Proof.
  intros Hnd (Htid & Huid & Hids) Hreg.
  pose proof (post_auth_register_user_id _ _ _ _ _ _ _ _ _ Hreg) as Hid.
  apply post_auth_register_created in Hreg
    as (input & tn & db1 & user & Hparse & _ & Hres & Hc & Husers & Htens & _ & _
        & _ & _ & Hmember & -> & ->).
  apply registerSchema_domain_min in Hparse as [Hdom Hlen].
  exists (Routes.ri_domain input). split; [exact Hdom|].
  pose proof (resolve_tenant_spec is_email bcrypt_hash _ _ _ _ _ _ Hres)
    as (Hu1 & Htd & Hget & Hten).
  pose proof (resolve_tenant_id _ _ _ _ _ _ Hres) as Horigin.
  cbn [Routes.auth_user au_id] in Hid.
  assert (Hfound : Storage.getUser db' (User.id user) = Some user).
  { unfold Storage.getUser. rewrite Husers, filter_app.
    rewrite (filter_none (fun u => User.id u = User.id user) (users db)).
    - simpl. now rewrite filter_cons_True.
    - intros v Hv. rewrite <- Hu1 in Hv.
      exact (proj1 (user_conflict_fresh _ _ _ Hc Hv)). }
  assert (Htn : Storage.getTenant db' (Tenant.id tn) = Some tn).
  { unfold Storage.getTenant. rewrite Htens.
    apply (head_filter_unique Tenant.id).
    - destruct Hten as [->|[-> Hfresh]]; [exact Hnd|].
      now apply NoDup_tenant_ids_app.
    - now apply (getTenantByDomain_domain is_email bcrypt_hash db1
                   (Routes.ri_domain input)). }
  assert (Hne : Tenant.id tn <> "").
  { destruct Horigin as [Hin| ->]; [now apply Hids|exact Htid]. }
  unfold Routes.get_auth_user. cbn [userId mbind option_bind].
  assert (Js.truthy_opt (Some (User.id user)) = true) as ->.
  { rewrite Hid. unfold Js.truthy_opt, Js.truthy. now destruct newUserId. }
  cbn [negb]. rewrite Hfound, Hmember. cbn [mbind option_bind]. rewrite Htn, Htd.
  assert (Js.truthy_opt (Some (Tenant.id tn)) = true) as ->.
  { unfold Js.truthy_opt, Js.truthy. now destruct (Tenant.id tn). }
  assert (Js.truthy_opt (Some (Routes.ri_domain input)) = true) as ->.
  { unfold Js.truthy_opt, Js.truthy.
    destruct (Routes.ri_domain input); [cbv in Hlen; lia|reflexivity]. }
  unfold current_user, Routes.auth_user. cbn. now rewrite Hmember.
Qed.

End WhoAmI.

Lemma X28_witness :
  exists account db' s',
    Routes.post_auth_register any_email toy_hash empty_db anonymous
      (reg_body (registration "alice@x.com" "acme" "t-1" "u-1"))
      "t-1" "u-1" 1767225600000
    = (Sent 201 (OfAuthUser account), db', s')
    /\ Routes.get_auth_user db' s' = inr (current_user account (Some "acme")).
Proof.
  do 3 eexists. split; [vm_compute; reflexivity|].
  destruct (X28_register_then_current_user any_email toy_hash empty_db anonymous
              (reg_body (registration "alice@x.com" "acme" "t-1" "u-1"))
              "t-1" "u-1" 1767225600000 _ _ _ (NoDup_nil_2 (A:=string))
              ltac:(split; [discriminate|split; [discriminate|]];
                    intros t Ht; now apply not_elem_of_nil in Ht)
              ltac:(vm_compute; reflexivity))
    as (domain & Hd & Hwho).
  injection Hd as <-. exact Hwho.
Defined.

(** ** [buildUrl] *)

Lemma substring_prefix (a b : string) :
  String.substring 0 (String.length a) (a ++ b) = a.
Proof.
  induction a as [|c a IH]; simpl.
  - now destruct b.
  - now rewrite IH.
Qed.

Lemma substring_whole (b : string) : String.substring 0 (String.length b) b = b.
Proof. induction b as [|c b IH]; simpl; [reflexivity|now rewrite IH]. Qed.

Lemma substring_skip (a b : string) (n m : nat) :
  String.substring (String.length a + n) m (a ++ b) = String.substring n m b.
Proof. induction a as [|c a IH]; simpl; [reflexivity|exact IH]. Qed.

Lemma length_append (a b : string) :
  String.length (a ++ b) = (String.length a + String.length b)%nat.
Proof. induction a as [|c a IH]; simpl; [reflexivity|now rewrite IH]. Qed.

Lemma index_dollar_cons c r :
  String.index 0 "$" (String c r) = None ->
  Ascii.eqb c "$" = false /\ String.index 0 "$" r = None.
Proof.
  cbn [String.index String.prefix].
  destruct (ascii_dec "$" c) as [<-|Hc]; [now destruct r|].
  intros H. split.
  - apply Ascii.eqb_neq. congruence.
  - now destruct (String.index 0 "$" r).
Qed.

Lemma substitution_plain matched before after value :
  Js.includes value "$" = false ->
  Js.substitution matched before after value = value.
Proof.
  unfold Js.includes. intros H.
  assert (Hnone : String.index 0 "$" value = None)
    by (destruct (String.index 0 "$" value); [discriminate|reflexivity]).
  clear H. induction value as [|c r IH]; [reflexivity|].
  apply index_dollar_cons in Hnone as [Hc Hr].
  cbn [Js.substitution]. rewrite Hc. cbn [negb]. now rewrite IH.
Qed.

(** X29.  [buildUrl] fills the placeholders of a path.  Without
    [params] the path is returned.  Entries whose placeholder [:key]
    does not occur in the path leave it as it is.  And for a path whose
    first [:key] sits between [before] and [rest], the entry of [key]
    with a value free of dollar signs gives [before], the value, [rest]:
    that occurrence only is replaced. *)
Theorem X29_buildUrl_fills_placeholders :
  (forall path, Contract.buildUrl path None = path)
  /\ (forall path entries,
        Forall (fun entry => Js.includes path (":" ++ entry.1) = false) entries ->
        Contract.buildUrl path (Some entries) = path)
  /\ (forall before key value rest,
        String.index 0 (":" ++ key) (before ++ (":" ++ key) ++ rest)
        = Some (String.length before) ->
        Js.includes value "$" = false ->
        Contract.buildUrl (before ++ (":" ++ key) ++ rest) (Some [(key, value)])
        = before ++ value ++ rest).
Proof.
  split; [reflexivity|]. split.
  - intros path entries H. unfold Contract.buildUrl.
    induction H as [|[key value] entries Hk _ IH]; [reflexivity|].
    cbn [fold_left]. cbn [fst] in Hk. now rewrite Hk.
  - intros before key value rest Hfirst Hplain.
    unfold Contract.buildUrl. cbn [fold_left].
    unfold Js.includes, Js.replace. rewrite Hfirst.
    rewrite substitution_plain by exact Hplain.
    rewrite substring_prefix.
    rewrite <- (Nat.add_0_r (String.length (":" ++ key))) at 1.
    rewrite substring_skip, substring_skip.
    match goal with
    | |- context [String.substring 0 ?n rest] =>
        replace n with (String.length rest)
          by (rewrite !length_append; cbn [String.length]; lia)
    end.
    now rewrite substring_whole.
Qed.

Lemma X29_witness :
  Contract.buildUrl "/api/policies/:id" (Some [("id", "5")]) = "/api/policies/5".
Proof.
  destruct X29_buildUrl_fills_placeholders as (_ & _ & H).
  exact (H "/api/policies/" "id" "5" "" eq_refl eq_refl).
Defined.

(** ** A removed member logs in again *)

Lemma removeUserFromTenant_getUser db target tenant x :
  Storage.getUser (Storage.removeUserFromTenant db target tenant) x
  = (fun r => if Storage.user_in target tenant r then removed r else r)
    <$> Storage.getUser db x.
Proof.
  unfold Storage.getUser. rewrite removeUserFromTenant_users.
  apply (head_filter_key_map User.id). intros r.
  now destruct (Storage.user_in target tenant r).
Qed.

Lemma removeUserFromTenant_getUserByEmail db target tenant email :
  Storage.getUserByEmail (Storage.removeUserFromTenant db target tenant) email
  = (fun r => if Storage.user_in target tenant r then removed r else r)
    <$> Storage.getUserByEmail db email.
Proof.
  unfold Storage.getUserByEmail. rewrite removeUserFromTenant_users.
  apply (head_filter_key_map User.email). intros r.
  now destruct (Storage.user_in target tenant r).
Qed.

Section RemovedMember.

Variable is_email : string -> bool.
Variable bcrypt_compare : string -> string -> bool.

(** X30.  A removed member logs in again.  An admin removes another
    member of the tenant; the password of the account is untouched, so
    a login with it still succeeds, but it now answers with an account
    that has no tenant and the role [user], leaves a session without
    tenant, the admin endpoints answer 403 to that session, and the
    current-user endpoint reports neither tenant nor domain.  (E-mail
    addresses are unique, the member's is one the login schema accepts,
    and the member's id is not empty.) *)
Theorem X30_removed_member_logs_in (db : Db) (s : Session) (u : User.t)
    (password hash : string) (s0 : Session) :
  unique_emails db -> authenticated s -> is_admin db s ->
  Storage.getUser db (User.id u) = Some u -> in_session_tenant u s ->
  userId s <> Some (User.id u) -> User.id u <> "" ->
  is_email (User.email u) = true ->
  User.passwordHash u = Some hash -> hash <> "" ->
  bcrypt_compare password hash = true ->
  exists db' s',
    Routes.delete_admin_user db s (User.id u) = (Sent 204 NoBody, db')
    /\ Routes.post_auth_login is_email bcrypt_compare db' s0
         (credentials (User.email u) password)
       = (Sent 200 (OfAuthUser (Routes.auth_user (removed u))), db', s')
    /\ au_tenantId (Routes.auth_user (removed u)) = None
    /\ au_role (Routes.auth_user (removed u)) = Some "user"
    /\ s' = {| userId := Some (User.id u); tenantId := None |}
    /\ ~ is_admin db' s'
    /\ Routes.get_admin_users db' s'
       = (Sent 403 (Message "Admin access required"), db')
    /\ Routes.get_auth_user db' s'
       = inr (current_user (Routes.auth_user (removed u)) None).
Proof.
  intros Hmail Hauth Hadmin Hget Hsame Hother Hid Hok Hhash Hne Hcmp.
  pose proof Hget as Hget'. apply getUser_elem in Hget' as [Hu _].
  assert (Hin : Storage.user_in (User.id u) (tenantId s) u = true)
    by (apply user_in_spec; split; [reflexivity|exact Hsame]).
  set (db' := Storage.removeUserFromTenant db (User.id u) (tenantId s)).
  assert (Hfound : Storage.getUser db' (User.id u) = Some (removed u)).
  { subst db'. rewrite removeUserFromTenant_getUser, Hget. cbn. now rewrite Hin. }
  assert (Hnot : ~ is_admin db' {| userId := Some (User.id u); tenantId := None |}).
  { intros (v & Hv & Hrole). cbn [userId mbind option_bind] in Hv.
    rewrite Hfound in Hv. injection Hv as <-. discriminate Hrole. }
  assert (Htruthy : Js.truthy_opt (Some (User.id u)) = true).
  { unfold Js.truthy_opt, Js.truthy. now destruct (User.id u). }
  exists db', {| userId := Some (User.id u); tenantId := None |}.
  split; [|split; [|split; [reflexivity|split; [reflexivity|split;
    [reflexivity|split; [exact Hnot|split]]]]]].
  - unfold Routes.delete_admin_user.
    rewrite isAuthenticated_next by exact Hauth.
    rewrite isAdmin_next by exact Hadmin.
    rewrite bool_decide_eq_false_2 by congruence. reflexivity.
  - unfold Routes.post_auth_login, Routes.loginSchema, credentials, Contract.bind,
      Contract.string_.
    cbn [Routes.lb_email Routes.lb_password]. rewrite Hok.
    cbn [Routes.li_email Routes.li_password].
    subst db'. rewrite removeUserFromTenant_getUserByEmail.
    rewrite (getUserByEmail_unique db u Hmail Hu).
    cbn [fmap option_fmap option_map]. rewrite Hin.
    cbn [removed Storage.with_role Storage.with_tenantId User.passwordHash
         User.tenantId User.id].
    rewrite Hhash. cbn [default from_option id]. rewrite Hcmp.
    assert (Js.truthy_opt (Some hash) = true) as ->.
    { unfold Js.truthy_opt, Js.truthy. now destruct hash. }
    reflexivity.
  - unfold Routes.get_admin_users.
    rewrite isAuthenticated_next by exact Htruthy.
    now apply isAdmin_rejects.
  - unfold Routes.get_auth_user. cbn [userId mbind option_bind].
    rewrite Htruthy, Hfound. reflexivity.
Qed.

End RemovedMember.

Lemma X30_witness :
  exists db' s',
    Routes.delete_admin_user two_tenants_db acme_session "u-dave"
    = (Sent 204 NoBody, db')
    /\ Routes.post_auth_login any_email toy_compare db' anonymous
         (credentials "dave@x.com" "dave")
       = (Sent 200 (OfAuthUser (Routes.auth_user (removed dave))), db', s')
    /\ tenantId s' = None.
Proof.
  destruct (X30_removed_member_logs_in any_email toy_compare two_tenants_db
              acme_session dave "dave" "$2a$10$dave" anonymous two_tenants_emails
              eq_refl alice_is_admin eq_refl dave_in_acme
              ltac:(discriminate) ltac:(discriminate) eq_refl eq_refl
              ltac:(discriminate) eq_refl)
    as (db' & s' & Hdel & Hlogin & _ & _ & Hs & _).
  exists db', s'. split; [exact Hdel|]. split; [exact Hlogin|].
  now rewrite Hs.
Defined.
